(** * Shopnosis dashboard pipeline: a shallow embedding and its properties

    The development follows the Python sources of [charts_model]:
    - [models/schemas.py]          -> [Module Schemas]
    - [utils/layout.py]            -> [Module LayoutManager]
    - [services/cleaner.py]        -> [Module DataCleaner]
    - [services/filter_builder.py] -> [Module FilterBuilder]
    - [services/kpi_builder.py]    -> [Module KPIBuilder]
    - [services/recommender.py]    -> [Module Recommender]
    - [services/viz_builder.py]    -> [Module VizBuilder]
    - [routes/dashboard.py]        -> [Module Dashboard]
    with [Module Py] for the Python built-ins and [Module Frame] for the
    pandas operations the sources call.

    Part I holds the embedding (definitions only), Part II the lemmas and
    theorems.

    Conventions of the embedding.
    - Python [str] is [string] (ASCII); Python [int] used as a size or an
      index is [nat].
    - A Python/NumPy float is a double.  A finite double is kept as the
      rational [Q] it denotes; a float that may be NaN is [option Q] with
      [None] for NaN; infinities are outside the embedding.  Comparisons
      of doubles are exact and are those of [Q].  Arithmetic on doubles
      rounds, so it is not the arithmetic of [Q]: the operations on
      floats are parameters of the embedding (the class [Frame.Numerics]),
      and a property proved for every instance holds of the doubles
      whatever they round to.  Examples run on exact arithmetic
      ([plain_numerics]); where one states what a float computation
      yields, its inputs are small integers and dyadic fractions, on
      which no operation of that computation rounds.
    - A ratio of two counts that is compared with a decimal threshold
      ([numeric_count / total_count > 0.8] and the like) is kept exact:
      the rounded quotient and the rounded threshold compare as the exact
      ones for every count below 2^50.
    - A Python [dict] whose iteration order matters is an association list
      in insertion order.
    - A function whose body is wrapped in [try: ... except: return None], or
      that falls off its end, returns an [option].
    - What pandas, NumPy and scikit-learn compute from text or by iteration
      (parsing, printing, regular expressions, sums, quantiles, square
      roots, scaling, k-means) is a parameter: the classes [Frame.Pandas],
      [Frame.Numerics] and [Recommender.Sklearn]; so are the figures that
      Plotly draws ([VizBuilder.Plotly]). *)

From Stdlib Require Import List String Ascii ZArith QArith Bool Arith Lia.
From Stdlib Require Import DecimalString Permutation Sorted Qround Qabs Lqa.
Import ListNotations.
Close Scope Q_scope.
Open Scope string_scope.
Open Scope list_scope.
Open Scope nat_scope.

(* ================================================================== *)
(** * Part I: the embedding                                            *)
(* ================================================================== *)

(** ** Python built-ins on strings and lists *)

Module Py.

(** [str(n)] for a non-negative [int]. *)
Definition str_of_nat (n : nat) : string :=
  NilEmpty.string_of_uint (Nat.to_uint n).

Definition is_lower (c : ascii) : bool :=
  (97 <=? nat_of_ascii c) && (nat_of_ascii c <=? 122).

Definition is_upper (c : ascii) : bool :=
  (65 <=? nat_of_ascii c) && (nat_of_ascii c <=? 90).

Definition to_upper (c : ascii) : ascii :=
  if is_lower c then ascii_of_nat (nat_of_ascii c - 32) else c.

Definition to_lower (c : ascii) : ascii :=
  if is_upper c then ascii_of_nat (nat_of_ascii c + 32) else c.

Fixpoint map_chars (f : ascii -> ascii) (s : string) : string :=
  match s with
  | EmptyString => EmptyString
  | String c s' => String (f c) (map_chars f s')
  end.

(** [s.lower()] *)
Definition lower (s : string) : string := map_chars to_lower s.

(** [s.replace(a, b)] for single characters [a] and [b]. *)
Definition replace_char (a b : ascii) (s : string) : string :=
  map_chars (fun c => if Ascii.eqb c a then b else c) s.

(** [s.title()]: a cased character is upper-cased when the character
    before it is not cased, and lower-cased otherwise. *)
Fixpoint title_from (previous_is_cased : bool) (s : string) : string :=
  match s with
  | EmptyString => EmptyString
  | String c s' =>
      if is_lower c || is_upper c
      then String (if previous_is_cased then to_lower c else to_upper c)
                  (title_from true s')
      else String c (title_from false s')
  end.

Definition title (s : string) : string := title_from false s.

(** [sub in s] *)
Fixpoint contains (sub s : string) : bool :=
  prefix sub s ||
  match s with
  | EmptyString => false
  | String _ s' => contains sub s'
  end.

(** [enumerate(l)] *)
Fixpoint enumerate_from {A : Type} (i : nat) (l : list A) : list (nat * A) :=
  match l with
  | [] => []
  | x :: l' => (i, x) :: enumerate_from (S i) l'
  end.

Definition enumerate {A : Type} (l : list A) : list (nat * A) :=
  enumerate_from 0 l.

(** [sorted(l, key=key, reverse=True)].  CPython's sort is stable, and
    [reverse=True] keeps elements with equal keys in their original order;
    the embedding is the stable insertion sort with that contract. *)
Fixpoint insert_desc {A : Type} (key : A -> nat) (x : A) (l : list A) : list A :=
  match l with
  | [] => [x]
  | y :: l' =>
      if key x <? key y then y :: insert_desc key x l' else x :: y :: l'
  end.

Fixpoint sorted_desc {A : Type} (key : A -> nat) (l : list A) : list A :=
  match l with
  | [] => []
  | x :: l' => insert_desc key x (sorted_desc key l')
  end.

(** An f-string: literal text and floats formatted to a fixed number of
    digits ([f"{x:.2f}"]); a float that may be NaN is [None]. *)
Inductive piece : Type :=
| Str (s : string)
| Fixed (digits : nat) (x : option Q).

Definition text := list piece.

(** A [dict] from [str] to lists, in insertion order:
    [if k not in d: d[k] = []] followed by [d[k].append(v)]. *)
Fixpoint dict_append {A : Type} (k : string) (v : A)
         (d : list (string * list A)) : list (string * list A) :=
  match d with
  | [] => [(k, [v])]
  | (k', vs) :: d' =>
      if String.eqb k k' then (k', vs ++ [v]) :: d'
      else (k', vs) :: dict_append k v d'
  end.

(** [d.get(k)] on an association list. *)
Fixpoint dict_get {A : Type} (k : string) (d : list (string * A)) : option A :=
  match d with
  | [] => None
  | (k', v) :: d' => if String.eqb k k' then Some v else dict_get k d'
  end.

(** [s.strip()]: white space is removed from both ends. *)
Definition is_space (c : ascii) : bool :=
  let n := nat_of_ascii c in
  ((9 <=? n) && (n <=? 13)) || ((28 <=? n) && (n <=? 32)).

Fixpoint lstrip (s : string) : string :=
  match s with
  | EmptyString => EmptyString
  | String c s' => if is_space c then lstrip s' else s
  end.

Fixpoint rstrip (s : string) : string :=
  match s with
  | EmptyString => EmptyString
  | String c s' =>
      match rstrip s' with
      | EmptyString => if is_space c then EmptyString else String c EmptyString
      | r => String c r
      end
  end.

Definition strip (s : string) : string := rstrip (lstrip s).

(** [s.replace('_', ' ').title()] *)
Definition spaced_title (s : string) : string :=
  title (replace_char "_" " " s).

(** [[x] if x else []]: what a loop appends for an optional result. *)
Definition opt_list {A : Type} (o : option A) : list A :=
  match o with
  | Some x => [x]
  | None => []
  end.

(** The list of values when every one is present. *)
Fixpoint all_some {A : Type} (l : list (option A)) : option (list A) :=
  match l with
  | [] => Some []
  | Some x :: l' => option_map (cons x) (all_some l')
  | None :: _ => None
  end.

(** [x in l] for a list of strings. *)
Definition str_in (x : string) (l : list string) : bool :=
  existsb (String.eqb x) l.

(** [l.sort(key=key)] and [sorted(l, key=key)]: ascending and stable. *)
Fixpoint insert_asc {A : Type} (key : A -> nat) (x : A) (l : list A) : list A :=
  match l with
  | [] => [x]
  | y :: l' =>
      if key y <? key x then y :: insert_asc key x l' else x :: y :: l'
  end.

Fixpoint sorted_asc {A : Type} (key : A -> nat) (l : list A) : list A :=
  match l with
  | [] => []
  | x :: l' => insert_asc key x (sorted_asc key l')
  end.

(** A [dict] of counters, in insertion order:
    [if k not in d: d[k] = 0] followed by [d[k] += 1]. *)
Fixpoint dict_count {K : Type} (eqb : K -> K -> bool) (k : K)
         (d : list (K * nat)) : list (K * nat) :=
  match d with
  | [] => [(k, 1)]
  | (k', n) :: d' =>
      if eqb k k' then (k', S n) :: d' else (k', n) :: dict_count eqb k d'
  end.

(** [d.get(k, 0)] on a dictionary of counters. *)
Fixpoint count_of {K : Type} (eqb : K -> K -> bool) (k : K)
         (d : list (K * nat)) : nat :=
  match d with
  | [] => 0
  | (k', n) :: d' => if eqb k k' then n else count_of eqb k d'
  end.

End Py.

(** ** [models/schemas.py]: the dictionaries exchanged by the stages *)

Module Schemas.

#[local] Set Warnings "-register-all".

(** Opaque JSON-like payloads carried through unchanged. *)
Inductive json : Type :=
| JNull
| JBool (b : bool)
| JNum (q : Q)
| JStr (s : string)
| JArr (l : list json)
| JObj (l : list (string * json)).

(** A key that the code reads with [.get(k, default)] may be absent and
    is an [option]. *)
Record chart := mk_chart {
  chart_type : option string;          (* chart.get("type", "unknown") *)
  chart_title : string;
  chart_data : json;
  chart_config : json
}.

Inductive kpi_value : Type :=
| VFloat (q : option Q)                (* float(x); None is NaN *)
| VInt (n : nat)                       (* int(x) *)
| VStr (s : string)                    (* str(x) *)
| VText (t : Py.text).                 (* an f-string with a formatted float *)

Record kpi := mk_kpi {
  kpi_id : string;                     (* kpi["id"] *)
  kpi_title : string;
  kpi_val : kpi_value;
  kpi_format : option string;          (* kpi.get("format", "number") *)
  kpi_description : Py.text;
  kpi_trend : option string;
  kpi_color : string
}.

(** The [data] payload of an insight, by analysis. *)
Record segment := mk_segment {
  cluster_id : nat;
  size : nat;
  percentage : Q;
  avg_values : list (string * option Q)
}.

Inductive insight_data : Type :=
| TrendData (trend_direction : string) (change_percentage : Q) (strength : string)
| AnomalyData (anomaly_count : nat) (anomaly_percentage : Q)
              (max_anomaly_value min_anomaly_value : option Q)
| CorrelationData (strong_correlations : list (string * string * Q))
                  (total_correlations_analyzed : nat)
| SegmentationData (segments : list segment) (features_used : list string)
| ForecastData (forecast_change : Q) (current_average : Q)
               (forecast_average : Q) (forecast_period : string)
| OtherData (j : json).

Record recommendation := mk_recommendation {
  rec_type : string;
  rec_title : string;
  rec_description : Py.text;
  rec_recommendation : Py.text;
  rec_severity : option string;        (* x.get("severity", "low") *)
  rec_data : insight_data
}.

End Schemas.

(** ** [utils/layout.py] *)

Module LayoutManager.
Export Schemas.

Record position := mk_position {
  row : nat; col : nat; width : nat; height : nat
}.

Inductive component_data : Type :=
| KpiData (k : kpi)
| ChartData (c : chart)
| RecommendationData (r : recommendation).

Record component := mk_component {
  comp_id : string;
  comp_type : string;
  comp_data : component_data;
  comp_position : position
}.

Record section_layout := mk_section_layout {
  columns : nat; rows : nat; gap : string
}.

Record section := mk_section {
  sec_id : string;
  sec_title : string;
  sec_type : string;
  sec_priority : nat;
  sec_layout : section_layout;
  components : list component
}.

Record layout := mk_layout {
  sections : list section;
  total_components : nat;
  layout_type : string
}.

(** [self.layout_configs] and [self.section_priorities] of [__init__]. *)
Definition layout_config_kpi := (3, 1).
Definition layout_config_chart := (6, 2).
Definition layout_config_recommendation := (12, 1).
Definition priority_kpis := 1.
Definition priority_charts := 2.
Definition priority_recommendations := 3.

(** [len(l) // k + (1 if len(l) % k > 0 else 0)] *)
Definition ceil_div (n k : nat) : nat :=
  n / k + (if 0 <? n mod k then 1 else 0).

Definition _group_kpis_by_type (kpis : list kpi) : list (string * list kpi) :=
  fold_left
    (fun grouped k =>
       Py.dict_append (match kpi_format k with Some f => f | None => "number" end)
                      k grouped)
    kpis [].

Definition _group_charts_by_type (charts : list chart)
  : list (string * list chart) :=
  fold_left
    (fun grouped c =>
       Py.dict_append (match chart_type c with Some t => t | None => "unknown" end)
                      c grouped)
    charts [].

Definition _get_severity_score (severity : string) : nat :=
  if String.eqb severity "high" then 3
  else if String.eqb severity "medium" then 2
  else if String.eqb severity "low" then 1
  else 1.

Definition _create_kpi_section (kpis : list kpi) : section :=
  let grouped_kpis := _group_kpis_by_type kpis in
  {| sec_id := "kpi_section";
     sec_title := "Key Performance Indicators";
     sec_type := "kpi_grid";
     sec_priority := priority_kpis;
     sec_layout := {| columns := 4;
                      rows := Nat.max 1 (ceil_div (List.length kpis) 4);
                      gap := "16px" |};
     components :=
       map (fun '(i, k) =>
              {| comp_id := kpi_id k;
                 comp_type := "kpi_card";
                 comp_data := KpiData k;
                 comp_position := {| row := i / 4; col := i mod 4;
                                     width := fst layout_config_kpi;
                                     height := snd layout_config_kpi |} |})
           (Py.enumerate kpis) |}.

Definition chart_section (chart_type : string) (type_charts : list chart)
  : section :=
  {| sec_id := ("chart_section_" ++ chart_type)%string;
     sec_title := (Py.title (Py.replace_char "_" " " chart_type) ++ " Charts")%string;
     sec_type := "chart_grid";
     sec_priority := priority_charts;
     sec_layout := {| columns := 2;
                      rows := Nat.max 1 (ceil_div (List.length type_charts) 2);
                      gap := "20px" |};
     components :=
       map (fun '(i, c) =>
              {| comp_id := ("chart_" ++ Py.str_of_nat i)%string;
                 comp_type := "chart";
                 comp_data := ChartData c;
                 comp_position := {| row := i / 2; col := i mod 2;
                                     width := fst layout_config_chart;
                                     height := snd layout_config_chart |} |})
           (Py.enumerate type_charts) |}.

Definition _create_chart_sections (charts : list chart) : list section :=
  map (fun '(chart_type, type_charts) => chart_section chart_type type_charts)
      (_group_charts_by_type charts).

Definition severity_key (x : recommendation) : nat :=
  _get_severity_score
    (match rec_severity x with Some s => s | None => "low" end).

Definition _create_recommendation_section (recommendations : list recommendation)
  : section :=
  let sorted_recommendations := Py.sorted_desc severity_key recommendations in
  {| sec_id := "recommendation_section";
     sec_title := "Business Insights & Recommendations";
     sec_type := "recommendation_list";
     sec_priority := priority_recommendations;
     sec_layout := {| columns := 1;
                      rows := List.length recommendations;
                      gap := "12px" |};
     components :=
       map (fun '(i, r) =>
              {| comp_id := ("recommendation_" ++ Py.str_of_nat i)%string;
                 comp_type := "recommendation_card";
                 comp_data := RecommendationData r;
                 comp_position := {| row := i; col := 0;
                                     width := fst layout_config_recommendation;
                                     height := snd layout_config_recommendation |} |})
           (Py.enumerate sorted_recommendations) |}.

Definition organize_layout (charts : list chart) (kpis : list kpi)
           (recommendations : list recommendation) : layout :=
  let s0 := [] in
  let s1 := match kpis with
            | [] => s0
            | _ => s0 ++ [_create_kpi_section kpis]
            end in
  let s2 := match charts with
            | [] => s1
            | _ => s1 ++ _create_chart_sections charts
            end in
  let s3 := match recommendations with
            | [] => s2
            | _ => s2 ++ [_create_recommendation_section recommendations]
            end in
  {| sections := s3;
     total_components := List.length charts + List.length kpis + List.length recommendations;
     layout_type := "responsive_grid" |}.

(** *** Custom layouts

    [_create_masonry_layout] calls [random.randint(1, 3)] once per
    component.  The module-level generator of Python's [random] is a hidden
    global state; it is threaded explicitly: a generator state is the stream
    of raw words it will produce next. *)

Definition rng := nat -> nat.

(** [random.randint(a, b)]: an integer in [[a, b]] and the next state. *)
Definition randint (a b : nat) (g : rng) : nat * rng :=
  (a + g 0 mod (b - a + 1), fun k => g (S k)).

Record custom_component (A : Type) := mk_custom_component {
  cc_id : string;
  cc_data : A;
  cc_position : position
}.
Arguments mk_custom_component {A}.
Arguments cc_id {A}.
Arguments cc_data {A}.
Arguments cc_position {A}.

Record custom_layout (A : Type) := mk_custom_layout {
  cl_type : string;
  cl_columns : option nat;
  cl_direction : option string;
  cl_gap : option string;
  cl_components : list (custom_component A)
}.
Arguments mk_custom_layout {A}.
Arguments cl_type {A}.
Arguments cl_columns {A}.
Arguments cl_direction {A}.
Arguments cl_gap {A}.
Arguments cl_components {A}.

Section Custom.
Context {A : Type}.

Definition placed (pos : nat -> position) (l : list A)
  : list (custom_component A) :=
  map (fun '(i, c) =>
         {| cc_id := ("component_" ++ Py.str_of_nat i)%string;
            cc_data := c;
            cc_position := pos i |})
      (Py.enumerate l).

Definition _create_grid_layout (l : list A) : custom_layout A :=
  {| cl_type := "grid"; cl_columns := Some 3; cl_direction := None;
     cl_gap := Some "16px";
     cl_components :=
       placed (fun i => {| row := i / 3; col := i mod 3;
                           width := 4; height := 2 |}) l |}.

Definition _create_list_layout (l : list A) : custom_layout A :=
  {| cl_type := "list"; cl_columns := None; cl_direction := Some "vertical";
     cl_gap := Some "12px";
     cl_components :=
       placed (fun i => {| row := i; col := 0;
                           width := 12; height := 1 |}) l |}.

(** The comprehension draws one height per component, in order. *)
Fixpoint masonry_components (i : nat) (l : list A) (g : rng)
  : list (custom_component A) * rng :=
  match l with
  | [] => ([], g)
  | c :: l' =>
      let '(h, g1) := randint 1 3 g in
      let '(rest, g2) := masonry_components (S i) l' g1 in
      ({| cc_id := ("component_" ++ Py.str_of_nat i)%string;
          cc_data := c;
          cc_position := {| row := i / 3; col := i mod 3;
                            width := 4; height := h |} |} :: rest, g2)
  end.

Definition _create_masonry_layout (l : list A) (g : rng)
  : custom_layout A * rng :=
  let '(cs, g') := masonry_components 0 l g in
  ({| cl_type := "masonry"; cl_columns := Some 3; cl_direction := None;
      cl_gap := Some "16px"; cl_components := cs |}, g').

Definition _create_default_layout (l : list A) : custom_layout A :=
  {| cl_type := "default"; cl_columns := None; cl_direction := None;
     cl_gap := None;
     cl_components :=
       placed (fun i => {| row := i; col := 0;
                           width := 12; height := 2 |}) l |}.

Definition create_custom_layout (l : list A) (layout_type : string) (g : rng)
  : custom_layout A * rng :=
  if String.eqb layout_type "grid" then (_create_grid_layout l, g)
  else if String.eqb layout_type "list" then (_create_list_layout l, g)
  else if String.eqb layout_type "masonry" then _create_masonry_layout l g
  else (_create_default_layout l, g).

End Custom.

(** *** Layouts read back as dictionaries

    [optimize_layout] and [get_layout_summary] take any dictionary and read
    it with [.get] and a default.  The layout [L], its sections [S] and
    their components [C] are seen through the keys that are read; a key may
    be absent. *)

Record breakpoint := mk_breakpoint {
  min_width : option nat;
  max_width : option nat;
  breakpoint_columns : nat
}.

Definition responsive_breakpoints : list (string * breakpoint) :=
  [ ("xs", mk_breakpoint None (Some 576) 1);
    ("sm", mk_breakpoint None (Some 768) 2);
    ("md", mk_breakpoint None (Some 992) 3);
    ("lg", mk_breakpoint None (Some 1200) 4);
    ("xl", mk_breakpoint (Some 1201) None 4) ].

(** The dictionary that [optimize_layout] returns: the keys of the copy,
    with ["sections"] and ["responsive"] as set by the function.  The copy
    is shallow and [.sort] works in place, so the list under ["sections"]
    is the one the caller's dictionary holds, too. *)
Record optimized (L S : Type) := mk_optimized {
  copied : L;
  optimized_sections : option (list S);
  responsive : list (string * breakpoint)
}.
Arguments mk_optimized {L S}.
Arguments copied {L S}.
Arguments optimized_sections {L S}.
Arguments responsive {L S}.

Record layout_summary := mk_layout_summary {
  total_sections : nat;
  summary_total_components : nat;
  section_types : list (string * nat);
  component_types : list (string * nat)
}.

Section Dictionaries.
Variables L S C : Type.
Variable get_sections : L -> option (list S).           (* layout["sections"] *)
Variable get_total_components : L -> option nat.        (* layout["total_components"] *)
Variable get_type : S -> option string.                 (* section["type"] *)
Variable get_priority : S -> option nat.                (* section["priority"] *)
Variable get_components : S -> option (list C).         (* section["components"] *)
Variable get_component_type : C -> option string.       (* component["type"] *)

(** [lambda x: x.get("priority", 999)] *)
Definition priority_key (x : S) : nat :=
  match get_priority x with Some p => p | None => 999 end.

Definition optimize_layout (layout : L) : optimized L S :=
  {| copied := layout;
     optimized_sections :=
       match get_sections layout with
       | Some sections => Some (Py.sorted_asc priority_key sections)
       | None => None
       end;
     responsive := responsive_breakpoints |}.

(** [if t not in d: d[t] = 0] and [d[t] += 1], for
    [t = x.get("type", "unknown")]. *)
Definition count_type (t : option string) (d : list (string * nat))
  : list (string * nat) :=
  Py.dict_count String.eqb (match t with Some x => x | None => "unknown" end) d.

Definition get_layout_summary (layout : L) : layout_summary :=
  let sections := match get_sections layout with Some l => l | None => [] end in
  let counted :=
    fold_left
      (fun (summary : list (string * nat) * list (string * nat)) section =>
         (count_type (get_type section) (fst summary),
          fold_left
            (fun types component => count_type (get_component_type component) types)
            (match get_components section with Some l => l | None => [] end)
            (snd summary)))
      sections ([], []) in
  {| total_sections := List.length sections;
     summary_total_components :=
       match get_total_components layout with Some n => n | None => 0 end;
     section_types := fst counted;
     component_types := snd counted |}.

End Dictionaries.

Arguments priority_key {S}.
Arguments optimize_layout {L S}.
Arguments get_layout_summary {L S C}.

End LayoutManager.

(** ** Data frames *)

Module Frame.

(** A column (pandas [Series]) by dtype.  [float64] also stands for
    [int64] with values below 2^53, which doubles hold exactly; [None] is
    NaN, NaT or a missing object.  Timestamps are nanoseconds since the
    epoch.  Object columns hold text, as
    [pd.read_csv] produces them; boolean and categorical dtypes are outside
    the embedding.  Column names are meant to be distinct: [df[c]] is the
    first column named [c]. *)
Inductive series : Type :=
| Float64 (l : list (option Q))
| Datetime64 (l : list (option Z))
| Object (l : list (option string)).

(** A data frame: its columns in declared order. *)
Definition frame := list (string * series).

Inductive cell : Type :=
| FloatCell (x : option Q)
| DatetimeCell (t : option Z)
| ObjectCell (s : option string).

Definition cells (s : series) : list cell :=
  match s with
  | Float64 l => map FloatCell l
  | Datetime64 l => map DatetimeCell l
  | Object l => map ObjectCell l
  end.

Definition isna (c : cell) : bool :=
  match c with
  | FloatCell None | DatetimeCell None | ObjectCell None => true
  | _ => false
  end.

(** [len(series)] *)
Definition series_len (s : series) : nat := List.length (cells s).

(** [len(df)] *)
Definition nrows (df : frame) : nat :=
  match df with
  | [] => 0
  | (_, s) :: _ => series_len s
  end.

(** [df[c]] *)
Definition column (df : frame) (c : string) : option series := Py.dict_get c df.

(** [df[c]] read as a numeric column. *)
Definition float_column (df : frame) (c : string) : option (list (option Q)) :=
  match column df c with
  | Some (Float64 l) => Some l
  | _ => None
  end.

(** [c in df.columns] *)
Definition has_column (df : frame) (c : string) : bool :=
  match column df c with Some _ => true | None => false end.

(** [df[c] = f(df[c])] for a column that exists. *)
Fixpoint update_column (c : string) (f : series -> series) (df : frame) : frame :=
  match df with
  | [] => []
  | (c', s) :: df' =>
      if String.eqb c c' then (c', f s) :: df'
      else (c', s) :: update_column c f df'
  end.

(** Boolean-mask selection [x[mask]]. *)
Fixpoint select {A : Type} (mask : list bool) (l : list A) : list A :=
  match mask, l with
  | b :: mask', x :: l' => if b then x :: select mask' l' else select mask' l'
  | _, _ => []
  end.

Definition select_series (mask : list bool) (s : series) : series :=
  match s with
  | Float64 l => Float64 (select mask l)
  | Datetime64 l => Datetime64 (select mask l)
  | Object l => Object (select mask l)
  end.

(** [df[mask]] *)
Definition select_rows (mask : list bool) (df : frame) : frame :=
  map (fun '(c, s) => (c, select_series mask s)) df.

(** [df.select_dtypes(include=...).columns.tolist()] *)
Definition is_numeric_dtype (s : series) : bool :=
  match s with Float64 _ => true | _ => false end.
Definition is_datetime64_any_dtype (s : series) : bool :=
  match s with Datetime64 _ => true | _ => false end.
Definition is_object_dtype (s : series) : bool :=
  match s with Object _ => true | _ => false end.

Definition select_dtypes (p : series -> bool) (df : frame) : list string :=
  map fst (filter (fun cs => p (snd cs)) df).

(** *** Floats *)

Definition Qlt_bool (x y : Q) : bool := negb (Qle_bool y x).

Definition Q_of_nat (n : nat) : Q := inject_Z (Z.of_nat n).

(** [x.dropna()] *)
Fixpoint dropna {A : Type} (l : list (option A)) : list A :=
  match l with
  | [] => []
  | Some x :: l' => x :: dropna l'
  | None :: l' => dropna l'
  end.

Fixpoint Qinsert (x : Q) (l : list Q) : list Q :=
  match l with
  | [] => [x]
  | y :: l' => if Qle_bool x y then x :: y :: l' else y :: Qinsert x l'
  end.

(** [np.sort] *)
Definition Qsort (l : list Q) : list Q := fold_right Qinsert [] l.

(** The sum and the interpolated quantile of a list that is not empty,
    without rounding. *)
Definition Qsum (l : list Q) : Q := fold_right Qplus 0%Q l.

Definition linear_quantile (q : Q) (l : list Q) : Q :=
  let v := Qsort l in
  let h := (Q_of_nat (List.length v - 1) * q)%Q in
  let i := Z.to_nat (Qfloor h) in
  let frac := (h - inject_Z (Qfloor h))%Q in
  let a := nth i v 0%Q in
  let b := nth (S i) v a in
  (a + (b - a) * frac)%Q.

(** The arithmetic of doubles rounds its results, so it is not the
    arithmetic of [Q]: in doubles [1e16 + 1] is [1e16] and
    [5e-324 / 100] is [0].  The operations that Python and NumPy perform
    on floats are parameters of the embedding; a property proved for
    every instance holds of the doubles, whatever they round to.  So are
    the reductions of pandas whose order of operations is NumPy's own,
    and the square root. *)
Class Numerics : Type := {
  (** [x + y], [x - y], [x * y] and [x / y] on floats. *)
  fadd : Q -> Q -> Q;
  fsub : Q -> Q -> Q;
  fmul : Q -> Q -> Q;
  fdiv : Q -> Q -> Q;
  (** [np.sqrt] on a non-negative float. *)
  sqrt : Q -> Q;
  (** [x.sum()] over the values present, of which there is at least
      one. *)
  fsum : list Q -> Q;
  (** [x.quantile(q)] over the values present, of which there is at
      least one: NumPy interpolates between two order statistics, in
      doubles, and in wrapping [int64] on an integer column. *)
  fquantile : Q -> list Q -> Q
}.

Section WithNumerics.
Context {numerics : Numerics}.

(** [x.sum()]: NaN is skipped and the empty sum is 0. *)
Definition sum (l : list (option Q)) : Q :=
  match dropna l with
  | [] => 0%Q
  | v => fsum v
  end.

(** The mean of a list of floats that is not empty: the sum divided by
    the count. *)
Definition Qmean (l : list Q) : Q := fdiv (fsum l) (Q_of_nat (List.length l)).

(** [x.mean()]: NaN when nothing is present. *)
Definition mean (l : list (option Q)) : option Q :=
  match dropna l with
  | [] => None
  | v => Some (Qmean v)
  end.

(** [x.quantile(q)]: NaN when nothing is present. *)
Definition quantile (q : Q) (l : list (option Q)) : option Q :=
  match dropna l with
  | [] => None
  | v => Some (fquantile q v)
  end.

(** [x.median()]: the middle value, or the mean of the two middle
    values. *)
Definition median (l : list (option Q)) : option Q :=
  let v := Qsort (dropna l) in
  let n := List.length v in
  match v with
  | [] => None
  | _ =>
      if Nat.odd n then Some (nth (n / 2) v 0%Q)
      else Some (fdiv (fadd (nth (n / 2 - 1) v 0%Q) (nth (n / 2) v 0%Q)) 2)
  end.

End WithNumerics.

(** [x.min()] and [x.max()]: NaN is skipped; NaN when nothing is present. *)
Definition Qmin_list (l : list Q) : option Q :=
  match l with
  | [] => None
  | x :: l' => Some (fold_left (fun m y => if Qlt_bool y m then y else m) l' x)
  end.

Definition Qmax_list (l : list Q) : option Q :=
  match l with
  | [] => None
  | x :: l' => Some (fold_left (fun m y => if Qlt_bool m y then y else m) l' x)
  end.

Definition min (l : list (option Q)) : option Q := Qmin_list (dropna l).
Definition max (l : list (option Q)) : option Q := Qmax_list (dropna l).

(** [x.fillna(v)] *)
Definition fillna {A : Type} (v : option A) (l : list (option A)) : list (option A) :=
  map (fun x => match x with Some _ => x | None => v end) l.

(** [x.fillna(method='ffill')] and [x.fillna(method='bfill')] *)
Fixpoint ffill_from {A : Type} (last : option A) (l : list (option A))
  : list (option A) :=
  match l with
  | [] => []
  | Some x :: l' => Some x :: ffill_from (Some x) l'
  | None :: l' => last :: ffill_from last l'
  end.

Definition ffill {A : Type} (l : list (option A)) : list (option A) :=
  ffill_from None l.

Definition bfill {A : Type} (l : list (option A)) : list (option A) :=
  rev (ffill (rev l)).

(** *** Distinct values and duplicates *)

Definition option_eqb {A : Type} (eqb : A -> A -> bool) (x y : option A) : bool :=
  match x, y with
  | Some a, Some b => eqb a b
  | None, None => true
  | _, _ => false
  end.

(** Equality of cells as [duplicated] and [nunique] see it: missing
    values are equal to each other. *)
Definition cell_eqb (x y : cell) : bool :=
  match x, y with
  | FloatCell a, FloatCell b => option_eqb Qeq_bool a b
  | DatetimeCell a, DatetimeCell b => option_eqb Z.eqb a b
  | ObjectCell a, ObjectCell b => option_eqb String.eqb a b
  | _, _ => false
  end.

Fixpoint mem {A : Type} (eqb : A -> A -> bool) (x : A) (l : list A) : bool :=
  match l with
  | [] => false
  | y :: l' => eqb x y || mem eqb x l'
  end.

(** The distinct elements of a list, in order of first appearance. *)
Definition unique {A : Type} (eqb : A -> A -> bool) (l : list A) : list A :=
  rev (fold_left (fun seen x => if mem eqb x seen then seen else x :: seen) l []).

(** [x.nunique()]: the number of distinct values that are not missing. *)
Definition nunique (s : series) : nat :=
  List.length (unique cell_eqb (filter (fun c => negb (isna c)) (cells s))).

Fixpoint list_eqb {A : Type} (eqb : A -> A -> bool) (l1 l2 : list A) : bool :=
  match l1, l2 with
  | [], [] => true
  | x :: l1', y :: l2' => eqb x y && list_eqb eqb l1' l2'
  | _, _ => false
  end.

(** The rows of a frame; a row holds one cell per column. *)
Definition row_at (df : frame) (i : nat) : list (option cell) :=
  map (fun '(_, s) => nth_error (cells s) i) df.

Definition rows (df : frame) : list (list (option cell)) :=
  map (row_at df) (seq 0 (nrows df)).

(** [~df.duplicated()]: a row is kept unless an equal row stands before it. *)
Fixpoint first_occurrences {A : Type} (eqb : A -> A -> bool)
         (seen : list A) (l : list A) : list bool :=
  match l with
  | [] => []
  | x :: l' =>
      if mem eqb x seen then false :: first_occurrences eqb seen l'
      else true :: first_occurrences eqb (x :: seen) l'
  end.

(** [df.drop_duplicates()] *)
Definition drop_duplicates (df : frame) : frame :=
  select_rows
    (first_occurrences (list_eqb (option_eqb cell_eqb)) [] (rows df)) df.

(** [a.equals(b)]: the same columns with the same dtypes and the same
    values, missing values in the same places. *)
Definition same_dtype (s1 s2 : series) : bool :=
  match s1, s2 with
  | Float64 _, Float64 _ | Datetime64 _, Datetime64 _ | Object _, Object _ => true
  | _, _ => false
  end.

Definition equals (a b : frame) : bool :=
  list_eqb (fun x y => String.eqb (fst x) (fst y)
                       && same_dtype (snd x) (snd y)
                       && list_eqb cell_eqb (cells (snd x)) (cells (snd y)))
           a b.

(** *** Text conversions left to pandas

    The parsers and printers of pandas and its regular expressions are not
    part of the repository; they are parameters of the embedding. *)
Class Pandas : Type := {
  (** [pd.to_numeric(x, errors='coerce')] on one text value. *)
  to_numeric_str : string -> option Q;
  (** [pd.to_numeric] on one value of a [datetime64] column. *)
  to_numeric_datetime : option Z -> option Q;
  (** [pd.to_datetime(x, errors='coerce')] on an object or float column:
      the value at each index, or [None] when the call raises. *)
  to_datetime_object : list (option string) -> option (nat -> option Z);
  to_datetime_float : list (option Q) -> option (nat -> option Z);
  (** [pd.to_datetime(s)] on one text value; [None] when it raises. *)
  to_datetime_scalar : string -> option Z;
  (** [x.astype(str)] on one present value of a float or datetime column. *)
  str_of_float : Q -> string;
  str_of_datetime : Z -> string;
  (** [t.strftime('%Y-%m-%d')] *)
  strftime_ymd : Z -> string;
  (** [re.search(pattern, s, re.IGNORECASE)]; [None] when the pattern
      does not compile. *)
  regex_search_ignore_case : string -> string -> option bool
}.

Section WithPandas.
Context {pandas : Pandas}.

(** [series.astype(str)] *)
Definition astype_str (s : series) : list string :=
  match s with
  | Object l => map (fun v => match v with Some t => t | None => "nan" end) l
  | Float64 l =>
      map (fun v => match v with Some q => str_of_float q | None => "nan" end) l
  | Datetime64 l =>
      map (fun v => match v with Some t => str_of_datetime t | None => "NaT" end) l
  end.

End WithPandas.

(** *** Counting and grouping *)

Definition count_str (v : string) (l : list string) : nat :=
  List.length (filter (String.eqb v) l).

(** [series.value_counts()] on an object column: the present values with
    their counts, most frequent first.  Values of equal count stand here
    in order of first appearance; pandas does not fix their order, and
    no property below depends on it. *)
Definition value_counts (l : list (option string)) : list (string * nat) :=
  let present := dropna l in
  Py.sorted_desc snd
    (map (fun v => (v, count_str v present)) (unique String.eqb present)).

(** Timestamps: [t.date()] as a day number, and the extrema of a column. *)
Definition nanoseconds_per_day : Z := 86400000000000.

Definition day_of (t : Z) : Z := (t / nanoseconds_per_day)%Z.

Definition Zmin_list (l : list Z) : option Z :=
  match l with
  | [] => None
  | x :: l' => Some (fold_left Z.min l' x)
  end.

Definition Zmax_list (l : list Z) : option Z :=
  match l with
  | [] => None
  | x :: l' => Some (fold_left Z.max l' x)
  end.

(** A sorted dictionary of groups: [groupby(key)[value]] keeps one
    entry per key, in key order, with the values of the key in row order;
    rows without a key are left out. *)
Fixpoint add_to_groups {K : Type} (ltb eqb : K -> K -> bool) (k : K)
         (v : option Q) (groups : list (K * list (option Q)))
  : list (K * list (option Q)) :=
  match groups with
  | [] => [(k, [v])]
  | (k', vs) :: rest =>
      if eqb k k' then (k', vs ++ [v]) :: rest
      else if ltb k k' then (k, [v]) :: (k', vs) :: rest
      else (k', vs) :: add_to_groups ltb eqb k v rest
  end.

Definition groupby {K : Type} (ltb eqb : K -> K -> bool)
           (keys : list (option K)) (values : list (option Q))
  : list (K * list (option Q)) :=
  fold_left
    (fun groups kv =>
       match kv with
       | (Some k, v) => add_to_groups ltb eqb k v groups
       | (None, _) => groups
       end)
    (combine keys values) [].

Section Grouped.
Context {numerics : Numerics}.

(** [groupby(key)[value].sum()]: the sum of each group; missing values
    are skipped and a group without a value sums to 0. *)
Definition groupby_sum {K : Type} (ltb eqb : K -> K -> bool)
           (keys : list (option K)) (values : list (option Q)) : list (K * Q) :=
  map (fun '(k, vs) => (k, sum vs)) (groupby ltb eqb keys values).

(** [groupby(key)[value].mean()]: the mean of the values present in each
    group, NaN when there is none. *)
Definition groupby_mean {K : Type} (ltb eqb : K -> K -> bool)
           (keys : list (option K)) (values : list (option Q))
  : list (K * option Q) :=
  map (fun '(k, vs) => (k, mean vs)) (groupby ltb eqb keys values).

(** [df.groupby(df[date_column].dt.date)[value_column].sum()]: the totals
    per day, in date order. *)
Definition daily_totals (dates : list (option Z)) (values : list (option Q))
  : list (Z * Q) :=
  groupby_sum Z.ltb Z.eqb (map (option_map day_of) dates) values.

End Grouped.

End Frame.

(** A stand-in for pandas' text conversions, for running examples: it
    recognises no text as a number or as a date and prints nothing.  The
    examples that use it hold only numbers, or words that pandas does not
    parse either. *)
Definition plain_pandas : Frame.Pandas :=
  {| Frame.to_numeric_str := fun _ => None;
     Frame.to_numeric_datetime := fun t => option_map inject_Z t;
     Frame.to_datetime_object := fun _ => Some (fun _ => None);
     Frame.to_datetime_float := fun _ => Some (fun _ => None);
     Frame.to_datetime_scalar := fun _ => None;
     Frame.str_of_float := fun _ => EmptyString;
     Frame.str_of_datetime := fun _ => EmptyString;
     Frame.strftime_ymd := fun _ => EmptyString;
     Frame.regex_search_ignore_case := fun _ _ => None |}.

(** A stand-in for the arithmetic, for running examples: no operation
    rounds, and the square root is the identity.  It computes what the
    doubles compute wherever their results are exact, as on the small
    integers and dyadic fractions of the examples. *)
Definition plain_numerics : Frame.Numerics :=
  {| Frame.fadd := Qplus;
     Frame.fsub := Qminus;
     Frame.fmul := Qmult;
     Frame.fdiv := Qdiv;
     Frame.sqrt := fun x => x;
     Frame.fsum := Frame.Qsum;
     Frame.fquantile := Frame.linear_quantile |}.

(** ** [services/cleaner.py] *)

Module DataCleaner.
Import Frame.

(** The instance attributes set by [__init__]. *)
Record cleaner := mk_cleaner {
  numeric_columns : list string;
  categorical_columns : list string;
  date_columns : list string;
  text_columns : list string
}.

Definition __init__ : cleaner :=
  {| numeric_columns := []; categorical_columns := [];
     date_columns := []; text_columns := [] |}.

(** *** Type inference *)

(** One item of a date pattern: [\d] or a literal character. *)
Inductive pattern_item : Type :=
| Digit
| Lit (c : ascii).

Definition is_digit (c : ascii) : bool :=
  (48 <=? nat_of_ascii c) && (nat_of_ascii c <=? 57).

(** [re.match(pattern, s)]: the pattern matches a prefix of [s]. *)
Fixpoint re_match (pattern : list pattern_item) (s : string) : bool :=
  match pattern, s with
  | [], _ => true
  | _ :: _, EmptyString => false
  | Digit :: p', String c s' => is_digit c && re_match p' s'
  | Lit a :: p', String c s' => Ascii.eqb a c && re_match p' s'
  end.

Definition d4 : list pattern_item := [Digit; Digit; Digit; Digit].
Definition d2 : list pattern_item := [Digit; Digit].

Definition date_patterns : list (list pattern_item) :=
  [ d4 ++ [Lit "-"] ++ d2 ++ [Lit "-"] ++ d2;     (* YYYY-MM-DD *)
    d2 ++ [Lit "/"] ++ d2 ++ [Lit "/"] ++ d4;     (* MM/DD/YYYY *)
    d2 ++ [Lit "-"] ++ d2 ++ [Lit "-"] ++ d4;     (* MM-DD-YYYY *)
    d4 ++ [Lit "/"] ++ d2 ++ [Lit "/"] ++ d2 ].   (* YYYY/MM/DD *)

Definition date_keywords : list string :=
  ["date"; "time"; "created"; "updated"; "timestamp"].

(** [series.dropna().head(10)] *)
Definition sample_values (s : series) : list cell :=
  firstn 10 (filter (fun c => negb (isna c)) (cells s)).

(** The body of the loop over [sample_values]: does [value] add to
    [date_count]? *)
Definition counts_as_date (s : series) (value : cell) : bool :=
  if is_datetime64_any_dtype s then true
  else match value with
       | ObjectCell (Some v) => existsb (fun p => re_match p v) date_patterns
       | _ => false
       end.

Definition date_count (s : series) : nat :=
  List.length (filter (counts_as_date s) (sample_values s)).

Definition _is_date_column (name : string) (s : series) : bool :=
  let column_lower := Py.lower name in
  if existsb (fun keyword => Py.contains keyword column_lower) date_keywords
  then true
  else
    let n := List.length (sample_values s) in
    if 0 <? n
    then Qlt_bool (7 # 10) (Q_of_nat (date_count s) / Q_of_nat n)
    else false.

Section WithPandas.
Context {pandas : Pandas} {numerics : Numerics}.

(** [pd.to_numeric(series, errors='coerce')] *)
Definition to_numeric (s : series) : list (option Q) :=
  match s with
  | Float64 l => l
  | Datetime64 l => map to_numeric_datetime l
  | Object l =>
      map (fun v => match v with
                    | Some t => to_numeric_str t
                    | None => None
                    end) l
  end.

Definition _is_numeric_column (s : series) : bool :=
  let numeric_count := List.length (dropna (to_numeric s)) in
  let total_count :=
    List.length (filter (fun c => negb (isna c)) (cells s)) in
  if 0 <? total_count
  then Qlt_bool (8 # 10) (Q_of_nat numeric_count / Q_of_nat total_count)
  else false.

(** [None] stands for the [ZeroDivisionError] of a column without rows;
    [_detect_column_types] files such a column under text before the
    test is reached. *)
Definition _is_categorical_column (s : series) : option bool :=
  if series_len s =? 0 then None
  else
    let unique_ratio := (Q_of_nat (nunique s) / Q_of_nat (series_len s))%Q in
    Some (Qlt_bool unique_ratio (1 # 2) && (nunique s <? 50)).

Definition append_numeric (st : cleaner) (c : string) : cleaner :=
  {| numeric_columns := numeric_columns st ++ [c];
     categorical_columns := categorical_columns st;
     date_columns := date_columns st;
     text_columns := text_columns st |}.

Definition append_categorical (st : cleaner) (c : string) : cleaner :=
  {| numeric_columns := numeric_columns st;
     categorical_columns := categorical_columns st ++ [c];
     date_columns := date_columns st;
     text_columns := text_columns st |}.

Definition append_date (st : cleaner) (c : string) : cleaner :=
  {| numeric_columns := numeric_columns st;
     categorical_columns := categorical_columns st;
     date_columns := date_columns st ++ [c];
     text_columns := text_columns st |}.

Definition append_text (st : cleaner) (c : string) : cleaner :=
  {| numeric_columns := numeric_columns st;
     categorical_columns := categorical_columns st;
     date_columns := date_columns st;
     text_columns := text_columns st ++ [c] |}.

(** The body of the loop of [_detect_column_types]. *)
Definition detect_column (st : cleaner) (c : string) (s : series) : cleaner :=
  if forallb isna (cells s) then append_text st c
  else if _is_numeric_column s then append_numeric st c
  else if _is_date_column c s then append_date st c
  else match _is_categorical_column s with
       | Some true => append_categorical st c
       | _ => append_text st c
       end.

Definition _detect_column_types (st : cleaner) (df : frame) : cleaner :=
  fold_left (fun st '(c, s) => detect_column st c s) df st.

(** *** Cleaning by kind *)

Definition is_outlier (lower_bound upper_bound : option Q) (x : option Q) : bool :=
  match x, lower_bound, upper_bound with
  | Some v, Some lo, Some hi => Qlt_bool v lo || Qlt_bool hi v
  | _, _, _ => false
  end.

(** [Q1], [Q3], [IQR] and the two bounds computed from them, in
    floats. *)
Definition iqr_bounds (v : list (option Q)) : option Q * option Q :=
  let Q1 := quantile (1 # 4) v in
  let Q3 := quantile (3 # 4) v in
  let IQR := match Q1, Q3 with
             | Some a, Some b => Some (fsub b a)
             | _, _ => None
             end in
  let lower_bound := match Q1, IQR with
                     | Some a, Some i => Some (fsub a (fmul (3 # 2) i))
                     | _, _ => None
                     end in
  let upper_bound := match Q3, IQR with
                     | Some b, Some i => Some (fadd b (fmul (3 # 2) i))
                     | _, _ => None
                     end in
  (lower_bound, upper_bound).

(** The body of the loop of [_clean_numeric_columns]. *)
Definition clean_numeric_series (s : series) : series :=
  let v := to_numeric s in
  let '(lower_bound, upper_bound) := iqr_bounds v in
  Float64 (map (fun x => if is_outlier lower_bound upper_bound x
                         then None else x) v).

(** [for column in names: if column in df.columns: df[column] = f(df[column])] *)
Definition clean_columns (f : series -> series) (names : list string)
           (df : frame) : frame :=
  fold_left (fun df c => if has_column df c then update_column c f df else df)
            names df.

Definition _clean_numeric_columns (st : cleaner) (df : frame) : frame :=
  clean_columns clean_numeric_series (numeric_columns st) df.

(** [series.replace(['', 'nan', 'None', 'null'], np.nan)] *)
Definition replace_empty (l : list string) : list (option string) :=
  map (fun v => if Py.str_in v [EmptyString; "nan"; "None"; "null"]
                then None else Some v) l.

Definition clean_categorical_series (s : series) : series :=
  Object (replace_empty (map Py.title (map Py.strip (astype_str s)))).

Definition _clean_categorical_columns (st : cleaner) (df : frame) : frame :=
  clean_columns clean_categorical_series (categorical_columns st) df.

(** [pd.to_datetime(series, errors='coerce')] inside [try]; on an
    exception the column is kept as it is. *)
Definition clean_date_series (s : series) : series :=
  match s with
  | Datetime64 l => Datetime64 l
  | Object l =>
      match to_datetime_object l with
      | Some f => Datetime64 (map f (seq 0 (List.length l)))
      | None => s
      end
  | Float64 l =>
      match to_datetime_float l with
      | Some f => Datetime64 (map f (seq 0 (List.length l)))
      | None => s
      end
  end.

Definition _clean_date_columns (st : cleaner) (df : frame) : frame :=
  clean_columns clean_date_series (date_columns st) df.

Definition clean_text_series (s : series) : series :=
  Object (replace_empty (map Py.strip (astype_str s))).

Definition _clean_text_columns (st : cleaner) (df : frame) : frame :=
  clean_columns clean_text_series (text_columns st) df.

(** *** Missing values *)

(** [series.mode()]: the most frequent present values, sorted; the
    code takes [.iloc[0]], the least of them. *)
Definition mode (l : list (option string)) : option string :=
  let present := dropna l in
  let values := unique String.eqb present in
  let top := fold_right Nat.max 0 (map (fun v => count_str v present) values) in
  let modes := filter (fun v => count_str v present =? top) values in
  match modes with
  | [] => None
  | m :: ms => Some (fold_left (fun a b => if String.ltb b a then b else a) ms m)
  end.

(** The body of the loop of [_handle_missing_values].  [None]: the
    branch meets a column whose dtype its pandas call is not modelled
    on (a median of text, a mode of numbers, ...), which arises only
    when a column name is listed under two kinds. *)
Definition fill_missing (st : cleaner) (c : string) (s : series)
  : option series :=
  if Py.str_in c (numeric_columns st) then
    match s with
    | Float64 l => Some (Float64 (fillna (median l) l))
    | _ => None
    end
  else if Py.str_in c (categorical_columns st) then
    match s with
    | Object l =>
        match mode l with
        | Some m => Some (Object (fillna (Some m) l))
        | None => Some (Object (fillna (Some "Unknown") l))
        end
    | _ => None
    end
  else if Py.str_in c (date_columns st) then
    match s with
    | Float64 l => Some (Float64 (bfill (ffill l)))
    | Datetime64 l => Some (Datetime64 (bfill (ffill l)))
    | Object l => Some (Object (bfill (ffill l)))
    end
  else
    match s with
    | Object l => Some (Object (fillna (Some "Unknown") l))
    | _ => None
    end.

Fixpoint _handle_missing_values (st : cleaner) (df : frame) : option frame :=
  match df with
  | [] => Some []
  | (c, s) :: df' =>
      match fill_missing st c s, _handle_missing_values st df' with
      | Some s', Some rest => Some ((c, s') :: rest)
      | _, _ => None
      end
  end.

(** *** The pipeline

    [clean_data] mutates the instance (the kind lists) and returns the
    cleaned frame: the result pairs the new instance state with the
    frame. *)
Definition clean_data (st : cleaner) (df : frame) : cleaner * option frame :=
  let cleaned_df := df in
  let st := _detect_column_types st cleaned_df in
  let cleaned_df := _clean_numeric_columns st cleaned_df in
  let cleaned_df := _clean_categorical_columns st cleaned_df in
  let cleaned_df := _clean_date_columns st cleaned_df in
  let cleaned_df := _clean_text_columns st cleaned_df in
  (st, option_map drop_duplicates (_handle_missing_values st cleaned_df)).

(** [DataCleaner().clean_data(df)]: a fresh instance per call, as
    [routes/dashboard.py] uses the cleaner. *)
Definition clean (df : frame) : option frame := snd (clean_data __init__ df).

End WithPandas.

(** The four kind lists of an instance, in the order of [__init__]. *)
Definition kind_lists_after (st : cleaner)
  : list string * list string * list string * list string :=
  (numeric_columns st, categorical_columns st, date_columns st, text_columns st).

Record column_info := mk_column_info {
  info_numeric_columns : list string;
  info_categorical_columns : list string;
  info_date_columns : list string;
  info_text_columns : list string;
  total_columns : nat;
  total_rows : nat
}.

Definition get_column_info (st : cleaner) (df : frame) : column_info :=
  {| info_numeric_columns := numeric_columns st;
     info_categorical_columns := categorical_columns st;
     info_date_columns := date_columns st;
     info_text_columns := text_columns st;
     total_columns := List.length df;
     total_rows := nrows df |}.

End DataCleaner.

(** ** [services/filter_builder.py] *)

Module FilterBuilder.
Import Py Frame.

Record filter_option := mk_filter_option {
  option_value : string;
  option_label : string;
  option_count : nat
}.

(** A filter descriptor, by its [type] tag.  A float is [option Q]
    ([None] for NaN); a key that [apply_filters] reads with [.get] and
    that may be absent or [null] in a request is one more [option]. *)
Inductive filter_config : Type :=
| RangeFilter (min_val max_val : option Q)
              (current_min current_max : option (option Q))
              (step : option Q) (label : string) (description : Py.text)
| DateFilter (min_date max_date : string)
             (current_start current_end : option string)
             (label description : string)
| CategoricalFilter (options : list filter_option) (selected : list string)
                    (label description : string) (multi_select : bool)
| TextFilter (placeholder label description current_value : string)
| OtherFilter.                      (* any other [type], or none *)

Definition _build_range_filter {numerics : Numerics}
           (df : frame) (column : string) : option filter_config :=
  match Frame.column df column with
  | Some (Float64 l) =>
      let min_val := min l in
      let max_val := max l in
      let current_min := min_val in
      let current_max := max_val in
      let step :=
        match max_val, min_val with
        | Some b, Some a =>
            if negb (Qeq_bool b a) then Some (fdiv (fsub b a) 100) else Some 1%Q
        | _, _ => None
        end in
      Some (RangeFilter min_val max_val (Some current_min) (Some current_max)
                        step (spaced_title column)
                        [Py.Str ("Filter " ++ column ++ " between ")%string;
                         Py.Fixed 2 min_val; Py.Str " and ";
                         Py.Fixed 2 max_val])
  | _ => None
  end.

Section WithPandas.
Context {pandas : Pandas} {numerics : Numerics}.

Definition _build_date_filter (df : frame) (column : string)
  : option filter_config :=
  match Frame.column df column with
  | Some (Datetime64 l) =>
      match Zmin_list (dropna l), Zmax_list (dropna l) with
      | Some min_date, Some max_date =>
          let min_date_str := strftime_ymd min_date in
          let max_date_str := strftime_ymd max_date in
          Some (DateFilter min_date_str max_date_str
                           (Some min_date_str) (Some max_date_str)
                           (spaced_title column)
                           ("Filter " ++ column ++ " between " ++ min_date_str
                              ++ " and " ++ max_date_str)%string)
      | _, _ => None                (* NaT.strftime raises *)
      end
  | _ => None
  end.

Definition _build_categorical_filter (df : frame) (column : string)
  : option filter_config :=
  match Frame.column df column with
  | Some (Object l) =>
      let top_values := firstn 20 (value_counts l) in
      let options :=
        map (fun '(val, count) =>
               {| option_value := val; option_label := val;
                  option_count := count |}) top_values in
      Some (CategoricalFilter options [] (spaced_title column)
                              ("Filter " ++ column ++ " by category")%string
                              true)
  | _ => None
  end.

Definition _build_text_filter (df : frame) (column : string)
  : option filter_config :=
  Some (TextFilter ("Search in " ++ column ++ "...")%string
                   (spaced_title column)
                   ("Search text in " ++ column)%string
                   EmptyString).

Definition _detect_filter_type (df : frame) (column : string)
  : option filter_config :=
  match Frame.column df column with
  | Some s =>
      if is_numeric_dtype s then _build_range_filter df column
      else if is_datetime64_any_dtype s then _build_date_filter df column
      else if is_object_dtype s then
        let unique_count := nunique s in
        if unique_count <=? 50 then _build_categorical_filter df column
        else _build_text_filter df column
      else None
  | None => None
  end.

(** The result is the dictionary from column name to descriptor, in
    column order. *)
Definition build_filters (df : frame) : list (string * filter_config) :=
  fold_left
    (fun filters column =>
       match _detect_filter_type df column with
       | Some filter_config => filters ++ [(column, filter_config)]
       | None => filters
       end)
    (map fst df) [].

(** *** Applying filters

    [None]: the pandas comparison raises (a bound compared with a
    column of another dtype, a date that does not parse, a search
    text that is no regular expression). *)

(** [df[column] >= bound] and [df[column] <= bound] on floats; a
    comparison with NaN is false. *)
Definition ge_mask (l : list (option Q)) (bound : option Q) : list bool :=
  map (fun x => match x, bound with
                | Some v, Some b => Qle_bool b v
                | _, _ => false
                end) l.

Definition le_mask (l : list (option Q)) (bound : option Q) : list bool :=
  map (fun x => match x, bound with
                | Some v, Some b => Qle_bool v b
                | _, _ => false
                end) l.

Definition filter_ge (df : frame) (column : string) (bound : option Q)
  : option frame :=
  match Frame.column df column with
  | Some (Float64 l) => Some (select_rows (ge_mask l bound) df)
  | _ => None
  end.

Definition filter_le (df : frame) (column : string) (bound : option Q)
  : option frame :=
  match Frame.column df column with
  | Some (Float64 l) => Some (select_rows (le_mask l bound) df)
  | _ => None
  end.

Definition _apply_range_filter (df : frame) (column : string)
           (current_min current_max : option (option Q)) : option frame :=
  let df1 := match current_min with
             | Some bound => filter_ge df column bound
             | None => Some df
             end in
  match df1 with
  | Some df =>
      match current_max with
      | Some bound => filter_le df column bound
      | None => Some df
      end
  | None => None
  end.

Definition filter_date (after : bool) (df : frame) (column : string)
           (bound : string) : option frame :=
  match to_datetime_scalar bound, Frame.column df column with
  | Some b, Some (Datetime64 l) =>
      Some (select_rows
              (map (fun x => match x with
                             | Some t => if after then (b <=? t)%Z else (t <=? b)%Z
                             | None => false
                             end) l) df)
  | _, _ => None
  end.

(** [if current_start:] holds for a string that is present and not empty. *)
Definition truthy (s : option string) : option string :=
  match s with
  | Some EmptyString | None => None
  | Some v => Some v
  end.

Definition _apply_date_filter (df : frame) (column : string)
           (current_start current_end : option string) : option frame :=
  let df1 := match truthy current_start with
             | Some bound => filter_date true df column bound
             | None => Some df
             end in
  match df1 with
  | Some df =>
      match truthy current_end with
      | Some bound => filter_date false df column bound
      | None => Some df
      end
  | None => None
  end.

Definition _apply_categorical_filter (df : frame) (column : string)
           (selected_values : list string) : option frame :=
  match selected_values, Frame.column df column with
  | [], _ => Some df
  | _, Some s =>
      Some (select_rows
              (map (fun v => Py.str_in v selected_values) (astype_str s)) df)
  | _, None => None
  end.

Definition _apply_text_filter (df : frame) (column : string)
           (search_value : string) : option frame :=
  match search_value, Frame.column df column with
  | EmptyString, _ => Some df
  | _, Some s =>
      option_map (fun mask => select_rows mask df)
                 (all_some (map (regex_search_ignore_case search_value)
                                (astype_str s)))
  | _, None => None
  end.

Definition apply_filters (df : frame) (filters : list (string * filter_config))
  : option frame :=
  fold_left
    (fun filtered '(column, filter_config) =>
       match filtered with
       | None => None
       | Some filtered_df =>
           if negb (has_column filtered_df column) then Some filtered_df
           else
             match filter_config with
             | RangeFilter _ _ current_min current_max _ _ _ =>
                 _apply_range_filter filtered_df column current_min current_max
             | DateFilter _ _ current_start current_end _ _ =>
                 _apply_date_filter filtered_df column current_start current_end
             | CategoricalFilter _ selected _ _ _ =>
                 _apply_categorical_filter filtered_df column selected
             | TextFilter _ _ _ current_value =>
                 _apply_text_filter filtered_df column current_value
             | OtherFilter => Some filtered_df
             end
       end)
    filters (Some df).

(** *** Summary *)

(** [filter_config.get("type")]; [build_filters] gives every descriptor
    one of the four types. *)
Definition filter_type (filter_config : filter_config) : option string :=
  match filter_config with
  | RangeFilter _ _ _ _ _ _ _ => Some "range"
  | DateFilter _ _ _ _ _ _ => Some "date"
  | CategoricalFilter _ _ _ _ _ => Some "categorical"
  | TextFilter _ _ _ _ => Some "text"
  | OtherFilter => None
  end.

Record filter_summary := mk_filter_summary {
  total_filters : nat;
  filter_types : list (option string * nat);
  columns_with_filters : list string
}.

Definition get_filter_summary (df : frame) : filter_summary :=
  let filters := build_filters df in
  {| total_filters := List.length filters;
     filter_types :=
       fold_left
         (fun types '(column, filter_config) =>
            Py.dict_count (option_eqb String.eqb) (filter_type filter_config) types)
         filters [];
     columns_with_filters := map fst filters |}.

End WithPandas.

End FilterBuilder.

(** ** [services/kpi_builder.py] *)

Module KPIBuilder.
Import Py Frame.
Export Schemas.

(** Every builder runs inside [try: ... except: return None].  A builder
    is followed on the dtypes on which [build_kpis] calls it (numeric
    columns from [select_dtypes(include=[np.number])], dates from
    [select_dtypes(include=['datetime64'])], categories from
    [select_dtypes(include=['object'])]); on a column of another dtype the
    embedding returns [None] and does not follow pandas. *)

(** [x != 0] *)
Definition nonzero (x : Q) : bool := negb (Qeq_bool x 0).

Section WithNumerics.
Context {numerics : Numerics}.

Definition _build_sum_kpi (df : frame) (column : string) : option kpi :=
  match float_column df column with
  | Some l =>
      let total := sum l in
      Some {| kpi_id := ("sum_" ++ column)%string;
              kpi_title := ("Total " ++ spaced_title column)%string;
              kpi_val := VFloat (Some total);
              kpi_format := Some "number";
              kpi_description := [Py.Str ("Sum of all " ++ column ++ " values")%string];
              kpi_trend := None;
              kpi_color := "primary" |}
  | None => None
  end.

Definition _build_average_kpi (df : frame) (column : string) : option kpi :=
  match float_column df column with
  | Some l =>
      let avg := mean l in
      Some {| kpi_id := ("avg_" ++ column)%string;
              kpi_title := ("Average " ++ spaced_title column)%string;
              kpi_val := VFloat avg;
              kpi_format := Some "number";
              kpi_description := [Py.Str ("Average of " ++ column ++ " values")%string];
              kpi_trend := None;
              kpi_color := "info" |}
  | None => None
  end.

Definition _build_count_kpi (df : frame) (column : string) : option kpi :=
  let count := nrows df in
  Some {| kpi_id := ("count_" ++ column)%string;
          kpi_title := "Total Records";
          kpi_val := VInt count;
          kpi_format := Some "number";
          kpi_description := [Py.Str "Total number of records"];
          kpi_trend := None;
          kpi_color := "success" |}.

Definition _build_top_category_kpi (df : frame) (column : string) : option kpi :=
  match Frame.column df column with
  | Some (Object l) =>
      match value_counts l with
      | (top_category, top_count) :: _ =>
          Some {| kpi_id := ("top_" ++ column)%string;
                  kpi_title := ("Top " ++ spaced_title column)%string;
                  kpi_val := VStr top_category;
                  kpi_format := Some "text";
                  kpi_description :=
                    [Py.Str ("Most common " ++ column ++ " ("
                               ++ Py.str_of_nat top_count ++ " occurrences)")%string];
                  kpi_trend := None;
                  kpi_color := "warning" |}
      | [] => None
      end
  | _ => None
  end.

(** [grouped.idxmax()] with [grouped.max()]: the first entry that holds
    the greatest sum. *)
Definition idxmax {K : Type} (first : K * Q) (rest : list (K * Q)) : K * Q :=
  fold_left (fun best kv => if Qlt_bool (snd best) (snd kv) then kv else best)
            rest first.

Definition _build_category_sum_kpi (df : frame) (cat_column num_column : string)
  : option kpi :=
  match Frame.column df cat_column, float_column df num_column with
  | Some (Object keys), Some values =>
      match groupby_sum String.ltb String.eqb keys values with
      | first :: rest =>
          let '(top_category, top_sum) := idxmax first rest in
          Some {| kpi_id := ("sum_" ++ num_column ++ "_by_" ++ cat_column)%string;
                  kpi_title := ("Top " ++ spaced_title cat_column ++ " by "
                                  ++ spaced_title num_column)%string;
                  kpi_val := VStr top_category;
                  kpi_format := Some "text";
                  kpi_description :=
                    [Py.Str ("Category with highest " ++ num_column ++ " sum (")%string;
                     Py.Fixed 2 (Some top_sum); Py.Str ")"];
                  kpi_trend := None;
                  kpi_color := "primary" |}
      | [] => None
      end
  | _, _ => None
  end.

(** ["up" if x > 0 else "down"] and the like. *)
Definition if_positive {A : Type} (x : Q) (a b : A) : A :=
  if Qlt_bool 0 x then a else b.

Definition _build_growth_kpi (df : frame) (date_column value_column : string)
  : option kpi :=
  match Frame.column df date_column, float_column df value_column with
  | Some (Datetime64 dates), Some values =>
      let totals := map snd (daily_totals dates values) in
      if 2 <=? List.length totals then
        let first_value := hd 0%Q totals in
        let last_value := last totals 0%Q in
        if nonzero first_value then
          let growth_rate :=
            fmul (fdiv (fsub last_value first_value) first_value) 100 in
          Some {| kpi_id := ("growth_" ++ value_column)%string;
                  kpi_title := (spaced_title value_column ++ " Growth")%string;
                  kpi_val := VText [Py.Fixed 1 (Some growth_rate); Py.Str "%"];
                  kpi_format := Some "percentage";
                  kpi_description := [Py.Str "Growth rate from first to last date"];
                  kpi_trend := Some (if_positive growth_rate "up" "down");
                  kpi_color := if_positive growth_rate "success" "danger" |}
        else None
      else None
  | _, _ => None
  end.

(** [df[date_column].median()] as a point in time. *)
Definition median_date (dates : list (option Z)) : option Q :=
  median (map (option_map inject_Z) dates).

(** [df[mask][value_column].sum()] *)
Definition sum_where (mask : list bool) (values : list (option Q)) : Q :=
  sum (select mask values).

Definition _build_period_comparison_kpi (df : frame)
           (date_column value_column : string) : option kpi :=
  match Frame.column df date_column, float_column df value_column with
  | Some (Datetime64 dates), Some values =>
      let mid_date := median_date dates in
      let before :=
        map (fun d => match d, mid_date with
                      | Some t, Some m => Qlt_bool (inject_Z t) m
                      | _, _ => false
                      end) dates in
      let from_mid :=
        map (fun d => match d, mid_date with
                      | Some t, Some m => Qle_bool m (inject_Z t)
                      | _, _ => false
                      end) dates in
      let period1 := sum_where before values in
      let period2 := sum_where from_mid values in
      if nonzero period1 then
        let change_percentage :=
          fmul (fdiv (fsub period2 period1) period1) 100 in
        Some {| kpi_id := ("period_comparison_" ++ value_column)%string;
                kpi_title := (spaced_title value_column ++ " Period Change")%string;
                kpi_val := VText [Py.Fixed 1 (Some change_percentage); Py.Str "%"];
                kpi_format := Some "percentage";
                kpi_description :=
                  [Py.Str "Change from first half to second half of period"];
                kpi_trend := Some (if_positive change_percentage "up" "down");
                kpi_color := if_positive change_percentage "success" "danger" |}
      else None
  | _, _ => None
  end.

Definition _build_ratio_kpi (df : frame) (column1 column2 : string) : option kpi :=
  match float_column df column1, float_column df column2 with
  | Some l1, Some l2 =>
      let sum1 := sum l1 in
      let sum2 := sum l2 in
      if nonzero sum2 then
        let ratio := fdiv sum1 sum2 in
        Some {| kpi_id := ("ratio_" ++ column1 ++ "_" ++ column2)%string;
                kpi_title := (spaced_title column1 ++ " / " ++ spaced_title column2)%string;
                kpi_val := VText [Py.Fixed 2 (Some ratio)];
                kpi_format := Some "ratio";
                kpi_description :=
                  [Py.Str ("Ratio of " ++ column1 ++ " to " ++ column2)%string];
                kpi_trend := None;
                kpi_color := "info" |}
      else None
  | _, _ => None
  end.

Definition _build_percentage_kpi (df : frame) (column : string) : option kpi :=
  match float_column df column with
  | Some l =>
      let total := sum l in
      if nonzero total then
        let percentages :=
          map (option_map (fun x => fmul (fdiv x total) 100)) l in
        let avg_percentage := mean percentages in
        Some {| kpi_id := ("percentage_" ++ column)%string;
                kpi_title := ("Average " ++ spaced_title column ++ " %")%string;
                kpi_val := VText [Py.Fixed 1 avg_percentage; Py.Str "%"];
                kpi_format := Some "percentage";
                kpi_description :=
                  [Py.Str ("Average percentage contribution of " ++ column)%string];
                kpi_trend := None;
                kpi_color := "secondary" |}
      else None
  | None => None
  end.

Definition _build_basic_kpis (df : frame) (numeric_cols : list string) : list kpi :=
  flat_map (fun col =>
              opt_list (_build_sum_kpi df col)
              ++ opt_list (_build_average_kpi df col)
              ++ opt_list (_build_count_kpi df col))
           numeric_cols.

Definition _build_categorical_kpis (df : frame)
           (categorical_cols numeric_cols : list string) : list kpi :=
  flat_map (fun cat_col =>
              opt_list (_build_top_category_kpi df cat_col)
              ++ flat_map (fun num_col =>
                             opt_list (_build_category_sum_kpi df cat_col num_col))
                          numeric_cols)
           categorical_cols.

Definition _build_time_based_kpis (df : frame)
           (date_cols numeric_cols : list string) : list kpi :=
  flat_map (fun date_col =>
              flat_map (fun num_col =>
                          opt_list (_build_growth_kpi df date_col num_col)
                          ++ opt_list (_build_period_comparison_kpi df date_col num_col))
                       numeric_cols)
           date_cols.

Definition _build_derived_kpis (df : frame) (numeric_cols : list string) : list kpi :=
  match numeric_cols with
  | column1 :: column2 :: _ => opt_list (_build_ratio_kpi df column1 column2)
  | _ => []
  end
  ++ flat_map (fun col => opt_list (_build_percentage_kpi df col)) numeric_cols.

Definition build_kpis (df : frame) : list kpi :=
  let numeric_cols := select_dtypes is_numeric_dtype df in
  let categorical_cols := select_dtypes is_object_dtype df in
  let date_cols := select_dtypes is_datetime64_any_dtype df in
  _build_basic_kpis df numeric_cols
  ++ _build_categorical_kpis df categorical_cols numeric_cols
  ++ match date_cols with
     | [] => []
     | _ :: _ => _build_time_based_kpis df date_cols numeric_cols
     end
  ++ _build_derived_kpis df numeric_cols.

End WithNumerics.

End KPIBuilder.

(** ** [services/recommender.py] *)

Module Recommender.
Import Py Frame.
Export Schemas.

(** scikit-learn's scaler and k-means are not part of the repository.
    Both validate their input and raise on a value that is not finite;
    [_perform_segmentation] calls them inside [try] and returns [None]
    then: [None] here is the exception. *)
Class Sklearn : Type := {
  (** [StandardScaler().fit_transform(data)] on two features. *)
  fit_transform : list (Q * Q) -> option (list (Q * Q));
  (** [KMeans(n_clusters=3, random_state=42).fit_predict(data)]: the label
      of each row; labels are 0, 1 or 2. *)
  fit_predict : list (Q * Q) -> option (list nat)
}.

(** ["high" if abs(x) > 20 else "medium" if abs(x) > 10 else "low"] *)
Definition severity_of_change (x : Q) : string :=
  if Qlt_bool 20 (Qabs x) then "high"
  else if Qlt_bool 10 (Qabs x) then "medium"
  else "low".

(** *** Trend *)

Section WithNumerics.
Context {numerics : Numerics}.

Definition _get_trend_recommendation (direction strength column : string)
  : Py.text :=
  if String.eqb direction "increasing" then
    if String.eqb strength "strong" then
      [Py.Str ("Strong growth in " ++ column
               ++ ". Consider scaling up operations and marketing efforts.")%string]
    else
      [Py.Str ("Moderate growth in " ++ column
               ++ ". Monitor performance and consider targeted improvements.")%string]
  else
    if String.eqb strength "strong" then
      [Py.Str ("Significant decline in " ++ column
               ++ ". Investigate root causes and implement corrective actions.")%string]
    else
      [Py.Str ("Moderate decline in " ++ column
               ++ ". Review strategies and consider optimization.")%string].

Definition _analyze_trend (df : frame) (date_column value_column : string)
  : option recommendation :=
  match column df date_column, float_column df value_column with
  | Some (Datetime64 dates), Some values =>
      let totals := map snd (daily_totals dates values) in
      let n := List.length totals in
      if 3 <=? n then
        let first_half := Qmean (firstn (n / 2) totals) in
        let second_half := Qmean (skipn (n / 2) totals) in
        let trend_direction :=
          if Qlt_bool first_half second_half then "increasing" else "decreasing" in
        let change_percentage :=
          if negb (Qeq_bool first_half 0)
          then fmul (fdiv (fsub second_half first_half) first_half) 100
          else 0%Q in
        let strength :=
          if Qlt_bool 20 (Qabs change_percentage) then "strong"
          else if Qlt_bool 10 (Qabs change_percentage) then "moderate"
          else "weak" in
        Some {| rec_type := "trend";
                rec_title := (spaced_title value_column ++ " Trend Analysis")%string;
                rec_description :=
                  [Py.Str ("The " ++ value_column ++ " shows a " ++ strength ++ " "
                           ++ trend_direction ++ " trend with ")%string;
                   Py.Fixed 1 (Some (Qabs change_percentage));
                   Py.Str "% change"];
                rec_recommendation :=
                  _get_trend_recommendation trend_direction strength value_column;
                rec_severity := Some (severity_of_change change_percentage);
                rec_data := TrendData trend_direction change_percentage strength |}
      else None
  | _, _ => None
  end.

Definition _generate_trend_insights (df : frame)
           (date_cols numeric_cols : list string) : list recommendation :=
  flat_map (fun date_col =>
              flat_map (fun num_col => opt_list (_analyze_trend df date_col num_col))
                       numeric_cols)
           date_cols.

(** *** Anomalies *)

Definition _get_anomaly_recommendation (percentage : Q) (column : string)
  : Py.text :=
  if Qlt_bool 10 percentage then
    [Py.Str ("High anomaly rate in " ++ column
             ++ ". Investigate data quality and business processes.")%string]
  else if Qlt_bool 5 percentage then
    [Py.Str ("Moderate anomalies detected in " ++ column
             ++ ". Review data collection methods.")%string]
  else
    [Py.Str ("Low anomaly rate in " ++ column
             ++ ". Data quality appears good.")%string].

(** [x.std()]: the sample standard deviation; NaN below two values. *)
Definition std (l : list (option Q)) : option Q :=
  let v := dropna l in
  let n := List.length v in
  if n <=? 1 then None
  else
    let m := Qmean v in
    Some (sqrt (fdiv (fsum (map (fun x => fmul (fsub x m) (fsub x m)) v))
                     (Q_of_nat (n - 1)))).

(** [np.abs((x - mean) / std) > 2], row by row; false where the score is
    NaN. *)
Definition z_above_2 (l : list (option Q)) : list bool :=
  match mean l, std l with
  | Some m, Some sd =>
      map (fun x => match x with
                    | Some v => negb (Qeq_bool sd 0)
                                && Qlt_bool 2 (Qabs (fdiv (fsub v m) sd))
                    | None => false
                    end) l
  | _, _ => map (fun _ => false) l
  end.

Definition _detect_anomalies (df : frame) (column : string)
  : option recommendation :=
  match float_column df column with
  | Some l =>
      let anomalies := select (z_above_2 l) l in
      let count := List.length anomalies in
      if 0 <? count then
        let anomaly_percentage :=
          fmul (fdiv (Q_of_nat count) (Q_of_nat (nrows df))) 100 in
        Some {| rec_type := "anomaly";
                rec_title := ("Anomaly Detection in " ++ spaced_title column)%string;
                rec_description :=
                  [Py.Str ("Found " ++ Py.str_of_nat count ++ " anomalies (")%string;
                   Py.Fixed 1 (Some anomaly_percentage);
                   Py.Str ("% of data) in " ++ column)%string];
                rec_recommendation :=
                  _get_anomaly_recommendation anomaly_percentage column;
                rec_severity :=
                  Some (if Qlt_bool 10 anomaly_percentage then "high"
                        else if Qlt_bool 5 anomaly_percentage then "medium"
                        else "low");
                rec_data := AnomalyData count anomaly_percentage
                                        (max anomalies) (min anomalies) |}
      else None
  | None => None
  end.

Definition _generate_anomaly_insights (df : frame) (numeric_cols : list string)
  : list recommendation :=
  flat_map (fun col => opt_list (_detect_anomalies df col)) numeric_cols.

(** *** Correlation *)

(** The rows in which both columns hold a value. *)
Definition complete_pairs (l1 l2 : list (option Q)) : list (Q * Q) :=
  dropna (map (fun '(a, b) => match a, b with
                              | Some x, Some y => Some (x, y)
                              | _, _ => None
                              end) (combine l1 l2)).

(** One entry of [df.corr()]: Pearson's coefficient over the complete
    pairs; NaN when a column is constant there. *)
Definition pearson (l1 l2 : list (option Q)) : option Q :=
  let pairs := complete_pairs l1 l2 in
  match pairs with
  | [] => None
  | _ =>
      let mx := Qmean (map fst pairs) in
      let my := Qmean (map snd pairs) in
      let sxy := fsum (map (fun '(x, y) => fmul (fsub x mx) (fsub y my)) pairs) in
      let sxx := fsum (map (fun '(x, y) => fmul (fsub x mx) (fsub x mx)) pairs) in
      let syy := fsum (map (fun '(x, y) => fmul (fsub y my) (fsub y my)) pairs) in
      let divisor := sqrt (fmul sxx syy) in
      if Qeq_bool divisor 0 then None else Some (fdiv sxy divisor)
  end.

(** [l.sort(key=lambda x: abs(x["correlation"]), reverse=True)], stable. *)
Fixpoint insert_by_abs (x : string * string * Q) (l : list (string * string * Q))
  : list (string * string * Q) :=
  match l with
  | [] => [x]
  | y :: l' =>
      if Qlt_bool (Qabs (snd x)) (Qabs (snd y)) then y :: insert_by_abs x l'
      else x :: y :: l'
  end.

Definition sort_by_abs (l : list (string * string * Q)) : list (string * string * Q) :=
  fold_right insert_by_abs [] l.

Definition _get_correlation_recommendation (correlation : string * string * Q)
  : Py.text :=
  let '(col1, col2, corr_value) := correlation in
  if Qlt_bool (8 # 10) corr_value then
    [Py.Str ("Very strong positive correlation between " ++ col1 ++ " and " ++ col2
             ++ ". Consider combining these metrics.")%string]
  else if Qlt_bool (7 # 10) corr_value then
    [Py.Str ("Strong correlation between " ++ col1 ++ " and " ++ col2
             ++ ". Monitor both metrics together.")%string]
  else
    [Py.Str ("Moderate correlation between " ++ col1 ++ " and " ++ col2
             ++ ". Analyze relationship further.")%string].

(** The pairs [(i, j)] with [i < j], in the order of the two loops. *)
Fixpoint pairs_in_order {A : Type} (l : list A) : list (A * A) :=
  match l with
  | [] => []
  | x :: l' => map (fun y => (x, y)) l' ++ pairs_in_order l'
  end.

Definition _analyze_correlations (df : frame) (numeric_cols : list string)
  : option recommendation :=
  match all_some (map (fun c => option_map (pair c) (float_column df c))
                      numeric_cols) with
  | Some cols =>
      let strong_correlations :=
        flat_map (fun '((c1, l1), (c2, l2)) =>
                    match pearson l1 l2 with
                    | Some corr_value =>
                        if Qlt_bool (7 # 10) (Qabs corr_value)
                        then [(c1, c2, corr_value)] else []
                    | None => []
                    end)
                 (pairs_in_order cols) in
      match sort_by_abs strong_correlations with
      | strongest :: rest =>
          Some {| rec_type := "correlation";
                  rec_title := "Strong Correlation Detected";
                  rec_description :=
                    [Py.Str "Strong correlation (";
                     Py.Fixed 2 (Some (snd strongest));
                     Py.Str (") between " ++ fst (fst strongest) ++ " and "
                             ++ snd (fst strongest))%string];
                  rec_recommendation := _get_correlation_recommendation strongest;
                  rec_severity := Some "medium";
                  rec_data := CorrelationData (strongest :: rest)
                                              (List.length (strongest :: rest)) |}
      | [] => None
      end
  | None => None
  end.

Definition _generate_correlation_insights (df : frame) (numeric_cols : list string)
  : list recommendation :=
  if 2 <=? List.length numeric_cols
  then opt_list (_analyze_correlations df numeric_cols)
  else [].

(** *** Segmentation *)

(** [max(segments, key=lambda x: x["percentage"])]: the first segment
    with the greatest percentage. *)
Definition largest (first : segment) (rest : list segment) : segment :=
  fold_left (fun best s => if Qlt_bool (percentage best) (percentage s)
                           then s else best)
            rest first.

Definition _get_segmentation_recommendation (segments : list segment)
  : option Py.text :=
  match segments with
  | first :: rest =>
      Some [Py.Str "Largest segment represents ";
            Py.Fixed 1 (Some (percentage (largest first rest)));
            Py.Str "% of customers. Focus marketing efforts on this segment."]
  | [] => None                          (* max() of an empty list raises *)
  end.

Section WithSklearn.
Context {sklearn : Sklearn}.

(** The body of [for i in range(3)]. *)
Definition analyze_cluster (column1 column2 : string)
           (cluster_data : list (Q * Q)) (clusters : list nat) (i : nat) : segment :=
  let cluster_data_i := select (map (fun c => c =? i) clusters) cluster_data in
  {| cluster_id := i;
     size := List.length cluster_data_i;
     percentage := fmul (fdiv (Q_of_nat (List.length cluster_data_i))
                              (Q_of_nat (List.length cluster_data))) 100;
     avg_values := [ (column1, mean (map (fun p => Some (fst p)) cluster_data_i));
                     (column2, mean (map (fun p => Some (snd p)) cluster_data_i)) ] |}.

Definition _perform_segmentation (df : frame)
           (categorical_cols numeric_cols : list string) : option recommendation :=
  match numeric_cols with
  | column1 :: column2 :: _ =>
      match float_column df column1, float_column df column2 with
      | Some l1, Some l2 =>
          let cluster_data := complete_pairs l1 l2 in
          if 10 <? List.length cluster_data then
            match fit_transform cluster_data with
            | Some scaled_data =>
                match fit_predict scaled_data with
                | Some clusters =>
                    let cluster_analysis :=
                      map (analyze_cluster column1 column2 cluster_data clusters)
                          (seq 0 3) in
                    match _get_segmentation_recommendation cluster_analysis with
                    | Some recommendation =>
                        Some {| rec_type := "segmentation";
                                rec_title := "Customer Segmentation Analysis";
                                rec_description :=
                                  [Py.Str ("Identified "
                                           ++ Py.str_of_nat
                                                (List.length cluster_analysis)
                                           ++ " distinct customer segments")%string];
                                rec_recommendation := recommendation;
                                rec_severity := Some "medium";
                                rec_data := SegmentationData cluster_analysis
                                                             [column1; column2] |}
                    | None => None
                    end
                | None => None          (* KMeans raises *)
                end
            | None => None              (* StandardScaler raises *)
            end
          else None
      | _, _ => None
      end
  | _ => None
  end.

Definition _generate_segmentation_insights (df : frame)
           (categorical_cols numeric_cols : list string) : list recommendation :=
  match categorical_cols, numeric_cols with
  | _ :: _, _ :: _ =>
      opt_list (_perform_segmentation df categorical_cols numeric_cols)
  | _, _ => []
  end.

End WithSklearn.

(** *** Forecast *)

Definition _get_forecast_recommendation (change : Q) (column : string) : Py.text :=
  if Qlt_bool 20 change then
    [Py.Str ("Strong projected growth in " ++ column
             ++ ". Prepare for increased demand and capacity.")%string]
  else if Qlt_bool 10 change then
    [Py.Str ("Moderate growth expected in " ++ column
             ++ ". Plan for gradual scaling.")%string]
  else if Qlt_bool change (-20) then
    [Py.Str ("Significant decline projected in " ++ column
             ++ ". Investigate causes and implement recovery strategies.")%string]
  else if Qlt_bool change (-10) then
    [Py.Str ("Moderate decline expected in " ++ column
             ++ ". Review strategies and optimize operations.")%string]
  else
    [Py.Str ("Stable forecast for " ++ column
             ++ ". Maintain current strategies and monitor performance.")%string].

(** [np.polyfit(x, y, 1)]: the least-squares line, as (slope, intercept). *)
Definition polyfit1 (x y : list Q) : Q * Q :=
  let mx := Qmean x in
  let my := Qmean y in
  let sxy := fsum (map (fun '(a, b) => fmul (fsub a mx) (fsub b my)) (combine x y)) in
  let sxx := fsum (map (fun a => fmul (fsub a mx) (fsub a mx)) x) in
  let slope := fdiv sxy sxx in
  (slope, fsub my (fmul slope mx)).

Definition _generate_forecast (df : frame) (date_column value_column : string)
  : option recommendation :=
  match column df date_column, float_column df value_column with
  | Some (Datetime64 dates), Some values =>
      let totals := map snd (daily_totals dates values) in
      let n := List.length totals in
      if 7 <=? n then
        let x := map Q_of_nat (seq 0 n) in
        let '(slope, intercept) := polyfit1 x totals in
        let future_x := map Q_of_nat (seq n 7) in
        let future_y := map (fun a => fadd (fmul slope a) intercept) future_x in
        let avg_current := Qmean totals in
        let avg_forecast := Qmean future_y in
        let forecast_change :=
          if negb (Qeq_bool avg_current 0)
          then fmul (fdiv (fsub avg_forecast avg_current) avg_current) 100
          else 0%Q in
        Some {| rec_type := "forecast";
                rec_title := (spaced_title value_column ++ " Forecast")%string;
                rec_description :=
                  [Py.Str "Projected "; Py.Fixed 1 (Some forecast_change);
                   Py.Str ("% change in " ++ value_column ++ " over next 7 days")%string];
                rec_recommendation :=
                  _get_forecast_recommendation forecast_change value_column;
                rec_severity := Some (severity_of_change forecast_change);
                rec_data := ForecastData forecast_change avg_current avg_forecast
                                         "7 days" |}
      else None
  | _, _ => None
  end.

Definition _generate_forecast_insights (df : frame)
           (date_cols numeric_cols : list string) : list recommendation :=
  flat_map (fun date_col =>
              flat_map (fun num_col =>
                          opt_list (_generate_forecast df date_col num_col))
                       numeric_cols)
           date_cols.

End WithNumerics.

(** *** All insights *)

Definition generate_recommendations {numerics : Numerics} {sklearn : Sklearn}
           (df : frame) : list recommendation :=
  let numeric_cols := select_dtypes is_numeric_dtype df in
  let categorical_cols := select_dtypes is_object_dtype df in
  let date_cols := select_dtypes is_datetime64_any_dtype df in
  _generate_trend_insights df date_cols numeric_cols
  ++ _generate_anomaly_insights df numeric_cols
  ++ _generate_correlation_insights df numeric_cols
  ++ _generate_segmentation_insights df categorical_cols numeric_cols
  ++ _generate_forecast_insights df date_cols numeric_cols.

(** *** Summary *)

Record insight_summary := mk_insight_summary {
  total_insights : nat;
  insight_types : list (string * nat);
  severity_distribution : list (string * nat)
}.

(** The loop of [get_insight_summary] over the insights. *)
Definition summarize (insights : list recommendation) : insight_summary :=
  let counted :=
    fold_left
      (fun (summary : list (string * nat) * list (string * nat)) insight =>
         let insight_type := rec_type insight in
         let severity :=
           match rec_severity insight with Some s => s | None => "low" end in
         (Py.dict_count String.eqb insight_type (fst summary),
          Py.dict_count String.eqb severity (snd summary)))
      insights ([], []) in
  {| total_insights := List.length insights;
     insight_types := fst counted;
     severity_distribution := snd counted |}.

Definition get_insight_summary {numerics : Numerics} {sklearn : Sklearn}
           (df : frame) : insight_summary :=
  summarize (generate_recommendations df).

End Recommender.

(** ** [services/viz_builder.py] *)

Module VizBuilder.
Import Py Frame.
Export Schemas.

(** Plotly Express draws the figures; it is not part of the repository.
    Each call is a parameter that yields the figure as a dictionary
    ([fig.to_dict()]), or [None] when the call raises.  The size of the
    figure ([self.chart_configs]) is a constant of each call. *)
Class Plotly : Type := {
  (** [px.histogram(df, x=column, title=title, nbins=30)] *)
  px_histogram : frame -> string -> string -> option json;
  (** [px.box(df, y=column, title=title)] *)
  px_box : frame -> string -> string -> option json;
  (** [px.bar(x=counts.index, y=counts.values, title=title,
      labels={'x': column, 'y': 'Count'})] *)
  px_bar : list (string * nat) -> string -> string -> option json;
  (** [px.pie(values=counts.values, names=counts.index, title=title)] *)
  px_pie : list (string * nat) -> string -> option json;
  (** [px.line(x=grouped.index, y=grouped.values, title=title,
      labels={'x': date_column, 'y': value_column})] *)
  px_line : list (Z * option Q) -> string -> string -> string -> option json;
  (** [px.scatter(df, x=x_column, y=y_column, title=title)] *)
  px_scatter : frame -> string -> string -> string -> option json;
  (** [px.imshow(corr_matrix, title=title)]: the labels and the matrix. *)
  px_imshow : list string -> list (list (option Q)) -> string -> option json
}.

(** [{"displayModeBar": False}] *)
Definition no_mode_bar : json := JObj [("displayModeBar", JBool false)].

(** The dictionary every builder returns around a figure. *)
Definition chart_of (type title : string) (fig : option json) : option chart :=
  match fig with
  | Some data =>
      Some {| chart_type := Some type; chart_title := title;
              chart_data := data; chart_config := no_mode_bar |}
  | None => None
  end.

Section WithPlotly.
Context {plotly : Plotly} {numerics : Numerics}.

(** Every builder runs inside [try: ... except: return None]; a builder
    that cannot read its column as the dtype it is called on by
    [build_all_charts] returns [None]. *)

Definition _build_histogram (df : frame) (column : string) : option chart :=
  let title := ("Distribution of " ++ column)%string in
  chart_of "histogram" title (px_histogram df column title).

Definition _build_box_plot (df : frame) (column : string) : option chart :=
  let title := ("Box Plot of " ++ column)%string in
  chart_of "box" title (px_box df column title).

Definition _build_bar_chart (df : frame) (column : string) : option chart :=
  match Frame.column df column with
  | Some (Object l) =>
      let value_counts := firstn 10 (value_counts l) in
      let title := ("Top 10 Values in " ++ column)%string in
      chart_of "bar" title (px_bar value_counts title column)
  | _ => None
  end.

Definition _build_pie_chart (df : frame) (column : string) : option chart :=
  match Frame.column df column with
  | Some (Object l) =>
      let value_counts := firstn 8 (value_counts l) in
      let title := ("Distribution of " ++ column)%string in
      chart_of "pie" title (px_pie value_counts title)
  | _ => None
  end.

Definition _build_line_chart (df : frame) (date_column value_column : string)
  : option chart :=
  match Frame.column df date_column, float_column df value_column with
  | Some (Datetime64 dates), Some values =>
      let grouped :=
        groupby_mean Z.ltb Z.eqb (map (option_map day_of) dates) values in
      let title := (value_column ++ " Over Time")%string in
      chart_of "line" title (px_line grouped title date_column value_column)
  | _, _ => None
  end.

Definition _build_scatter_plot (df : frame) (x_column y_column : string)
  : option chart :=
  let title := (x_column ++ " vs " ++ y_column)%string in
  chart_of "scatter" title (px_scatter df x_column y_column title).

(** [df[numeric_cols].corr()]: Pearson's coefficient of every pair of
    columns. *)
Definition corr (columns : list (list (option Q))) : list (list (option Q)) :=
  map (fun l1 => map (fun l2 => Recommender.pearson l1 l2) columns) columns.

Definition _build_correlation_heatmap (df : frame) (numeric_cols : list string)
  : option chart :=
  match all_some (map (float_column df) numeric_cols) with
  | Some columns =>
      let corr_matrix := corr columns in
      chart_of "heatmap" "Correlation Heatmap"
               (px_imshow numeric_cols corr_matrix "Correlation Heatmap")
  | None => None
  end.

Definition _build_numeric_charts (df : frame) (numeric_cols : list string)
  : list chart :=
  flat_map (fun col =>
              opt_list (_build_histogram df col)
              ++ opt_list (_build_box_plot df col))
           numeric_cols
  ++ match numeric_cols with
     | x_column :: y_column :: _ =>
         opt_list (_build_scatter_plot df x_column y_column)
     | _ => []
     end.

Definition _build_categorical_charts (df : frame) (categorical_cols : list string)
  : list chart :=
  flat_map (fun col =>
              opt_list (_build_bar_chart df col)
              ++ opt_list (_build_pie_chart df col))
           categorical_cols.

Definition _build_time_series_charts (df : frame)
           (date_cols numeric_cols : list string) : list chart :=
  flat_map (fun date_col =>
              match numeric_cols with
              | value_column :: _ =>
                  opt_list (_build_line_chart df date_col value_column)
              | [] => []
              end)
           date_cols.

Definition build_all_charts (df : frame) : list chart :=
  let numeric_cols := select_dtypes is_numeric_dtype df in
  let categorical_cols := select_dtypes is_object_dtype df in
  let date_cols := select_dtypes is_datetime64_any_dtype df in
  (if 0 <? List.length numeric_cols
   then _build_numeric_charts df numeric_cols else [])
  ++ (if 0 <? List.length categorical_cols
      then _build_categorical_charts df categorical_cols else [])
  ++ (if 0 <? List.length date_cols
      then _build_time_series_charts df date_cols numeric_cols else [])
  ++ (if 1 <? List.length numeric_cols
      then opt_list (_build_correlation_heatmap df numeric_cols) else []).

End WithPlotly.

End VizBuilder.

(** ** [routes/dashboard.py] *)

Module Dashboard.
Import Py Frame FilterBuilder.
Export Schemas.

#[local] Set Warnings "-register-all".

(** *** [convert_ndarrays]

    A value on its way to JSON: a NumPy array, a [dict], a [list], or
    anything else -- a scalar, or a container of another class, such as a
    tuple, which the function does not enter.  An array holds numbers
    along its axes. *)
Inductive ndarray : Type :=
| Item (x : json)
| Axis (l : list ndarray).

Inductive value : Type :=
| NdArray (a : ndarray)
| Dict (d : list (string * value))
| PyList (l : list value)
| PyTuple (l : list value)
| Other (x : json).

(** [a.tolist()] *)
Fixpoint tolist (a : ndarray) : value :=
  match a with
  | Item x => Other x
  | Axis l => PyList (map tolist l)
  end.

Fixpoint convert_ndarrays (obj : value) : value :=
  match obj with
  | NdArray a => tolist a
  | Dict d => Dict (map (fun kv => (fst kv, convert_ndarrays (snd kv))) d)
  | PyList l => PyList (map convert_ndarrays l)
  | PyTuple l => PyTuple l
  | Other x => Other x
  end.

(** *** [apply_filters], the function of the route

    The route reads its frame with [pd.read_csv], which yields numeric and
    text columns only; on a [datetime64] column the function is not
    modelled.  [None]: the pandas comparison raises.  A descriptor is a
    [filter_config]: one that [build_filters] produced, with its current
    bounds or without them (a current bound that is [None] is an absent
    key).  A request may also carry a bound that is [null], which the
    function skips; such a descriptor is not a [filter_config] and is not
    followed here. *)

(** [df[column] >= bound] and [df[column] <= bound] on text: the order of
    Python strings; a missing value compares false. *)
Definition text_mask (after : bool) (l : list (option string)) (bound : string)
  : list bool :=
  map (fun x => match x with
                | Some t => if after then String.leb bound t else String.leb t bound
                | None => false
                end) l.

Definition compare_text (after : bool) (df : frame) (column bound : string)
  : option frame :=
  match Frame.column df column with
  | Some (Object l) => Some (select_rows (text_mask after l bound) df)
  | _ => None
  end.

(** [df[df[column].isin(values)]] for a list of strings. *)
Definition isin (df : frame) (column : string) (values : list string)
  : option frame :=
  match Frame.column df column with
  | Some (Object l) =>
      Some (select_rows
              (map (fun x => match x with
                             | Some t => Py.str_in t values
                             | None => false
                             end) l) df)
  | Some (Float64 l) => Some (select_rows (map (fun _ => false) l) df)
  | _ => None
  end.

(** The body of the loop, for a column of the frame. *)
Definition apply_filter (filtered_df : frame) (column : string)
           (filter_config : filter_config) : option frame :=
  match filter_config with
  | RangeFilter min max current_min current_max _ _ _ =>
      (* filter_config.get("current_min", filter_config.get("min")) *)
      let min_val := match current_min with Some v => v | None => min end in
      let max_val := match current_max with Some v => v | None => max end in
      match filter_ge filtered_df column min_val with
      | Some filtered_df => filter_le filtered_df column max_val
      | None => None
      end
  | CategoricalFilter _ selected _ _ _ =>
      (* filter_config.get("selected") or filter_config.get("values", []);
         a descriptor has no key "values" *)
      match selected with
      | [] => Some filtered_df
      | _ :: _ => isin filtered_df column selected
      end
  | DateFilter _ _ current_start current_end _ _ =>
      (* ... .get("current_start") or ... .get("start_date") *)
      let df1 := match truthy current_start with
                 | Some start_date => compare_text true filtered_df column start_date
                 | None => Some filtered_df
                 end in
      match df1 with
      | Some filtered_df =>
          match truthy current_end with
          | Some end_date => compare_text false filtered_df column end_date
          | None => Some filtered_df
          end
      | None => None
      end
  | TextFilter _ _ _ _ => Some filtered_df
  | OtherFilter => Some filtered_df
  end.

Definition apply_filters (df : frame) (filters : list (string * filter_config))
  : option frame :=
  fold_left
    (fun filtered '(column, filter_config) =>
       match filtered with
       | None => None
       | Some filtered_df =>
           if has_column filtered_df column
           then apply_filter filtered_df column filter_config
           else Some filtered_df
       end)
    filters (Some df).

(** *** The dashboard of a frame

    The four builders of [generate_dashboard], in the order of the calls. *)
Record dashboard := mk_dashboard {
  charts : list chart;
  kpis : list kpi;
  recommendations : list recommendation;
  layout : LayoutManager.layout
}.

Definition build_dashboard
           {plotly : VizBuilder.Plotly} {numerics : Numerics}
           {sklearn : Recommender.Sklearn} (df : frame) : dashboard :=
  let charts := VizBuilder.build_all_charts df in
  let kpis := KPIBuilder.build_kpis df in
  let recommendations := Recommender.generate_recommendations df in
  let layout := LayoutManager.organize_layout charts kpis recommendations in
  {| charts := charts; kpis := kpis; recommendations := recommendations;
     layout := layout |}.

(** [generate_dashboard] without the file and the HTTP layer: the filters
    of the request body, when there are any, then the dashboard.  [None]
    is the HTTP 500 answer. *)
Definition generate_dashboard
           {plotly : VizBuilder.Plotly} {numerics : Numerics}
           {sklearn : Recommender.Sklearn}
           (df : frame) (filters : option (list (string * filter_config)))
  : option dashboard :=
  let filtered :=
    match filters with
    | Some (f :: fs) => apply_filters df (f :: fs)
    | _ => Some df
    end in
  option_map build_dashboard filtered.

End Dashboard.

(* ================================================================== *)
(** * Part II: properties                                              *)
(* ================================================================== *)

(** ** Facts about the Python built-ins *)

Module PyFacts.
Import Py.

Lemma length_enumerate_from {A : Type} (l : list A) :
  forall i, List.length (enumerate_from i l) = List.length l.
Proof.
  induction l as [|x l IH]; intro i; simpl; [reflexivity|].
  now rewrite IH.
Qed.

Lemma length_enumerate {A : Type} (l : list A) :
  List.length (enumerate l) = List.length l.
Proof. apply length_enumerate_from. Qed.

Lemma map_snd_enumerate_from {A : Type} (l : list A) :
  forall i, map snd (enumerate_from i l) = l.
Proof.
  induction l as [|x l IH]; intro i; simpl; [reflexivity|].
  now rewrite IH.
Qed.

Lemma map_enumerate_from {A B : Type} (f : nat * A -> B) (g : A -> B)
      (Hfg : forall i a, f (i, a) = g a) (l : list A) :
  forall i, map f (enumerate_from i l) = map g l.
Proof.
  induction l as [|x l IH]; intro i; simpl; [reflexivity|].
  now rewrite Hfg, IH.
Qed.

(** *** Grouping *)

(** Number of values stored under all keys of a grouping dictionary. *)
Definition stored {A : Type} (d : list (string * list A)) : nat :=
  list_sum (map (fun p => List.length (snd p)) d).

Lemma stored_dict_append {A : Type} (k : string) (v : A) d :
  stored (dict_append k v d) = S (stored d).
Proof.
  unfold stored.
  induction d as [|[k' vs] d IH]; simpl; [reflexivity|].
  destruct (String.eqb k k'); simpl.
  - rewrite length_app; simpl; lia.
  - rewrite IH; lia.
Qed.

Lemma stored_fold_dict_append {A : Type} (key : A -> string) (l : list A) :
  forall d,
    stored (fold_left (fun g x => dict_append (key x) x g) l d)
    = stored d + List.length l.
Proof.
  induction l as [|x l IH]; intro d; simpl; [lia|].
  rewrite IH, stored_dict_append; lia.
Qed.

(** *** The stable descending sort *)

Section Sorting.
Context {A : Type} (key : A -> nat).

Lemma insert_desc_perm (x : A) (l : list A) :
  Permutation (insert_desc key x l) (x :: l).
Proof.
  induction l as [|y l IH]; simpl; [apply Permutation_refl|].
  destruct (key x <? key y).
  - eapply perm_trans; [apply perm_skip, IH | apply perm_swap].
  - apply Permutation_refl.
Qed.

Lemma sorted_desc_perm (l : list A) : Permutation (sorted_desc key l) l.
Proof.
  induction l as [|x l IH]; simpl; [constructor|].
  eapply perm_trans; [apply insert_desc_perm | now apply perm_skip].
Qed.

Lemma length_sorted_desc (l : list A) :
  List.length (sorted_desc key l) = List.length l.
Proof. apply Permutation_length, sorted_desc_perm. Qed.

(** Stability: the elements of any one key keep their input order. *)
Lemma filter_insert_desc (s : nat) (x : A) (l : list A) :
  filter (fun a => key a =? s) (insert_desc key x l)
  = filter (fun a => key a =? s) (x :: l).
Proof.
  induction l as [|y l IH]; [reflexivity|].
  simpl insert_desc.
  destruct (key x <? key y) eqn:Hlt; [|reflexivity].
  apply Nat.ltb_lt in Hlt.
  simpl in *. rewrite IH.
  destruct (key y =? s) eqn:Hy, (key x =? s) eqn:Hx; try reflexivity.
  apply Nat.eqb_eq in Hy, Hx. lia.
Qed.

Lemma filter_sorted_desc (s : nat) (l : list A) :
  filter (fun a => key a =? s) (sorted_desc key l)
  = filter (fun a => key a =? s) l.
Proof.
  induction l as [|x l IH]; [reflexivity|].
  simpl sorted_desc. rewrite filter_insert_desc.
  simpl. now rewrite IH.
Qed.

Definition desc (a b : A) : Prop := key b <= key a.

Lemma insert_desc_sorted (x : A) (l : list A) :
  StronglySorted desc l -> StronglySorted desc (insert_desc key x l).
Proof.
  induction 1 as [|y l Hs IH Hall]; simpl.
  - constructor; constructor.
  - destruct (key x <? key y) eqn:Hlt.
    + apply Nat.ltb_lt in Hlt.
      constructor; [exact IH|].
      eapply Permutation_Forall;
        [apply Permutation_sym, insert_desc_perm|].
      constructor; [unfold desc; lia | exact Hall].
    + apply Nat.ltb_ge in Hlt.
      constructor; [now constructor|].
      constructor; [exact Hlt|].
      eapply Forall_impl; [|exact Hall].
      unfold desc; intros; lia.
Qed.

Lemma sorted_desc_sorted (l : list A) : StronglySorted desc (sorted_desc key l).
Proof.
  induction l as [|x l IH]; simpl; [constructor|].
  now apply insert_desc_sorted.
Qed.

End Sorting.

(** Sorting commutes with any relabelling that keeps the keys. *)
Lemma sorted_desc_map {A B : Type} (key : A -> nat) (key' : B -> nat)
      (f : A -> B) (Hkey : forall a, key' (f a) = key a) (l : list A) :
  map f (sorted_desc key l) = sorted_desc key' (map f l).
Proof.
  induction l as [|x l IH]; [reflexivity|].
  simpl. rewrite <- IH.
  generalize (sorted_desc key l) as m.
  induction m as [|y m IHm]; [reflexivity|].
  simpl. rewrite !Hkey.
  destruct (key x <? key y); simpl; [now rewrite IHm | reflexivity].
Qed.

Lemma In_opt_list {A : Type} (o : option A) (x : A) :
  In x (opt_list o) -> o = Some x.
Proof. destruct o; simpl; [intros [E|[]]; now subst | intros []]. Qed.

End PyFacts.

(** ** Floats and frames *)

Module FrameFacts.
Import Frame.

Lemma Qlt_bool_iff (x y : Q) : Qlt_bool x y = true <-> (x < y)%Q.
Proof.
  unfold Qlt_bool. rewrite negb_true_iff.
  split; intro H.
  - apply Qnot_le_lt. intro Hle. apply Qle_bool_iff in Hle. congruence.
  - destruct (Qle_bool y x) eqn:E; [|reflexivity].
    apply Qle_bool_iff in E. exfalso. apply (Qlt_not_le _ _ H E).
Qed.

Lemma filter_negb_all {A : Type} (p : A -> bool) (l : list A) :
  forallb p l = true -> filter (fun x => negb (p x)) l = [].
Proof.
  induction l as [|x l IH]; [reflexivity|].
  simpl. intro H. apply andb_true_iff in H as [Hx Hl].
  rewrite Hx. simpl. now apply IH.
Qed.

(** [k / n > p / q] on counts, without division. *)
Lemma ratio_above (p q : positive) (k n : nat) :
  0 < n ->
  (Qlt_bool (Z.pos p # q) (Q_of_nat k / Q_of_nat n) = true
   <-> (Z.pos p * Z.of_nat n < Z.pos q * Z.of_nat k)%Z).
Proof.
  intro Hn. rewrite Qlt_bool_iff.
  assert (Hpos : (0 < Q_of_nat n)%Q).
  { unfold Q_of_nat, Qlt. simpl. lia. }
  split; intro H.
  - apply (Qmult_lt_compat_r _ _ (Q_of_nat n)) in H; [|exact Hpos].
    unfold Qdiv in H.
    rewrite <- Qmult_assoc, (Qmult_comm (/ _)), Qmult_inv_r, Qmult_1_r in H.
    + unfold Qlt, Q_of_nat, Qmult, inject_Z in H. cbn [Qnum Qden] in H.
      rewrite Pos.mul_1_r in H. lia.
    + intro E. rewrite E in Hpos. discriminate.
  - apply Qlt_shift_div_l; [exact Hpos|].
    unfold Qlt, Q_of_nat, Qmult, inject_Z. cbn [Qnum Qden].
    rewrite Pos.mul_1_r. lia.
Qed.

(** *** Columns without missing values, and masks *)

Definition all_present {A : Type} (l : list (option A)) : bool :=
  forallb (fun x => match x with Some _ => true | None => false end) l.

Lemma all_present_fillna {A : Type} (v : option A) (l : list (option A)) :
  all_present l = true -> fillna v l = l.
Proof.
  induction l as [|[x|] l IH]; simpl; intro H; [reflexivity| |discriminate].
  now rewrite IH.
Qed.

Lemma all_present_dropna {A : Type} (l : list (option A)) :
  all_present l = true -> List.length (dropna l) = List.length l.
Proof.
  induction l as [|[x|] l IH]; simpl; intro H; [reflexivity| |discriminate].
  now rewrite IH.
Qed.

Lemma all_present_notna (l : list (option Q)) :
  all_present l = true ->
  filter (fun c => negb (isna c)) (map FloatCell l) = map FloatCell l.
Proof.
  induction l as [|[x|] l IH]; simpl; intro H; [reflexivity| |discriminate].
  now rewrite IH.
Qed.

Lemma select_all {A : Type} (mask : list bool) (l : list A) :
  forallb (fun b : bool => b) mask = true ->
  List.length mask = List.length l -> select mask l = l.
Proof.
  revert l. induction mask as [|b mask IH]; intros [|x l] Hall Hlen;
    simpl in *; try reflexivity; try discriminate.
  apply andb_true_iff in Hall as [Hb Hall]. rewrite Hb.
  f_equal. apply IH; [exact Hall | lia].
Qed.

Lemma length_first_occurrences {A : Type} (eqb : A -> A -> bool) (l : list A) :
  forall seen, List.length (first_occurrences eqb seen l) = List.length l.
Proof.
  induction l as [|x l IH]; intro seen; simpl; [reflexivity|].
  destruct (mem eqb x seen); simpl; now rewrite IH.
Qed.

Lemma select_rows_all (mask : list bool) (n : nat) (d : frame) :
  forallb (fun b : bool => b) mask = true ->
  List.length mask = n ->
  forallb (fun cs => series_len (snd cs) =? n) d = true ->
  select_rows mask d = d.
Proof.
  intros Hall Hm. unfold select_rows.
  induction d as [|[c s] d IH]; intro Hlen; [reflexivity|].
  simpl in Hlen. apply andb_true_iff in Hlen as [Hs Hlen].
  apply Nat.eqb_eq in Hs. simpl. rewrite (IH Hlen). f_equal. f_equal.
  unfold series_len in Hs.
  destruct s as [l|l|l]; simpl in *; rewrite length_map in Hs;
    rewrite select_all; auto; lia.
Qed.

End FrameFacts.

(** ** Cleaning and type inference *)

Module CleanerFacts.
Import Frame FrameFacts DataCleaner.

(** *** The date test *)

Lemma append_date_grows (st st' : cleaner) (c : string) :
  date_columns st' = date_columns st -> st' <> append_date st c.
Proof.
  intros Hd E. apply (f_equal date_columns) in E. simpl in E.
  rewrite Hd in E. apply (f_equal (@List.length string)) in E.
  rewrite length_app in E. simpl in E. lia.
Qed.

Lemma date_test_threshold (name : string) (s : series) :
  existsb (fun keyword => Py.contains keyword (Py.lower name)) date_keywords = false ->
  (_is_date_column name s = true
   <-> 7 * List.length (sample_values s) < 10 * date_count s).
Proof.
  intro Hkw. unfold _is_date_column. rewrite Hkw.
  destruct (0 <? List.length (sample_values s)) eqn:Hn.
  - apply Nat.ltb_lt in Hn. rewrite (ratio_above 7 10 _ _ Hn). lia.
  - apply Nat.ltb_ge in Hn.
    assert (Hc : date_count s <= List.length (sample_values s)).
    { unfold date_count. apply filter_length_le. }
    split; [discriminate | lia].
Qed.

(** C6 (as amended). A column that is not numeric and whose name holds
    no date keyword is filed under the date columns exactly when strictly
    more than 70% of its sampled values (the first ten present ones) count
    as dates: a text matching one of the four patterns at its start, or
    any value of a datetime column. *)
Theorem date_kind_iff_more_than_70_percent
        {pandas : Pandas} (st : cleaner) (name : string) (s : series) :
  existsb (fun keyword => Py.contains keyword (Py.lower name)) date_keywords = false ->
  _is_numeric_column s = false ->
  (detect_column st name s = append_date st name
   <-> 7 * List.length (sample_values s) < 10 * date_count s).
Proof.
  intros Hkw Hnum. rewrite <- (date_test_threshold name s Hkw).
  unfold detect_column. rewrite Hnum.
  destruct (forallb isna (cells s)) eqn:Hna.
  - split.
    + intro E. exfalso. revert E. now apply append_date_grows.
    + intro E. exfalso.
      apply (date_test_threshold name s Hkw) in E.
      unfold date_count, sample_values in E.
      rewrite (filter_negb_all _ _ Hna) in E. simpl in E. lia.
  - destruct (_is_date_column name s); [tauto|].
    split; [|discriminate].
    intro E. exfalso. revert E.
    destruct (_is_categorical_column s) as [[|]|]; now apply append_date_grows.
Qed.

Definition dates_8_of_10 : series :=
  Object (repeat (Some "2024-03-01") 8 ++ repeat (Some "pending") 2).

Lemma date_kind_iff_more_than_70_percent_witness :
  detect_column (pandas := plain_pandas) __init__ "joined" dates_8_of_10
  = append_date __init__ "joined".
Proof.
  apply (date_kind_iff_more_than_70_percent
           (pandas := plain_pandas) __init__ "joined" dates_8_of_10).
  - reflexivity.
  - reflexivity.
  - vm_compute. lia.
Defined.

Definition dates_7_of_10 : series :=
  Object (repeat (Some "2024-03-01") 7 ++ repeat (Some "pending") 3).

(** C6, counterexample: seven of the ten sampled values are dates, which
    is 70%, and the column is not filed under the date columns. *)
Lemma seven_dates_of_ten_is_not_a_date_column :
  date_count dates_7_of_10 = 7
  /\ List.length (sample_values dates_7_of_10) = 10
  /\ _is_numeric_column (pandas := plain_pandas) dates_7_of_10 = false
  /\ _is_date_column "joined" dates_7_of_10 = false
  /\ detect_column (pandas := plain_pandas) __init__ "joined" dates_7_of_10
     = append_categorical __init__ "joined".
Proof. repeat split. Qed.

(** *** The kind lists of an instance *)

Inductive kind : Type := Numeric | Categorical | Date | Text.

Definition kind_eqb (a b : kind) : bool :=
  match a, b with
  | Numeric, Numeric | Categorical, Categorical | Date, Date | Text, Text => true
  | _, _ => false
  end.

Definition kind_list (k : kind) (st : cleaner) : list string :=
  match k with
  | Numeric => numeric_columns st
  | Categorical => categorical_columns st
  | Date => date_columns st
  | Text => text_columns st
  end.

Definition info_list (k : kind) (i : column_info) : list string :=
  match k with
  | Numeric => info_numeric_columns i
  | Categorical => info_categorical_columns i
  | Date => info_date_columns i
  | Text => info_text_columns i
  end.

(** The instance after [n] calls of [clean_data] on [df]. *)
Fixpoint after_calls {pandas : Pandas} {numerics : Numerics}
         (n : nat) (st : cleaner) (df : frame) : cleaner :=
  match n with
  | 0 => st
  | S n' => after_calls n' (fst (clean_data st df)) df
  end.

Definition occurrences (c : string) (l : list string) : nat :=
  count_occ string_dec l c.

(** List by list, the names of [st] followed by those of [d]. *)
Definition extend (st d : cleaner) : cleaner :=
  {| numeric_columns := numeric_columns st ++ numeric_columns d;
     categorical_columns := categorical_columns st ++ categorical_columns d;
     date_columns := date_columns st ++ date_columns d;
     text_columns := text_columns st ++ text_columns d |}.

Lemma extend_init_r (st : cleaner) : extend st __init__ = st.
Proof. destruct st. unfold extend. simpl. now rewrite !app_nil_r. Qed.

Lemma extend_init_l (st : cleaner) : extend __init__ st = st.
Proof. now destruct st. Qed.

Lemma extend_assoc (a b c : cleaner) :
  extend (extend a b) c = extend a (extend b c).
Proof. unfold extend. simpl. now rewrite !app_assoc. Qed.

Lemma kind_list_extend (k : kind) (a b : cleaner) :
  kind_list k (extend a b) = kind_list k a ++ kind_list k b.
Proof. now destruct k. Qed.

Section WithPandas.
Context {pandas : Pandas} {numerics : Numerics}.

(** The kind under which the loop body files a column. *)
Definition kind_of (c : string) (s : series) : kind :=
  if forallb isna (cells s) then Text
  else if _is_numeric_column s then Numeric
  else if _is_date_column c s then Date
  else match _is_categorical_column s with
       | Some true => Categorical
       | _ => Text
       end.

Definition only (k : kind) (c : string) : cleaner :=
  match k with
  | Numeric => append_numeric __init__ c
  | Categorical => append_categorical __init__ c
  | Date => append_date __init__ c
  | Text => append_text __init__ c
  end.

Lemma detect_column_extend (st : cleaner) (c : string) (s : series) :
  detect_column st c s = extend st (only (kind_of c s) c).
Proof.
  unfold detect_column, kind_of.
  destruct (forallb isna (cells s)); [destruct st; unfold extend; simpl;
                                      now rewrite !app_nil_r|].
  destruct (_is_numeric_column s); [destruct st; unfold extend; simpl;
                                    now rewrite !app_nil_r|].
  destruct (_is_date_column c s); [destruct st; unfold extend; simpl;
                                   now rewrite !app_nil_r|].
  destruct (_is_categorical_column s) as [[|]|];
    destruct st; unfold extend; simpl; now rewrite !app_nil_r.
Qed.

Lemma detect_extend (df : frame) :
  forall st,
    _detect_column_types st df
    = extend st (_detect_column_types __init__ df).
Proof.
  unfold _detect_column_types.
  induction df as [|[c s] df IH]; intro st; simpl.
  - now rewrite extend_init_r.
  - rewrite IH. rewrite (IH (detect_column __init__ c s)).
    rewrite <- extend_assoc. f_equal.
    rewrite detect_column_extend.
    rewrite (detect_column_extend __init__), extend_init_l. reflexivity.
Qed.

Lemma clean_data_state (st : cleaner) (df : frame) :
  fst (clean_data st df) = _detect_column_types st df.
Proof. reflexivity. Qed.

(** Every column name is filed once per occurrence, under one kind. *)
Lemma detect_occurrences (df : frame) (c : string) (k : kind) :
  occurrences c (kind_list k (_detect_column_types __init__ df))
  = List.length
      (filter (fun cs => String.eqb c (fst cs) && kind_eqb k (kind_of (fst cs) (snd cs)))
              df).
Proof.
  unfold occurrences.
  induction df as [|[c' s] df IH]; [now destruct k|].
  unfold _detect_column_types in *. simpl fold_left.
  pose proof (detect_extend df (detect_column __init__ c' s)) as E.
  unfold _detect_column_types in E. rewrite E. clear E.
  rewrite kind_list_extend, count_occ_app, IH.
  rewrite detect_column_extend, extend_init_l.
  cbn [filter fst snd].
  destruct (String.eqb_spec c c') as [->|Hne].
  - destruct k, (kind_of c' s); simpl;
      try (destruct (string_dec c' c'); [reflexivity | contradiction]);
      reflexivity.
  - destruct k, (kind_of c' s); simpl;
      try (destruct (string_dec c' c); [subst; contradiction | reflexivity]);
      reflexivity.
Qed.

Lemma after_calls_extend (df : frame) (n : nat) :
  forall st k,
    kind_list k (after_calls n st df)
    = kind_list k st
      ++ List.concat (repeat (kind_list k (_detect_column_types __init__ df)) n).
Proof.
  induction n as [|n IH]; intros st k.
  - simpl. now rewrite app_nil_r.
  - cbn [after_calls repeat List.concat].
    rewrite IH, clean_data_state, detect_extend, kind_list_extend.
    now rewrite <- app_assoc.
Qed.

End WithPandas.

Lemma occurrences_concat_repeat (c : string) (l : list string) (n : nat) :
  occurrences c (List.concat (repeat l n)) = n * occurrences c l.
Proof.
  unfold occurrences.
  induction n as [|n IH]; [reflexivity|].
  simpl. rewrite count_occ_app, IH. reflexivity.
Qed.

Lemma filter_name_unique {B : Type} (p : string * B -> bool) (df : list (string * B))
      (c : string) :
  NoDup (map fst df) ->
  List.length (filter (fun cs => String.eqb c (fst cs) && p cs) df) <= 1.
Proof.
  induction df as [|[c' s] df IH]; intro Hnd; simpl; [lia|].
  inversion Hnd as [|? ? Hnotin Hnd']; subst.
  destruct (String.eqb_spec c c') as [->|Hne]; simpl.
  - assert (Hz : filter (fun cs => String.eqb c' (fst cs) && p cs) df = []).
    { clear IH Hnd Hnd'. induction df as [|[c2 s2] df IHd]; [reflexivity|].
      simpl in *. destruct (String.eqb_spec c' c2) as [->|Hne2].
      - exfalso. apply Hnotin. now left.
      - simpl. apply IHd. intro Hin. apply Hnotin. now right. }
    rewrite Hz. destruct (p (c', s)); simpl; lia.
  - now apply IH.
Qed.

Lemma same_series_of_In (df : frame) (c : string) (s1 s2 : series) :
  NoDup (map fst df) -> In (c, s1) df -> In (c, s2) df -> s1 = s2.
Proof.
  induction df as [|[c' s'] df IH]; intros Hnd H1 H2; [contradiction|].
  inversion Hnd as [|? ? Hnotin Hnd']; subst.
  destruct H1 as [H1|H1], H2 as [H2|H2].
  - congruence.
  - inversion H1; subst. exfalso. apply Hnotin.
    apply (in_map fst) in H2. exact H2.
  - inversion H2; subst. exfalso. apply Hnotin.
    apply (in_map fst) in H1. exact H1.
  - now apply IH.
Qed.

(** With distinct column names, one call files a column once, under its
    kind. *)
Lemma occurrences_one_call {pandas : Pandas} (df : frame) (c : string)
      (s : series) (k : kind) :
  NoDup (map fst df) -> In (c, s) df ->
  occurrences c (kind_list k (_detect_column_types __init__ df))
  = if kind_eqb k (kind_of c s) then 1 else 0.
Proof.
  intros Hnd Hin. rewrite detect_occurrences.
  pose proof (filter_name_unique
                (fun cs => kind_eqb k (kind_of (fst cs) (snd cs))) df c Hnd) as Hle.
  destruct (kind_eqb k (kind_of c s)) eqn:Hk.
  - assert (Hin' : In (c, s)
                      (filter (fun cs => String.eqb c (fst cs)
                                         && kind_eqb k (kind_of (fst cs) (snd cs))) df)).
    { apply filter_In. split; [exact Hin|]. simpl.
      now rewrite String.eqb_refl, Hk. }
    destruct (filter _ df) as [|x [|y l]]; simpl in *; [contradiction|lia|lia].
  - destruct (filter _ df) as [|[c2 s2] l] eqn:Hf; [reflexivity|].
    exfalso.
    assert (Hx : In (c2, s2)
                    (filter (fun cs => String.eqb c (fst cs)
                                       && kind_eqb k (kind_of (fst cs) (snd cs))) df))
      by (rewrite Hf; now left).
    apply filter_In in Hx as [Hx1 Hx2]. simpl in Hx2.
    apply andb_true_iff in Hx2 as [Hc Hk2].
    apply String.eqb_eq in Hc. subst c2.
    rewrite (same_series_of_In df c s2 s Hnd Hx1 Hin) in Hk2. congruence.
Qed.

(** C10. [clean_data] appends to the four kind lists of the instance and
    never resets them.  After [n] calls on a frame (with distinct column
    names) starting from a fresh instance, every kind list is the list of
    a single call repeated [n] times, so each column of the frame stands
    [n] times in the list of its kind and in no other list; and
    [get_column_info] reports these very lists.  For [n = 1], a fresh
    instance, every column is listed once. *)
Theorem kind_lists_accumulate_over_calls
        {pandas : Pandas} {numerics : Numerics} (df : frame) (n : nat) :
  NoDup (map fst df) ->
  let one_call := fst (clean_data __init__ df) in
  let st := after_calls n __init__ df in
  (forall k, kind_list k st = List.concat (repeat (kind_list k one_call) n))
  /\ (forall c s, In (c, s) df ->
                 forall k, occurrences c (kind_list k st)
                           = if kind_eqb k (kind_of c s) then n else 0)
  /\ (forall k d, info_list k (get_column_info st d) = kind_list k st).
Proof.
  intros Hnd one_call st. subst one_call st.
  split; [|split].
  - intro k. now rewrite after_calls_extend, clean_data_state; destruct k.
  - intros c s Hin k.
    rewrite after_calls_extend.
    replace (kind_list k __init__) with (@nil string) by now destruct k.
    rewrite app_nil_l, occurrences_concat_repeat.
    rewrite (occurrences_one_call df c s k Hnd Hin).
    destruct (kind_eqb k (kind_of c s)); lia.
  - intros k d. now destruct k.
Qed.

Definition two_columns : frame :=
  [ ("amount", Float64 [Some 1%Q; Some 2%Q; Some 3%Q]);
    ("note", Object [Some "ok"; Some "late"; Some "ok"]) ].

Lemma kind_lists_accumulate_over_calls_witness :
  numeric_columns (after_calls (pandas := plain_pandas)
                               (numerics := plain_numerics) 3 __init__ two_columns)
  = ["amount"; "amount"; "amount"]
  /\ text_columns (after_calls (pandas := plain_pandas)
                               (numerics := plain_numerics) 3 __init__ two_columns)
     = ["note"; "note"; "note"].
Proof.
  assert (Hnd : NoDup (map fst two_columns)).
  { repeat constructor; simpl; intuition discriminate. }
  destruct (kind_lists_accumulate_over_calls
              (pandas := plain_pandas) (numerics := plain_numerics)
              two_columns 3 Hnd) as [H _].
  split.
  - exact (H Numeric).
  - exact (H Text).
Defined.

(** *** Cleaning twice *)

(** [clean(clean(df))] *)
Definition clean_twice {pandas : Pandas} {numerics : Numerics} (df : frame)
  : option frame :=
  match clean df with
  | Some d => clean d
  | None => None
  end.

(** [a.equals(b)] on the results of two cleanings. *)
Definition same_result (a b : option frame) : bool :=
  match a, b with
  | Some x, Some y => equals x y
  | _, _ => false
  end.

Definition skewed : frame :=
  [("x", Float64 [Some 0%Q; Some 1%Q; Some 2%Q; Some 4%Q; Some 10%Q])].

(** The first cleaning blanks 10 (the quartiles are 1 and 4, the bounds
    -3.5 and 8.5) and fills in the median 1.5; on the result the quartiles
    are 1 and 2 and the bounds -0.5 and 3.5, so the second cleaning blanks
    4 and fills in 1.25.  Every number in this computation is a multiple
    of 1/4 below 16: the doubles compute it without rounding, as the
    exact arithmetic does. *)
Lemma clean_skewed {pandas : Pandas} :
  clean (numerics := plain_numerics) skewed
  = Some [("x", Float64 [Some 0%Q; Some 1%Q; Some 2%Q; Some 4%Q; Some (3 # 2)%Q])]
  /\ clean_twice (numerics := plain_numerics) skewed
     = Some [("x", Float64 [Some 0%Q; Some 1%Q; Some 2%Q;
                            Some (5 # 4)%Q; Some (3 # 2)%Q])].
Proof. split; reflexivity. Qed.

(** C2, counterexample: whatever the text conversions of pandas, cleaning
    the cleaned frame of [skewed] does not give it back. *)
Lemma second_cleaning_changes_a_cleaned_frame :
  ~ (exists pandas : Pandas,
        same_result (clean_twice (numerics := plain_numerics) skewed)
                    (clean (numerics := plain_numerics) skewed) = true).
Proof.
  intros [pandas H].
  destruct (@clean_skewed pandas) as [H1 H2].
  rewrite H1, H2 in H. vm_compute in H. discriminate H.
Qed.

(** **** Frames that cleaning leaves alone *)

(** A float column with at least one row, no NaN, and no value outside
    the bounds that the cleaner computes from the column itself, in
    floats. *)
Definition settled_float {numerics : Numerics} (l : list (option Q)) : bool :=
  match l with
  | [] => false
  | _ :: _ =>
      all_present l
      && forallb (fun x => negb (is_outlier (fst (iqr_bounds l))
                                            (snd (iqr_bounds l)) x)) l
  end.

(** A text value that [strip] and the replacement of
    ['', 'nan', 'None', 'null'] leave as it is. *)
Definition settled_value (v : string) : bool :=
  String.eqb (Py.strip v) v
  && negb (Py.str_in v [EmptyString; "nan"; "None"; "null"]).

(** A text column without missing values that the inferencer takes for
    neither numbers nor dates, whose values are settled, and title-cased
    when the column passes the categorical test. *)
Definition settled_text {pandas : Pandas} (c : string) (l : list (option string))
  : bool :=
  all_present l
  && negb (_is_numeric_column (Object l))
  && negb (_is_date_column c (Object l))
  && forallb settled_value (dropna l)
  && match _is_categorical_column (Object l) with
     | Some true => forallb (fun v => String.eqb (Py.title v) v) (dropna l)
     | _ => true
     end.

Definition settled_series {pandas : Pandas} {numerics : Numerics}
           (c : string) (s : series) : bool :=
  match s with
  | Float64 l => settled_float l
  | Object l => settled_text c l
  | Datetime64 _ => false
  end.

Fixpoint distinct (l : list string) : bool :=
  match l with
  | [] => true
  | x :: l' => negb (Py.str_in x l') && distinct l'
  end.

(** Distinct column names, columns of one length, no two equal rows, and
    every column settled. *)
Definition settled {pandas : Pandas} {numerics : Numerics} (d : frame) : bool :=
  distinct (map fst d)
  && forallb (fun cs => series_len (snd cs) =? nrows d) d
  && forallb (fun b : bool => b)
             (first_occurrences (list_eqb (option_eqb cell_eqb)) [] (rows d))
  && forallb (fun cs => settled_series (fst cs) (snd cs)) d.

Lemma str_in_iff (x : string) (l : list string) :
  Py.str_in x l = true <-> In x l.
Proof.
  unfold Py.str_in. rewrite existsb_exists. split.
  - intros [y [Hy E]]. apply String.eqb_eq in E. now subst.
  - intro H. exists x. split; [exact H | apply String.eqb_refl].
Qed.

Lemma distinct_NoDup (l : list string) : distinct l = true -> NoDup l.
Proof.
  induction l as [|x l IH]; simpl; intro H; [constructor|].
  apply andb_true_iff in H as [Hx Hl].
  constructor; [|now apply IH].
  intro Hin. apply str_in_iff in Hin. rewrite Hin in Hx. discriminate.
Qed.

Lemma column_of_In (df : frame) (c : string) (s : series) :
  NoDup (map fst df) -> In (c, s) df -> column df c = Some s.
Proof.
  unfold column.
  induction df as [|[c' s'] df IH]; intros Hnd Hin; [contradiction|].
  inversion Hnd as [|? ? Hnotin Hnd']; subst. simpl.
  destruct Hin as [E|Hin].
  - inversion E; subst. now rewrite String.eqb_refl.
  - destruct (String.eqb_spec c c') as [->|_].
    + exfalso. apply Hnotin. apply (in_map fst) in Hin. exact Hin.
    + now apply IH.
Qed.

Lemma update_column_id (f : series -> series) (c : string) (df : frame) :
  (forall s, column df c = Some s -> f s = s) -> update_column c f df = df.
Proof.
  unfold column.
  induction df as [|[c' s'] df IH]; intro H; [reflexivity|].
  simpl in *. destruct (String.eqb c c').
  - now rewrite (H s' eq_refl).
  - now rewrite IH.
Qed.

Lemma clean_columns_id (f : series -> series) (names : list string) (df : frame) :
  (forall c s, In c names -> column df c = Some s -> f s = s) ->
  clean_columns f names df = df.
Proof.
  unfold clean_columns.
  induction names as [|c names IH]; intro H; [reflexivity|].
  simpl. destruct (has_column df c).
  - rewrite update_column_id.
    + apply IH. intros c' s Hin. apply H. now right.
    + intros s. apply H. now left.
  - apply IH. intros c' s Hin. apply H. now right.
Qed.

Lemma kind_eqb_eq (a b : kind) : kind_eqb a b = true <-> a = b.
Proof. destruct a, b; simpl; split; congruence. Qed.

Lemma drop_duplicates_id (d : frame) :
  forallb (fun cs => series_len (snd cs) =? nrows d) d = true ->
  forallb (fun b : bool => b)
          (first_occurrences (list_eqb (option_eqb cell_eqb)) [] (rows d)) = true ->
  drop_duplicates d = d.
Proof.
  intros Hlen Hall. unfold drop_duplicates.
  apply (select_rows_all _ (nrows d)); [exact Hall | | exact Hlen].
  rewrite length_first_occurrences. unfold rows.
  now rewrite length_map, length_seq.
Qed.

Section FixedPoint.
Context {pandas : Pandas} {numerics : Numerics}.

Lemma In_of_column (df : frame) (c : string) (s : series) :
  column df c = Some s -> In (c, s) df.
Proof.
  unfold column.
  induction df as [|[c' s'] df IH]; simpl; intro H; [discriminate|].
  destruct (String.eqb_spec c c') as [->|_].
  - inversion H; subst. now left.
  - right. now apply IH.
Qed.

(** With distinct names, a name is in a kind list exactly when its
    column is of that kind. *)
Lemma kind_membership (d : frame) (c : string) (s : series) (k : kind) :
  NoDup (map fst d) -> In (c, s) d ->
  Py.str_in c (kind_list k (_detect_column_types __init__ d))
  = kind_eqb k (kind_of c s).
Proof.
  intros Hnd Hin.
  pose proof (occurrences_one_call d c s k Hnd Hin) as Ho.
  unfold occurrences in Ho.
  destruct (kind_eqb k (kind_of c s)).
  - apply str_in_iff. apply (count_occ_In string_dec). lia.
  - destruct (Py.str_in c _) eqn:E; [|reflexivity].
    apply str_in_iff in E. apply (count_occ_In string_dec) in E. lia.
Qed.

Lemma settled_float_kind (c : string) (l : list (option Q)) :
  settled_float l = true -> kind_of c (Float64 l) = Numeric.
Proof.
  intro H. unfold settled_float in H.
  destruct l as [|x l]; [discriminate|].
  apply andb_true_iff in H as [Hp _].
  unfold kind_of.
  assert (Hna : forallb isna (cells (Float64 (x :: l))) = false).
  { destruct x; [reflexivity | discriminate]. }
  rewrite Hna.
  assert (Hn : _is_numeric_column (Float64 (x :: l)) = true).
  { unfold _is_numeric_column. cbn [to_numeric cells].
    rewrite (all_present_notna _ Hp), length_map, (all_present_dropna _ Hp).
    cbn [List.length Nat.ltb Nat.leb].
    apply ratio_above; lia. }
  now rewrite Hn.
Qed.

Lemma settled_float_clean (l : list (option Q)) :
  settled_float l = true -> clean_numeric_series (Float64 l) = Float64 l.
Proof.
  intro H. unfold settled_float in H.
  destruct l as [|x l]; [discriminate|].
  apply andb_true_iff in H as [_ Hout].
  unfold clean_numeric_series. cbn [to_numeric].
  destruct (iqr_bounds (x :: l)) as [lo hi]. cbn [fst snd] in Hout.
  f_equal. rewrite <- (map_id (x :: l)) at 2.
  apply map_ext_in. intros y Hy.
  rewrite forallb_forall in Hout. specialize (Hout y Hy).
  now destruct (is_outlier lo hi y).
Qed.

Lemma settled_text_kind (c : string) (l : list (option string)) :
  settled_text c l = true ->
  kind_of c (Object l) = Text
  \/ (kind_of c (Object l) = Categorical
      /\ forallb (fun v => String.eqb (Py.title v) v) (dropna l) = true).
Proof.
  intro H. unfold settled_text in H.
  apply andb_true_iff in H as [H Hcat].
  apply andb_true_iff in H as [H _].
  apply andb_true_iff in H as [H Hdate].
  apply andb_true_iff in H as [_ Hnum].
  apply negb_true_iff in Hdate, Hnum.
  unfold kind_of. rewrite Hnum, Hdate.
  destruct (forallb isna (cells (Object l))); [now left|].
  destruct (_is_categorical_column (Object l)) as [[|]|];
    [right; split; [reflexivity | exact Hcat] | now left | now left].
Qed.

Lemma all_present_astype_str (l : list (option string)) :
  all_present l = true -> astype_str (Object l) = dropna l.
Proof.
  induction l as [|[v|] l IH]; cbn [all_present forallb]; intro Hp;
    [reflexivity| |discriminate].
  cbn [astype_str map dropna] in *. now rewrite IH.
Qed.

Lemma all_present_map_Some {A : Type} (l : list (option A)) :
  all_present l = true -> map Some (dropna l) = l.
Proof.
  induction l as [|[v|] l IH]; cbn [all_present forallb]; intro Hp;
    [reflexivity| |discriminate].
  cbn [dropna map]. now rewrite IH.
Qed.

Lemma settled_values_strip (l : list (option string)) :
  all_present l = true ->
  forallb settled_value (dropna l) = true ->
  replace_empty (map Py.strip (astype_str (Object l))) = l.
Proof.
  intros Hp Hv.
  rewrite (all_present_astype_str l Hp).
  rewrite <- (all_present_map_Some l Hp) at 2.
  unfold replace_empty. rewrite map_map.
  apply map_ext_in. intros v Hin.
  rewrite forallb_forall in Hv. specialize (Hv v Hin).
  unfold settled_value in Hv. apply andb_true_iff in Hv as [Hs He].
  apply String.eqb_eq in Hs. apply negb_true_iff in He.
  now rewrite Hs, He.
Qed.

Lemma settled_values_title (l : list (option string)) :
  all_present l = true ->
  forallb settled_value (dropna l) = true ->
  forallb (fun v => String.eqb (Py.title v) v) (dropna l) = true ->
  replace_empty (map Py.title (map Py.strip (astype_str (Object l)))) = l.
Proof.
  intros Hp Hv Ht.
  rewrite (all_present_astype_str l Hp).
  rewrite <- (all_present_map_Some l Hp) at 2.
  unfold replace_empty. rewrite !map_map.
  apply map_ext_in. intros v Hin.
  rewrite forallb_forall in Hv, Ht.
  specialize (Hv v Hin). specialize (Ht v Hin). cbv beta in Ht.
  unfold settled_value in Hv. apply andb_true_iff in Hv as [Hs He].
  apply String.eqb_eq in Hs, Ht. apply negb_true_iff in He.
  now rewrite Hs, Ht, He.
Qed.

Lemma settled_text_parts (c : string) (l : list (option string)) :
  settled_text c l = true ->
  all_present l = true /\ forallb settled_value (dropna l) = true.
Proof.
  intro H. unfold settled_text in H.
  apply andb_true_iff in H as [H _].
  apply andb_true_iff in H as [H Hv].
  apply andb_true_iff in H as [H _].
  apply andb_true_iff in H as [Hp _].
  now split.
Qed.

(** Each of the four cleaning loops leaves a settled column of its own
    kind as it is; no settled column is of another kind. *)
Lemma settled_series_clean (c : string) (s : series) :
  settled_series c s = true ->
  match kind_of c s with
  | Numeric => clean_numeric_series s = s
  | Categorical => clean_categorical_series s = s
  | Date => False
  | Text => clean_text_series s = s
  end.
Proof.
  destruct s as [l|l|l]; simpl; intro H; [| discriminate |].
  - rewrite (settled_float_kind c l H). now apply settled_float_clean.
  - destruct (settled_text_parts c l H) as [Hp Hv].
    destruct (settled_text_kind c l H) as [Hk|[Hk Ht]]; rewrite Hk.
    + unfold clean_text_series. f_equal. now apply settled_values_strip.
    + unfold clean_categorical_series. f_equal. now apply settled_values_title.
Qed.

Lemma settled_series_fill (d : frame) (c : string) (s : series) :
  NoDup (map fst d) -> In (c, s) d -> settled_series c s = true ->
  fill_missing (_detect_column_types __init__ d) c s = Some s.
Proof.
  intros Hnd Hin Hs. unfold fill_missing.
  pose proof (kind_membership d c s Numeric Hnd Hin) as Hn.
  pose proof (kind_membership d c s Categorical Hnd Hin) as Hc.
  pose proof (kind_membership d c s Date Hnd Hin) as Hd.
  cbn [kind_list] in Hn, Hc, Hd. rewrite Hn, Hc, Hd. clear Hn Hc Hd.
  destruct s as [l|l|l]; simpl in Hs; [| discriminate |].
  - rewrite (settled_float_kind c l Hs). cbn [kind_eqb].
    unfold settled_float in Hs. destruct l as [|x l]; [discriminate|].
    apply andb_true_iff in Hs as [Hp _].
    now rewrite (all_present_fillna _ _ Hp).
  - destruct (settled_text_parts c l Hs) as [Hp _].
    destruct (settled_text_kind c l Hs) as [Hk|[Hk _]]; rewrite Hk;
      cbn [kind_eqb].
    + now rewrite (all_present_fillna _ _ Hp).
    + destruct (mode l); now rewrite (all_present_fillna _ _ Hp).
Qed.

Lemma handle_missing_id (st : cleaner) (d : frame) :
  (forall c s, In (c, s) d -> fill_missing st c s = Some s) ->
  _handle_missing_values st d = Some d.
Proof.
  induction d as [|[c s] d IH]; intro H; [reflexivity|].
  simpl. rewrite (H c s (or_introl eq_refl)).
  rewrite IH; [reflexivity|].
  intros c' s' Hin. apply H. now right.
Qed.

Lemma settled_clean_columns (d : frame) (k : kind) (f : series -> series) :
  NoDup (map fst d) ->
  (forall c s, In (c, s) d -> kind_of c s = k -> f s = s) ->
  clean_columns f (kind_list k (_detect_column_types __init__ d)) d = d.
Proof.
  intros Hnd Hf. apply clean_columns_id.
  intros c s Hc Hcol. apply In_of_column in Hcol.
  apply (Hf c s Hcol).
  apply str_in_iff in Hc.
  rewrite (kind_membership d c s k Hnd Hcol) in Hc.
  apply kind_eqb_eq in Hc. congruence.
Qed.

(** C2 (as amended). A settled frame is a fixed point of the cleaner:
    cleaning returns the frame itself, so cleaning it twice equals
    cleaning it once. *)
Theorem settled_frames_are_fixed_points (d : frame) :
  settled d = true ->
  clean d = Some d /\ clean_twice d = clean d.
Proof.
  intro H.
  assert (Hfix : clean d = Some d).
  { unfold settled in H.
    apply andb_true_iff in H as [H Hcols].
    apply andb_true_iff in H as [H Hrows].
    apply andb_true_iff in H as [Hnames Hlen].
    apply distinct_NoDup in Hnames.
    rewrite forallb_forall in Hcols.
    assert (Hk : forall c s, In (c, s) d ->
                   match kind_of c s with
                   | Numeric => clean_numeric_series s = s
                   | Categorical => clean_categorical_series s = s
                   | Date => False
                   | Text => clean_text_series s = s
                   end).
    { intros c s Hin. apply settled_series_clean. exact (Hcols (c, s) Hin). }
    unfold clean, clean_data. cbn [snd].
    unfold _clean_numeric_columns, _clean_categorical_columns,
      _clean_date_columns, _clean_text_columns.
    rewrite (settled_clean_columns d Numeric); try assumption;
      [| intros c s Hin E; specialize (Hk c s Hin); now rewrite E in Hk].
    rewrite (settled_clean_columns d Categorical); try assumption;
      [| intros c s Hin E; specialize (Hk c s Hin); now rewrite E in Hk].
    rewrite (settled_clean_columns d Date); try assumption;
      [| intros c s Hin E; specialize (Hk c s Hin); rewrite E in Hk;
         contradiction].
    rewrite (settled_clean_columns d Text); try assumption;
      [| intros c s Hin E; specialize (Hk c s Hin); now rewrite E in Hk].
    rewrite handle_missing_id.
    - simpl. now rewrite drop_duplicates_id.
    - intros c s Hin. apply settled_series_fill; try assumption.
      exact (Hcols (c, s) Hin). }
  split; [exact Hfix|].
  unfold clean_twice. now rewrite Hfix.
Qed.

End FixedPoint.

Definition orders : frame :=
  [ ("amount", Float64 [Some 3%Q; Some 5%Q; Some 4%Q; Some 6%Q]);
    ("comment", Object [Some "on time"; Some "late"; Some "Lost in transit";
                        Some "late"]) ].

Lemma settled_frames_are_fixed_points_witness :
  clean (pandas := plain_pandas) (numerics := plain_numerics) orders
  = Some orders
  /\ clean_twice (pandas := plain_pandas) (numerics := plain_numerics) orders
     = clean (pandas := plain_pandas) (numerics := plain_numerics) orders.
Proof.
  apply (settled_frames_are_fixed_points
           (pandas := plain_pandas) (numerics := plain_numerics) orders).
  vm_compute. reflexivity.
Defined.

End CleanerFacts.

(** ** Filters *)

Module FilterFacts.
Import Frame FrameFacts FilterBuilder.

Lemma Qlt_bool_false (x y : Q) : Qlt_bool x y = false -> (y <= x)%Q.
Proof.
  unfold Qlt_bool. intro H. apply negb_false_iff in H.
  now apply Qle_bool_iff.
Qed.

Lemma fold_min_le (l : list Q) :
  forall x,
    let m := fold_left (fun m y => if Qlt_bool y m then y else m) l x in
    (m <= x)%Q /\ forall y, In y l -> (m <= y)%Q.
Proof.
  induction l as [|y l IH]; intro x; simpl.
  - split; [apply Qle_refl | contradiction].
  - destruct (IH (if Qlt_bool y x then y else x)) as [Hx Hl].
    destruct (Qlt_bool y x) eqn:E.
    + apply Qlt_bool_iff in E. split.
      * eapply Qle_trans; [exact Hx | now apply Qlt_le_weak].
      * intros z [<-|Hz]; [exact Hx | now apply Hl].
    + apply Qlt_bool_false in E. split.
      * exact Hx.
      * intros z [<-|Hz]; [eapply Qle_trans; eassumption | now apply Hl].
Qed.

Lemma fold_max_ge (l : list Q) :
  forall x,
    let m := fold_left (fun m y => if Qlt_bool m y then y else m) l x in
    (x <= m)%Q /\ forall y, In y l -> (y <= m)%Q.
Proof.
  induction l as [|y l IH]; intro x; simpl.
  - split; [apply Qle_refl | contradiction].
  - destruct (IH (if Qlt_bool x y then y else x)) as [Hx Hl].
    destruct (Qlt_bool x y) eqn:E.
    + apply Qlt_bool_iff in E. split.
      * eapply Qle_trans; [apply Qlt_le_weak; exact E | exact Hx].
      * intros z [<-|Hz]; [exact Hx | now apply Hl].
    + apply Qlt_bool_false in E. split.
      * exact Hx.
      * intros z [<-|Hz]; [eapply Qle_trans; eassumption | now apply Hl].
Qed.

(** The column minimum is below, and the maximum above, every value. *)
Lemma min_le (l : list (option Q)) (m v : Q) :
  min l = Some m -> In (Some v) l -> (m <= v)%Q.
Proof.
  unfold min, Qmin_list. intros Hm Hin.
  assert (Hv : In v (dropna l)).
  { clear Hm. induction l as [|[x|] l IH]; simpl in *; [contradiction| |].
    - destruct Hin as [E|Hin]; [inversion E; now left | right; now apply IH].
    - destruct Hin as [E|Hin]; [discriminate | now apply IH]. }
  destruct (dropna l) as [|x l']; [discriminate|].
  inversion Hm; subst. destruct (fold_min_le l' x) as [Hx Hl].
  destruct Hv as [<-|Hv]; [exact Hx | now apply Hl].
Qed.

Lemma max_ge (l : list (option Q)) (m v : Q) :
  max l = Some m -> In (Some v) l -> (v <= m)%Q.
Proof.
  unfold max, Qmax_list. intros Hm Hin.
  assert (Hv : In v (dropna l)).
  { clear Hm. induction l as [|[x|] l IH]; simpl in *; [contradiction| |].
    - destruct Hin as [E|Hin]; [inversion E; now left | right; now apply IH].
    - destruct Hin as [E|Hin]; [discriminate | now apply IH]. }
  destruct (dropna l) as [|x l']; [discriminate|].
  inversion Hm; subst. destruct (fold_max_ge l' x) as [Hx Hl].
  destruct Hv as [<-|Hv]; [exact Hx | now apply Hl].
Qed.

Lemma present_min (l : list (option Q)) (v : Q) :
  In (Some v) l -> exists m, min l = Some m.
Proof.
  unfold min, Qmin_list. intro Hin.
  induction l as [|[x|] l IH]; simpl in *; [contradiction| |].
  - eexists; reflexivity.
  - destruct Hin as [E|Hin]; [discriminate | now apply IH].
Qed.

Lemma present_max (l : list (option Q)) (v : Q) :
  In (Some v) l -> exists m, max l = Some m.
Proof.
  unfold max, Qmax_list. intro Hin.
  induction l as [|[x|] l IH]; simpl in *; [contradiction| |].
  - eexists; reflexivity.
  - destruct Hin as [E|Hin]; [discriminate | now apply IH].
Qed.

Lemma ge_mask_min (l : list (option Q)) :
  all_present l = true ->
  forallb (fun b : bool => b) (ge_mask l (min l)) = true.
Proof.
  intro Hp. unfold ge_mask. rewrite forallb_forall.
  intros b Hb. apply in_map_iff in Hb as [x [<- Hx]].
  destruct x as [v|].
  - destruct (present_min l v Hx) as [m Hm]. rewrite Hm.
    apply Qle_bool_iff. now apply (min_le l).
  - unfold all_present in Hp. rewrite forallb_forall in Hp.
    now apply Hp in Hx.
Qed.

Lemma le_mask_max (l : list (option Q)) :
  all_present l = true ->
  forallb (fun b : bool => b) (le_mask l (max l)) = true.
Proof.
  intro Hp. unfold le_mask. rewrite forallb_forall.
  intros b Hb. apply in_map_iff in Hb as [x [<- Hx]].
  destruct x as [v|].
  - destruct (present_max l v Hx) as [m Hm]. rewrite Hm.
    apply Qle_bool_iff. now apply (max_ge l).
  - unfold all_present in Hp. rewrite forallb_forall in Hp.
    now apply Hp in Hx.
Qed.

(** All columns of the frame have the same number of rows. *)
Definition rectangular (df : frame) : bool :=
  forallb (fun cs => series_len (snd cs) =? nrows df) df.

Lemma rectangular_column (df : frame) (c : string) (s : series) :
  rectangular df = true -> column df c = Some s -> series_len s = nrows df.
Proof.
  unfold rectangular, column. generalize (nrows df) as n. intros n.
  induction df as [|[c' s'] df IH]; simpl; intros Hr Hc; [discriminate|].
  apply andb_true_iff in Hr as [Hs Hr].
  destruct (String.eqb c c').
  - inversion Hc; subst. now apply Nat.eqb_eq.
  - now apply IH.
Qed.

(** The descriptor that [_build_range_filter] synthesizes for a numeric
    column holding [l]: both current bounds are the column extrema. *)
Definition default_range_filter {numerics : Numerics}
           (c : string) (l : list (option Q)) : filter_config :=
  RangeFilter (min l) (max l) (Some (min l)) (Some (max l))
              match max l, min l with
              | Some b, Some a =>
                  if negb (Qeq_bool b a) then Some (fdiv (fsub b a) 100)
                  else Some 1%Q
              | _, _ => None
              end
              (Py.spaced_title c)
              [Py.Str ("Filter " ++ c ++ " between ")%string;
               Py.Fixed 2 (min l); Py.Str " and "; Py.Fixed 2 (max l)].

Lemma build_range_filter_default
      {numerics : Numerics} (df : frame) (c : string) (l : list (option Q)) :
  column df c = Some (Float64 l) ->
  _build_range_filter df c = Some (default_range_filter c l).
Proof. intro Hcol. unfold _build_range_filter. now rewrite Hcol. Qed.

(** C7 (as amended). On a frame whose numeric column [c] has no missing
    value, the range filter synthesized for [c], whose current bounds are
    the column minimum and maximum, keeps every row: applying it returns
    the frame unchanged. *)
Theorem default_range_filter_keeps_complete_column
        {pandas : Pandas} {numerics : Numerics}
        (df : frame) (c : string) (l : list (option Q)) :
  rectangular df = true ->
  column df c = Some (Float64 l) ->
  all_present l = true ->
  _build_range_filter df c = Some (default_range_filter c l)
  /\ apply_filters df [(c, default_range_filter c l)] = Some df.
Proof.
  intros Hrect Hcol Hp.
  split; [now apply build_range_filter_default|].
  assert (Hlen : List.length l = nrows df).
  { pose proof (rectangular_column df c _ Hrect Hcol) as H.
    unfold series_len in H. simpl in H. now rewrite length_map in H. }
  assert (Hge : select_rows (ge_mask l (min l)) df = df).
  { apply (select_rows_all _ (nrows df)); [now apply ge_mask_min | | exact Hrect].
    unfold ge_mask. now rewrite length_map. }
  assert (Hle : select_rows (le_mask l (max l)) df = df).
  { apply (select_rows_all _ (nrows df)); [now apply le_mask_max | | exact Hrect].
    unfold le_mask. now rewrite length_map. }
  unfold apply_filters, default_range_filter. cbn [fold_left].
  unfold has_column. rewrite Hcol. cbn [negb].
  unfold _apply_range_filter, filter_ge. rewrite Hcol, Hge.
  unfold filter_le. now rewrite Hcol, Hle.
Qed.

Definition prices : frame :=
  [ ("price", Float64 [Some 4%Q; Some (5 # 2)%Q; Some 9%Q]);
    ("item", Object [Some "tea"; Some "milk"; Some "rice"]) ].

Lemma default_range_filter_keeps_complete_column_witness :
  apply_filters (pandas := plain_pandas) prices
                [("price", default_range_filter
                             (numerics := plain_numerics)
                             "price" [Some 4%Q; Some (5 # 2)%Q; Some 9%Q])]
  = Some prices.
Proof.
  apply (default_range_filter_keeps_complete_column
           (pandas := plain_pandas) (numerics := plain_numerics) prices "price"
           [Some 4%Q; Some (5 # 2)%Q; Some 9%Q]).
  - reflexivity.
  - reflexivity.
  - reflexivity.
Defined.

Definition prices_with_gap : frame :=
  [ ("price", Float64 [Some 4%Q; None; Some 9%Q]);
    ("item", Object [Some "tea"; Some "milk"; Some "rice"]) ].

(** The synthesized bounds are 4 and 9; the row whose price is missing
    fails both comparisons and is dropped. *)
Lemma range_filter_on_prices_with_gap {pandas : Pandas} {numerics : Numerics} :
  _build_range_filter prices_with_gap "price"
  = Some (default_range_filter "price" [Some 4%Q; None; Some 9%Q])
  /\ apply_filters prices_with_gap
                   [("price", default_range_filter
                                "price" [Some 4%Q; None; Some 9%Q])]
     = Some [ ("price", Float64 [Some 4%Q; Some 9%Q]);
              ("item", Object [Some "tea"; Some "rice"]) ].
Proof. split; reflexivity. Qed.

(** C7, counterexample: a numeric column with a missing value; the
    synthesized default range filter does not return the full row set,
    whatever the text conversions of pandas and the rounding of the
    step. *)
Lemma default_range_filter_drops_missing_rows :
  ~ (exists (pandas : Pandas) (numerics : Numerics),
        forall cfg,
          _build_range_filter prices_with_gap "price" = Some cfg ->
          apply_filters prices_with_gap [("price", cfg)] = Some prices_with_gap).
Proof.
  intros [pandas [numerics H]].
  destruct (@range_filter_on_prices_with_gap pandas numerics) as [Hb Ha].
  specialize (H _ Hb). rewrite Ha in H. discriminate H.
Qed.

End FilterFacts.

(** ** KPI synthesis *)

Module KPIFacts.
Import Py PyFacts Frame KPIBuilder.

(** A KPI is a ratio KPI of the pair when it carries the ratio id or the
    ratio format. *)
Definition ratio_id (column1 column2 : string) : string :=
  ("ratio_" ++ column1 ++ "_" ++ column2)%string.

Definition not_a_ratio (column1 column2 : string) (k : kpi) : Prop :=
  kpi_id k <> ratio_id column1 column2 /\ kpi_format k <> Some "ratio".

Ltac other_builder :=
  let H := fresh "H" in
  intro H;
  repeat match type of H with
         | match ?x with _ => _ end = Some _ => destruct x; try discriminate H
         | (if ?b then _ else _) = Some _ => destruct b; try discriminate H
         | (let '(_, _) := ?p in _) = Some _ => destruct p
         end;
  injection H as H; rewrite <- H; split; discriminate.

Section OtherBuilders.
Context {numerics : Numerics}.
Variables (column1 column2 : string) (df : frame) (k : kpi).

Lemma sum_kpi_not_a_ratio c :
  _build_sum_kpi df c = Some k -> not_a_ratio column1 column2 k.
Proof. unfold _build_sum_kpi. other_builder. Qed.

Lemma average_kpi_not_a_ratio c :
  _build_average_kpi df c = Some k -> not_a_ratio column1 column2 k.
Proof. unfold _build_average_kpi. other_builder. Qed.

Lemma count_kpi_not_a_ratio c :
  _build_count_kpi df c = Some k -> not_a_ratio column1 column2 k.
Proof. unfold _build_count_kpi. other_builder. Qed.

Lemma top_category_kpi_not_a_ratio c :
  _build_top_category_kpi df c = Some k -> not_a_ratio column1 column2 k.
Proof. unfold _build_top_category_kpi. other_builder. Qed.

Lemma category_sum_kpi_not_a_ratio c n :
  _build_category_sum_kpi df c n = Some k -> not_a_ratio column1 column2 k.
Proof. unfold _build_category_sum_kpi. other_builder. Qed.

Lemma growth_kpi_not_a_ratio d n :
  _build_growth_kpi df d n = Some k -> not_a_ratio column1 column2 k.
Proof. unfold _build_growth_kpi. other_builder. Qed.

Lemma period_comparison_kpi_not_a_ratio d n :
  _build_period_comparison_kpi df d n = Some k -> not_a_ratio column1 column2 k.
Proof. unfold _build_period_comparison_kpi. other_builder. Qed.

Lemma percentage_kpi_not_a_ratio c :
  _build_percentage_kpi df c = Some k -> not_a_ratio column1 column2 k.
Proof. unfold _build_percentage_kpi. other_builder. Qed.

End OtherBuilders.

Section Guard.
Context {numerics : Numerics}.

Lemma basic_kpis_not_ratio c1 c2 df cols k :
  In k (_build_basic_kpis df cols) -> not_a_ratio c1 c2 k.
Proof.
  unfold _build_basic_kpis. intro H.
  apply in_flat_map in H as [c [_ H]].
  apply in_app_or in H as [H|H]; [|apply in_app_or in H as [H|H]];
    apply In_opt_list in H.
  - eapply sum_kpi_not_a_ratio; eassumption.
  - eapply average_kpi_not_a_ratio; eassumption.
  - eapply count_kpi_not_a_ratio; eassumption.
Qed.

Lemma categorical_kpis_not_ratio c1 c2 df cats nums k :
  In k (_build_categorical_kpis df cats nums) -> not_a_ratio c1 c2 k.
Proof.
  unfold _build_categorical_kpis. intro H.
  apply in_flat_map in H as [c [_ H]].
  apply in_app_or in H as [H|H].
  - apply In_opt_list in H. eapply top_category_kpi_not_a_ratio; eassumption.
  - apply in_flat_map in H as [n [_ H]]. apply In_opt_list in H.
    eapply category_sum_kpi_not_a_ratio; eassumption.
Qed.

Lemma time_based_kpis_not_ratio c1 c2 df dates nums k :
  In k (_build_time_based_kpis df dates nums) -> not_a_ratio c1 c2 k.
Proof.
  unfold _build_time_based_kpis. intro H.
  apply in_flat_map in H as [d [_ H]].
  apply in_flat_map in H as [n [_ H]].
  apply in_app_or in H as [H|H]; apply In_opt_list in H.
  - eapply growth_kpi_not_a_ratio; eassumption.
  - eapply period_comparison_kpi_not_a_ratio; eassumption.
Qed.

Lemma percentage_kpis_not_ratio c1 c2 df cols k :
  In k (flat_map (fun col => opt_list (_build_percentage_kpi df col)) cols) ->
  not_a_ratio c1 c2 k.
Proof.
  intro H. apply in_flat_map in H as [c [_ H]]. apply In_opt_list in H.
  eapply percentage_kpi_not_a_ratio; eassumption.
Qed.

(** The guard [if sum2 != 0]: with a zero denominator the builder falls
    off its end. *)
Lemma ratio_kpi_guard (df : frame) (column1 column2 : string)
      (l2 : list (option Q)) :
  float_column df column2 = Some l2 -> (sum l2 == 0)%Q ->
  _build_ratio_kpi df column1 column2 = None.
Proof.
  intros H2 Hz. unfold _build_ratio_kpi. rewrite H2.
  destruct (float_column df column1); [|reflexivity].
  unfold nonzero. now rewrite (Qeq_eq_bool _ _ Hz).
Qed.

(** The guard is on the sum that pandas computes: when it is not 0 the
    ratio card is built, also for a column whose exact sum is 0 and whose
    sum in doubles is not (such as 1e16, 1, -1e16, -1). *)
Lemma ratio_kpi_built_otherwise (df : frame) (column1 column2 : string)
      (l1 l2 : list (option Q)) :
  float_column df column1 = Some l1 ->
  float_column df column2 = Some l2 -> ~ (sum l2 == 0)%Q ->
  exists k, _build_ratio_kpi df column1 column2 = Some k
            /\ kpi_id k = ratio_id column1 column2.
Proof.
  intros H1 H2 Hnz. unfold _build_ratio_kpi. rewrite H1, H2.
  unfold nonzero. destruct (Qeq_bool (sum l2) 0) eqn:E.
  - apply Qeq_bool_iff in E. contradiction.
  - eexists. split; reflexivity.
Qed.

(** C4. When the second numeric column sums to exactly 0 -- when
    [df[column2].sum()], the double that the guard compares with 0, is 0 --
    [build_kpis] (a total function: every builder catches its exceptions)
    emits no ratio KPI: the ratio builder returns nothing, and no KPI of
    the output carries the id [ratio_<col1>_<col2>] or the ratio format.
    This holds whatever the additions of the sum round to. *)
Theorem no_ratio_kpi_for_zero_denominator
        (df : frame) (column1 column2 : string) (others : list string)
        (l2 : list (option Q)) :
  select_dtypes is_numeric_dtype df = column1 :: column2 :: others ->
  float_column df column2 = Some l2 ->
  (sum l2 == 0)%Q ->
  _build_ratio_kpi df column1 column2 = None
  /\ forall k, In k (build_kpis df) ->
               kpi_id k <> ratio_id column1 column2
               /\ kpi_format k <> Some "ratio".
Proof.
  intros Hcols H2 Hz.
  pose proof (ratio_kpi_guard df column1 column2 l2 H2 Hz) as Hnone.
  split; [exact Hnone|].
  intros k Hk. unfold build_kpis in Hk. rewrite Hcols in Hk.
  apply in_app_or in Hk as [Hk|Hk]; [exact (basic_kpis_not_ratio column1 column2 _ _ _ Hk)|].
  apply in_app_or in Hk as [Hk|Hk]; [exact (categorical_kpis_not_ratio column1 column2 _ _ _ _ Hk)|].
  apply in_app_or in Hk as [Hk|Hk].
  - destruct (select_dtypes is_datetime64_any_dtype df); [contradiction|].
    exact (time_based_kpis_not_ratio column1 column2 _ _ _ _ Hk).
  - unfold _build_derived_kpis in Hk. rewrite Hnone in Hk. simpl opt_list in Hk.
    rewrite app_nil_l in Hk.
    exact (percentage_kpis_not_ratio column1 column2 _ _ _ Hk).
Qed.

End Guard.

Definition refunds : frame :=
  [ ("sales", Float64 [Some 120%Q; Some 80%Q; Some 40%Q]);
    ("net_refund", Float64 [Some 5%Q; Some (-5)%Q; None]);
    ("region", Object [Some "north"; Some "south"; Some "north"]) ].

Lemma no_ratio_kpi_for_zero_denominator_witness :
  _build_ratio_kpi (numerics := plain_numerics) refunds "sales" "net_refund"
  = None
  /\ forall k, In k (build_kpis (numerics := plain_numerics) refunds) ->
               kpi_id k <> ratio_id "sales" "net_refund"
               /\ kpi_format k <> Some "ratio".
Proof.
  apply (no_ratio_kpi_for_zero_denominator
           (numerics := plain_numerics)
           refunds "sales" "net_refund" [] [Some 5%Q; Some (-5)%Q; None]).
  - reflexivity.
  - reflexivity.
  - reflexivity.
Defined.

End KPIFacts.

(** ** Insights *)

Module RecommenderFacts.
Import Py PyFacts Frame Recommender.

Ltac built_with_type :=
  let H := fresh "H" in
  intro H;
  repeat match type of H with
         | match ?x with _ => _ end = Some _ => destruct x; try discriminate H
         | (if ?b then _ else _) = Some _ => destruct b; try discriminate H
         | (let '(_, _) := ?p in _) = Some _ => destruct p
         end;
  apply (f_equal (option_map rec_type)) in H;
  cbn [option_map rec_type] in H;
  injection H as H; rewrite <- H; reflexivity.

Lemma trend_insight_type {numerics : Numerics} df d n r :
  _analyze_trend df d n = Some r -> rec_type r = "trend".
Proof. unfold _analyze_trend. built_with_type. Qed.

Lemma forecast_insight_type {numerics : Numerics} df d n r :
  _generate_forecast df d n = Some r -> rec_type r = "forecast".
Proof. unfold _generate_forecast. built_with_type. Qed.

Lemma anomaly_insight_type {numerics : Numerics} df c r :
  _detect_anomalies df c = Some r -> rec_type r = "anomaly".
Proof. unfold _detect_anomalies. built_with_type. Qed.

Lemma correlation_insight_type {numerics : Numerics} df cols r :
  _analyze_correlations df cols = Some r -> rec_type r = "correlation".
Proof. unfold _analyze_correlations. built_with_type. Qed.

Lemma trend_insights_type {numerics : Numerics} df ds ns r :
  In r (_generate_trend_insights df ds ns) -> rec_type r = "trend".
Proof.
  unfold _generate_trend_insights. intro H.
  apply in_flat_map in H as [d [_ H]]. apply in_flat_map in H as [n [_ H]].
  apply In_opt_list in H. eapply trend_insight_type; eassumption.
Qed.

Lemma forecast_insights_type {numerics : Numerics} df ds ns r :
  In r (_generate_forecast_insights df ds ns) -> rec_type r = "forecast".
Proof.
  unfold _generate_forecast_insights. intro H.
  apply in_flat_map in H as [d [_ H]]. apply in_flat_map in H as [n [_ H]].
  apply In_opt_list in H. eapply forecast_insight_type; eassumption.
Qed.

Lemma anomaly_insights_type {numerics : Numerics} df ns r :
  In r (_generate_anomaly_insights df ns) -> rec_type r = "anomaly".
Proof.
  unfold _generate_anomaly_insights. intro H.
  apply in_flat_map in H as [c [_ H]].
  apply In_opt_list in H. eapply anomaly_insight_type; eassumption.
Qed.

Lemma correlation_insights_type {numerics : Numerics} df ns r :
  In r (_generate_correlation_insights df ns) -> rec_type r = "correlation".
Proof.
  unfold _generate_correlation_insights. intro H.
  destruct (2 <=? List.length ns); [|contradiction].
  apply In_opt_list in H. eapply correlation_insight_type; eassumption.
Qed.

(** Every segmentation insight of the output comes from the segmentation
    analysis. *)
Lemma segmentation_insights_only_from_segmentation
      {numerics : Numerics} {sklearn : Sklearn} (df : frame) (r : recommendation) :
  In r (generate_recommendations df) -> rec_type r = "segmentation" ->
  In r (_generate_segmentation_insights
          df (select_dtypes is_object_dtype df) (select_dtypes is_numeric_dtype df)).
Proof.
  unfold generate_recommendations. intros H Hty.
  apply in_app_or in H as [H|H];
    [apply trend_insights_type in H; rewrite H in Hty; discriminate|].
  apply in_app_or in H as [H|H];
    [apply anomaly_insights_type in H; rewrite H in Hty; discriminate|].
  apply in_app_or in H as [H|H];
    [apply correlation_insights_type in H; rewrite H in Hty; discriminate|].
  apply in_app_or in H as [H|H]; [exact H|].
  apply forecast_insights_type in H; rewrite H in Hty; discriminate.
Qed.

(** C5 (as amended). With at least one categorical column, at least two
    numeric columns and more than 10 rows complete in the first two numeric
    columns, [generate_recommendations] emits a segmentation insight
    whenever scikit-learn returns: the complete rows are standardized and
    clustered by k-means into the labels 0, 1, 2; the insight reports three
    segments, each with its size, its percentage of the complete rows and
    the mean of each feature, and its severity is medium.  When the scaler
    or k-means raises, the exception is caught and no insight of the output
    is a segmentation insight. *)
Theorem segmentation_insight_above_ten_rows
        {numerics : Numerics} {sklearn : Sklearn}
        (df : frame) (column1 column2 : string) (others : list string)
        (l1 l2 : list (option Q)) :
  select_dtypes is_object_dtype df <> [] ->
  select_dtypes is_numeric_dtype df = column1 :: column2 :: others ->
  float_column df column1 = Some l1 ->
  float_column df column2 = Some l2 ->
  10 < List.length (complete_pairs l1 l2) ->
  let cluster_data := complete_pairs l1 l2 in
  let members clusters i :=
    select (map (fun c => c =? i) clusters) cluster_data in
  let segment_of clusters i :=
    {| cluster_id := i;
       size := List.length (members clusters i);
       percentage := fmul (fdiv (Q_of_nat (List.length (members clusters i)))
                                (Q_of_nat (List.length cluster_data))) 100;
       avg_values :=
         [ (column1, mean (map (fun p => Some (fst p)) (members clusters i)));
           (column2, mean (map (fun p => Some (snd p)) (members clusters i))) ] |} in
  let no_segmentation :=
    forall r, In r (generate_recommendations df) -> rec_type r <> "segmentation" in
  match fit_transform cluster_data with
  | Some scaled_data =>
      match fit_predict scaled_data with
      | Some clusters =>
          exists r,
            In r (generate_recommendations df)
            /\ rec_type r = "segmentation"
            /\ rec_severity r = Some "medium"
            /\ rec_data r = SegmentationData
                              [segment_of clusters 0; segment_of clusters 1;
                               segment_of clusters 2]
                              [column1; column2]
      | None => no_segmentation
      end
  | None => no_segmentation
  end.
Proof.
  intros Hcat Hnum H1 H2 Hrows cluster_data members segment_of no_segmentation.
  assert (Hnone : _perform_segmentation df (select_dtypes is_object_dtype df)
                                        (column1 :: column2 :: others) = None ->
                  no_segmentation).
  { intros Hp r Hin Hty.
    apply (segmentation_insights_only_from_segmentation _ _ Hin) in Hty.
    rewrite Hnum in Hty. unfold _generate_segmentation_insights in Hty.
    destruct (select_dtypes is_object_dtype df); [contradiction|].
    rewrite Hp in Hty. contradiction. }
  apply Nat.ltb_lt in Hrows.
  destruct (fit_transform cluster_data) as [scaled_data|] eqn:Et.
  - destruct (fit_predict scaled_data) as [clusters|] eqn:Ep.
    + assert (Hseg : exists r,
                 _perform_segmentation df (select_dtypes is_object_dtype df)
                                       (column1 :: column2 :: others) = Some r
                 /\ rec_type r = "segmentation"
                 /\ rec_severity r = Some "medium"
                 /\ rec_data r = SegmentationData
                                   [segment_of clusters 0; segment_of clusters 1;
                                    segment_of clusters 2]
                                   [column1; column2]).
      { unfold _perform_segmentation. rewrite H1, H2, Hrows.
        fold cluster_data. rewrite Et, Ep.
        cbn [seq map _get_segmentation_recommendation].
        eexists. split; [reflexivity|]. repeat split. }
      destruct Hseg as [r [Hr Hprops]].
      exists r. split; [|exact Hprops].
      unfold generate_recommendations. rewrite Hnum.
      apply in_or_app; right. apply in_or_app; right. apply in_or_app; right.
      apply in_or_app; left.
      unfold _generate_segmentation_insights.
      destruct (select_dtypes is_object_dtype df) as [|c cs]; [contradiction|].
      rewrite Hr. now left.
    + apply Hnone. unfold _perform_segmentation. rewrite H1, H2, Hrows.
      fold cluster_data. now rewrite Et, Ep.
  - apply Hnone. unfold _perform_segmentation. rewrite H1, H2, Hrows.
    fold cluster_data. now rewrite Et.
Qed.

(** A stand-in for scikit-learn, for running examples: neither routine
    raises, the scaler is the identity and k-means deals the labels out in
    turn (0, 1, 2, 0, ...). *)
Definition labels_in_turn : Sklearn :=
  {| fit_transform := fun data => Some data;
     fit_predict :=
       fun data => Some (map (fun i => i mod 3) (seq 0 (List.length data))) |}.

(** [n] customers: a categorical column and two numeric columns without
    missing values. *)
Definition customers (n : nat) : frame :=
  [ ("plan", Object (map (fun i => Some (if Nat.even i then "basic" else "plus"))
                         (seq 0 n)));
    ("visits", Float64 (map (fun i => Some (Q_of_nat i)) (seq 0 n)));
    ("spend", Float64 (map (fun i => Some (Q_of_nat (i * i))) (seq 0 n))) ].

Lemma segmentation_insight_above_ten_rows_witness :
  exists r,
    In r (generate_recommendations
            (numerics := plain_numerics) (sklearn := labels_in_turn) (customers 11))
    /\ rec_type r = "segmentation"
    /\ rec_severity r = Some "medium"
    /\ match rec_data r with
       | SegmentationData segments features =>
           map size segments = [4; 4; 3] /\ features = ["visits"; "spend"]
       | _ => False
       end.
Proof.
  destruct (segmentation_insight_above_ten_rows
              (numerics := plain_numerics) (sklearn := labels_in_turn)
              (customers 11) "visits" "spend" []
              (map (fun i => Some (Q_of_nat i)) (seq 0 11))
              (map (fun i => Some (Q_of_nat (i * i))) (seq 0 11)))
    as [r [Hin [Hty [Hsev Hdata]]]].
  - discriminate.
  - reflexivity.
  - reflexivity.
  - reflexivity.
  - vm_compute. lia.
  - exists r.
    split; [exact Hin|]. split; [exact Hty|]. split; [exact Hsev|].
    rewrite Hdata. split; [vm_compute; reflexivity | reflexivity].
Defined.

Lemma no_segmentation_at_ten_rows {numerics : Numerics} {sklearn : Sklearn} :
  _generate_segmentation_insights
    (customers 10)
    (select_dtypes is_object_dtype (customers 10))
    (select_dtypes is_numeric_dtype (customers 10)) = [].
Proof. reflexivity. Qed.

(** C5, counterexample: a categorical column, two numeric columns and
    exactly 10 complete rows; whatever the numerical routines, no insight
    of the output is a segmentation insight. *)
Lemma ten_complete_rows_give_no_segmentation :
  List.length (complete_pairs (map (fun i => Some (Q_of_nat i)) (seq 0 10))
                              (map (fun i => Some (Q_of_nat (i * i))) (seq 0 10)))
  = 10
  /\ ~ (exists (numerics : Numerics) (sklearn : Sklearn) (r : recommendation),
          In r (generate_recommendations (customers 10))
          /\ rec_type r = "segmentation").
Proof.
  split; [reflexivity|].
  intros (numerics & sklearn & r & Hin & Hty).
  apply (segmentation_insights_only_from_segmentation _ _ Hin) in Hty.
  rewrite no_segmentation_at_ten_rows in Hty. contradiction.
Qed.

End RecommenderFacts.

(** ** Layout composition *)

Module LayoutFacts.
Import Py PyFacts LayoutManager.

#[local] Arguments Nat.modulo : simpl never.
#[local] Arguments Nat.div : simpl never.

(** Number of components emitted across all sections of a layout. *)
Definition emitted_components (l : layout) : nat :=
  list_sum (map (fun s => List.length (components s)) (sections l)).

Definition count_components (ss : list section) : nat :=
  list_sum (map (fun s => List.length (components s)) ss).

Lemma count_components_app (s1 s2 : list section) :
  count_components (s1 ++ s2) = count_components s1 + count_components s2.
Proof. unfold count_components. now rewrite map_app, list_sum_app. Qed.

Lemma count_components_one (s : section) :
  count_components [s] = List.length (components s).
Proof. unfold count_components. simpl. lia. Qed.

Lemma kpi_section_size (kpis : list kpi) :
  List.length (components (_create_kpi_section kpis)) = List.length kpis.
Proof. simpl. now rewrite length_map, length_enumerate. Qed.

Lemma chart_section_size (t : string) (cs : list chart) :
  List.length (components (chart_section t cs)) = List.length cs.
Proof. simpl. now rewrite length_map, length_enumerate. Qed.

Lemma chart_sections_size (charts : list chart) :
  count_components (_create_chart_sections charts) = List.length charts.
Proof.
  unfold _create_chart_sections, _group_charts_by_type.
  pose proof (stored_fold_dict_append
                (fun c => match chart_type c with
                          | Some t => t | None => "unknown" end)
                charts []) as H.
  simpl in H. rewrite <- H. clear H.
  generalize (fold_left
                (fun g x => dict_append
                   match chart_type x with Some t => t | None => "unknown" end
                   x g) charts []) as d.
  unfold count_components, stored.
  induction d as [|[t cs] d IH]; [reflexivity|].
  simpl map. simpl list_sum.
  rewrite IH. f_equal.
  now rewrite length_map, length_enumerate.
Qed.

Lemma recommendation_section_size (recs : list recommendation) :
  List.length (components (_create_recommendation_section recs))
  = List.length recs.
Proof.
  simpl. now rewrite length_map, length_enumerate, length_sorted_desc.
Qed.

(** The three [if ...:] blocks of [organize_layout], one per input list. *)
Definition kpi_part (kpis : list kpi) : list section :=
  match kpis with [] => [] | _ :: _ => [_create_kpi_section kpis] end.

Definition chart_part (charts : list chart) : list section :=
  match charts with [] => [] | _ :: _ => _create_chart_sections charts end.

Definition recommendation_part (recs : list recommendation) : list section :=
  match recs with [] => [] | _ :: _ => [_create_recommendation_section recs] end.

Lemma sections_organize_layout charts kpis recs :
  sections (organize_layout charts kpis recs)
  = kpi_part kpis ++ chart_part charts ++ recommendation_part recs.
Proof.
  unfold organize_layout, kpi_part, chart_part, recommendation_part.
  destruct kpis, charts, recs; simpl; rewrite ?app_nil_r; reflexivity.
Qed.

Lemma kpi_part_size kpis : count_components (kpi_part kpis) = List.length kpis.
Proof.
  destruct kpis as [|k kpis]; [reflexivity|].
  unfold kpi_part.
  now rewrite count_components_one, kpi_section_size.
Qed.

Lemma chart_part_size charts :
  count_components (chart_part charts) = List.length charts.
Proof.
  destruct charts as [|c charts]; [reflexivity|].
  unfold chart_part. apply chart_sections_size.
Qed.

Lemma recommendation_part_size recs :
  count_components (recommendation_part recs) = List.length recs.
Proof.
  destruct recs as [|r recs]; [reflexivity|].
  unfold recommendation_part.
  now rewrite count_components_one, recommendation_section_size.
Qed.

(** C1. For all charts, KPIs and recommendations, the layout built by
    [organize_layout] records [len(charts) + len(kpis) + len(recommendations)]
    as [total_components], and its sections together hold exactly that many
    components. *)
Theorem organize_layout_total_components
        (charts : list chart) (kpis : list kpi)
        (recommendations : list recommendation) :
  let n := List.length charts + List.length kpis + List.length recommendations in
  total_components (organize_layout charts kpis recommendations) = n
  /\ emitted_components (organize_layout charts kpis recommendations) = n.
Proof.
  split; [reflexivity|].
  unfold emitted_components.
  rewrite sections_organize_layout.
  fold (count_components
          (kpi_part kpis ++ chart_part charts
             ++ recommendation_part recommendations)).
  rewrite !count_components_app,
    kpi_part_size, chart_part_size, recommendation_part_size.
  lia.
Qed.

(** *** Ordering of the recommendation section *)

Definition recognised (s : string) : bool :=
  String.eqb s "high" || String.eqb s "medium" || String.eqb s "low".

(** The severity key is absent, or is none of high / medium / low. *)
Definition unranked (r : recommendation) : Prop :=
  match rec_severity r with
  | None => True
  | Some s => recognised s = false
  end.

Definition with_severity (s : string) (r : recommendation) : recommendation :=
  {| rec_type := rec_type r; rec_title := rec_title r;
     rec_description := rec_description r;
     rec_recommendation := rec_recommendation r;
     rec_severity := Some s; rec_data := rec_data r |}.

(** The same recommendation, with an absent or unknown severity spelled
    out as low. *)
Definition as_low (r : recommendation) : recommendation :=
  match rec_severity r with
  | Some s => if recognised s then r else with_severity "low" r
  | None => with_severity "low" r
  end.

(** The recommendations of the section, in display order. *)
Definition section_order (recs : list recommendation) : list recommendation :=
  sorted_desc severity_key recs.

Lemma severity_key_as_low (r : recommendation) :
  severity_key (as_low r) = severity_key r.
Proof.
  unfold as_low, severity_key, recognised, _get_severity_score.
  destruct (rec_severity r) as [s|] eqn:E; simpl.
  - destruct (String.eqb s "high") eqn:H1; simpl; [now rewrite E, H1|].
    destruct (String.eqb s "medium") eqn:H2; simpl; [now rewrite E, H1, H2|].
    destruct (String.eqb s "low") eqn:H3; simpl; [now rewrite E, H1, H2, H3|].
    reflexivity.
  - reflexivity.
Qed.

Lemma severity_key_unranked (r : recommendation) :
  unranked r -> severity_key r = 1.
Proof.
  unfold unranked, severity_key, recognised, _get_severity_score.
  destruct (rec_severity r) as [s|]; [|reflexivity].
  intro H. apply orb_false_iff in H as [H H3].
  apply orb_false_iff in H as [H1 H2].
  now rewrite H1, H2, H3.
Qed.

Lemma recommendation_section_data (recs : list recommendation) :
  map comp_data (components (_create_recommendation_section recs))
  = map RecommendationData (section_order recs).
Proof.
  unfold _create_recommendation_section, section_order, enumerate.
  cbn [components]. rewrite map_map.
  now apply map_enumerate_from.
Qed.

(** C9. A recommendation whose severity is absent or is none of
    high / medium / low gets severity score 1, the score of low, and the
    recommendation section (the last section of the layout) lists the
    recommendations exactly as if every such severity were low: by
    descending score, recommendations of equal score keeping their input
    order. *)
Theorem unranked_severity_ordered_as_low
        (charts : list chart) (kpis : list kpi)
        (r : recommendation) (rs : list recommendation) :
  let recs := r :: rs in
  (exists before,
      sections (organize_layout charts kpis recs)
      = before ++ [_create_recommendation_section recs])
  /\ map comp_data (components (_create_recommendation_section recs))
     = map RecommendationData (section_order recs)
  /\ (forall x, unranked x ->
                severity_key x = 1
                /\ severity_key (with_severity "low" x) = 1
                /\ as_low x = with_severity "low" x)
  /\ map as_low (section_order recs) = section_order (map as_low recs)
  /\ (forall score,
         filter (fun x => severity_key x =? score) (section_order recs)
         = filter (fun x => severity_key x =? score) recs)
  /\ StronglySorted (fun a b => severity_key b <= severity_key a)
                    (section_order recs).
Proof.
  intro recs. repeat split.
  - exists (kpi_part kpis ++ chart_part charts).
    rewrite sections_organize_layout, app_assoc. reflexivity.
  - apply recommendation_section_data.
  - now apply severity_key_unranked.
  - unfold unranked, as_low in *.
    destruct (rec_severity x) as [s|]; [now rewrite H | reflexivity].
  - unfold section_order.
    apply sorted_desc_map, severity_key_as_low.
  - intro score. apply filter_sorted_desc.
  - apply (sorted_desc_sorted severity_key).
Qed.

Definition insight (severity : option string) : recommendation :=
  {| rec_type := "trend"; rec_title := "t"; rec_description := [];
     rec_recommendation := []; rec_severity := severity;
     rec_data := OtherData JNull |}.

(** No severity, high, an unknown severity, low, medium: high comes first,
    then medium, then the other three in their input order. *)
Example section_order_of_five :
  map rec_severity
      (section_order (map insight [None; Some "high"; Some "urgent";
                                   Some "low"; Some "medium"]))
  = [Some "high"; Some "medium"; None; Some "urgent"; Some "low"].
Proof. reflexivity. Qed.

(** *** Custom layouts and the random generator *)

(** A custom layout with the height of every component erased. *)
Definition without_heights {A : Type} (l : custom_layout A)
  : string * option nat * option string * option string
    * list (string * A * (nat * nat * nat)) :=
  (cl_type l, cl_columns l, cl_direction l, cl_gap l,
   map (fun c => (cc_id c, cc_data c,
                  (row (cc_position c), col (cc_position c),
                   width (cc_position c))))
       (cl_components l)).

Lemma masonry_components_spec {A : Type} (l : list A) :
  forall i g1 g2,
    map (fun c => (cc_id c, cc_data c,
                   (row (cc_position c), col (cc_position c),
                    width (cc_position c))))
        (fst (masonry_components i l g1))
    = map (fun c => (cc_id c, cc_data c,
                     (row (cc_position c), col (cc_position c),
                      width (cc_position c))))
          (fst (masonry_components i l g2))
    /\ Forall (fun c => 1 <= height (cc_position c) <= 3)
              (fst (masonry_components i l g1)).
Proof.
  induction l as [|c l IH]; intros i g1 g2; simpl.
  - split; [reflexivity | constructor].
  - destruct (IH (S i) (fun k => g1 (S k)) (fun k => g2 (S k))) as [He Hh].
    destruct (masonry_components (S i) l (fun k => g1 (S k))) as [r1 g1'].
    destruct (masonry_components (S i) l (fun k => g2 (S k))) as [r2 g2'].
    simpl in *. split.
    + now rewrite He.
    + constructor; [|exact Hh].
      simpl. pose proof (Nat.mod_upper_bound (g1 0) 3). lia.
Qed.

(** C8, counterexample: the same one-component input laid out twice as
    masonry, under two generator states, gives two different layouts. *)
Lemma masonry_layout_depends_on_generator :
  fst (create_custom_layout [tt] "masonry" (fun _ => 0))
  <> fst (create_custom_layout [tt] "masonry" (fun _ => 1)).
Proof. vm_compute. intro H. discriminate H. Qed.

End LayoutFacts.

(** ** The pipeline as a whole *)

Module PipelineFacts.
Import Frame.

(** *** The empty dataset *)

(** The dataset with zero columns and zero rows. *)
Definition empty_dataset : frame := [].

(** C3. On the empty dataset (zero columns, zero rows) no stage raises: the
    stages are total functions, filter synthesis returns the empty mapping,
    KPI synthesis the empty list (insight generation too), and the layout of
    three empty lists has no sections and [total_components = 0]. *)
Theorem empty_dataset_gives_empty_structures
        {pandas : Pandas}
        {numerics : Numerics} {sklearn : Recommender.Sklearn} :
  nrows empty_dataset = 0
  /\ FilterBuilder.build_filters empty_dataset = []
  /\ KPIBuilder.build_kpis empty_dataset = []
  /\ Recommender.generate_recommendations empty_dataset = []
  /\ LayoutManager.sections (LayoutManager.organize_layout [] [] []) = []
  /\ LayoutManager.total_components (LayoutManager.organize_layout [] [] []) = 0
  /\ LayoutFacts.emitted_components (LayoutManager.organize_layout [] [] []) = 0.
Proof.
  split; [reflexivity|].
  split; [reflexivity|].
  split; [reflexivity|].
  split; [reflexivity|].
  split; [reflexivity|].
  split; reflexivity.
Qed.

(** *** Invoking an operation again

    Two things outlive an invocation and can differ at the next one: the
    four column lists of a [DataCleaner] instance, to which [clean_data]
    appends, and the state of the module-level generator of Python's
    [random].  The other objects ([FilterBuilder], [KPIBuilder],
    [Recommender], [LayoutManager]) only hold tables written once by their
    constructors; k-means is seeded ([random_state=42]) and is, like the
    rest of scikit-learn and pandas, a function of its arguments. *)

Record world := mk_world {
  instance : DataCleaner.cleaner;         (* the [DataCleaner] called *)
  generator : LayoutManager.rng           (* the state of [random] *)
}.

Section Invocations.
Context {pandas : Pandas} {numerics : Numerics} {sklearn : Recommender.Sklearn}.
Context {component : Type}.

(** The operations of the pipeline, each with its arguments. *)
Inductive operation : Type :=
| CleanData (df : frame)
| BuildFilters (df : frame)
| BuildKpis (df : frame)
| GenerateRecommendations (df : frame)
| OrganizeLayout (charts : list Schemas.chart) (kpis : list Schemas.kpi)
                 (recommendations : list Schemas.recommendation)
| CreateCustomLayout (components : list component) (layout_type : string).

(** What an invocation returns; [Cleaned None] is an exception. *)
Inductive outcome : Type :=
| Cleaned (df : option frame)
| Filters (filters : list (string * FilterBuilder.filter_config))
| Kpis (kpis : list Schemas.kpi)
| Recommendations (recommendations : list Schemas.recommendation)
| Organized (layout : LayoutManager.layout)
| Custom (layout : LayoutManager.custom_layout component).

(** One invocation: what it returns and what it leaves behind. *)
Definition invoke (op : operation) (w : world) : outcome * world :=
  match op with
  | CleanData df =>
      let '(st, d) := DataCleaner.clean_data (instance w) df in
      (Cleaned d, {| instance := st; generator := generator w |})
  | BuildFilters df => (Filters (FilterBuilder.build_filters df), w)
  | BuildKpis df => (Kpis (KPIBuilder.build_kpis df), w)
  | GenerateRecommendations df =>
      (Recommendations (Recommender.generate_recommendations df), w)
  | OrganizeLayout charts kpis recommendations =>
      (Organized (LayoutManager.organize_layout charts kpis recommendations), w)
  | CreateCustomLayout components layout_type =>
      let '(l, g) := LayoutManager.create_custom_layout components layout_type
                                                        (generator w) in
      (Custom l, {| instance := instance w; generator := g |})
  end.

(** The part of the world that an operation reads. *)
Definition reads_cleaner (op : operation) : bool :=
  match op with
  | CleanData _ => true
  | _ => false
  end.

Definition reads_generator (op : operation) : bool :=
  match op with
  | CreateCustomLayout _ layout_type => String.eqb layout_type "masonry"
  | _ => false
  end.

(** Two outcomes that differ at most in the heights of the components of
    a custom layout. *)
Definition same_up_to_heights (o1 o2 : outcome) : Prop :=
  match o1, o2 with
  | Custom l1, Custom l2 =>
      LayoutFacts.without_heights l1 = LayoutFacts.without_heights l2
  | _, _ => o1 = o2
  end.

Definition heights_within (lo hi : nat) (o : outcome) : Prop :=
  match o with
  | Custom l =>
      Forall (fun c => lo <= LayoutManager.height (LayoutManager.cc_position c)
                       <= hi)
             (LayoutManager.cl_components l)
  | _ => True
  end.

Lemma custom_layout_without_generator
      (l : list component) (layout_type : string) (g1 g2 : LayoutManager.rng) :
  String.eqb layout_type "masonry" = false ->
  LayoutManager.create_custom_layout l layout_type g1
  = (fst (LayoutManager.create_custom_layout l layout_type g2), g1).
Proof.
  intro E. unfold LayoutManager.create_custom_layout.
  destruct (String.eqb layout_type "grid"); [reflexivity|].
  destruct (String.eqb layout_type "list"); [reflexivity|].
  now rewrite E.
Qed.

Lemma masonry_layout_up_to_heights
      (l : list component) (g1 g2 : LayoutManager.rng) :
  LayoutFacts.without_heights
    (fst (LayoutManager.create_custom_layout l "masonry" g1))
  = LayoutFacts.without_heights
      (fst (LayoutManager.create_custom_layout l "masonry" g2))
  /\ Forall (fun c => 1 <= LayoutManager.height (LayoutManager.cc_position c) <= 3)
            (LayoutManager.cl_components
               (fst (LayoutManager.create_custom_layout l "masonry" g1))).
Proof.
  unfold LayoutManager.create_custom_layout, LayoutManager._create_masonry_layout.
  simpl.
  destruct (LayoutFacts.masonry_components_spec l 0 g1 g2) as [He Hh].
  destruct (LayoutManager.masonry_components 0 l g1) as [c1 g1'].
  destruct (LayoutManager.masonry_components 0 l g2) as [c2 g2'].
  simpl in *. unfold LayoutFacts.without_heights. simpl.
  split; [now rewrite He | exact Hh].
Qed.

(** C8 (as amended). An invocation of a pipeline operation, on given
    arguments, returns the same output in any two worlds that agree on what
    the operation reads: the column lists of the instance for [clean_data],
    the generator state for a masonry custom layout, nothing for filter,
    KPI and insight synthesis, [organize_layout] and the other custom
    layouts.  In worlds that do not agree, a masonry layout is still the
    same up to the heights of its components, which lie in 1..3.  Only
    [clean_data] changes the instance, and only a masonry layout advances
    the generator. *)
Theorem invocations_agree_on_what_they_read (op : operation) (w1 w2 : world) :
  ((reads_cleaner op = true -> instance w1 = instance w2) ->
   (reads_generator op = true -> generator w1 = generator w2) ->
   fst (invoke op w1) = fst (invoke op w2))
  /\ (reads_cleaner op = false ->
      same_up_to_heights (fst (invoke op w1)) (fst (invoke op w2))
      /\ instance (snd (invoke op w1)) = instance w1)
  /\ (reads_generator op = true -> heights_within 1 3 (fst (invoke op w1)))
  /\ (reads_generator op = false ->
      generator (snd (invoke op w1)) = generator w1).
Proof.
  destruct w1 as [st1 g1], w2 as [st2 g2].
  destruct op as [df|df|df|df|charts kpis recs|l layout_type];
    cbn [invoke reads_cleaner reads_generator instance generator fst snd];
    try (repeat split; discriminate).
  - split; [|split; [|split]]; try discriminate.
    + intros Hst _. rewrite (Hst eq_refl).
      now destruct (DataCleaner.clean_data st2 df).
    + intros _. now destruct (DataCleaner.clean_data st1 df).
  - destruct (String.eqb layout_type "masonry") eqn:E.
    + apply String.eqb_eq in E. subst layout_type.
      destruct (masonry_layout_up_to_heights l g1 g2) as [He Hh].
      split; [|split; [|split]]; try discriminate.
      * intros _ Hg. rewrite (Hg eq_refl).
        now destruct (LayoutManager.create_custom_layout l "masonry" g2).
      * intros _.
        destruct (LayoutManager.create_custom_layout l "masonry" g1).
        destruct (LayoutManager.create_custom_layout l "masonry" g2).
        split; [exact He | reflexivity].
      * intros _.
        now destruct (LayoutManager.create_custom_layout l "masonry" g1).
    + rewrite (custom_layout_without_generator l layout_type g1 g2 E).
      destruct (LayoutManager.create_custom_layout l layout_type g2) as [l2 g2'].
      cbn [fst snd instance generator same_up_to_heights].
      split; [reflexivity|]. split; [now split|]. split; [discriminate|].
      reflexivity.
Qed.

End Invocations.

(** Two worlds that differ in the generator only. *)
Definition fresh_world (word : nat) : world :=
  {| instance := DataCleaner.__init__; generator := fun _ => word |}.

Lemma invocations_agree_on_what_they_read_witness :
  fst (invoke (pandas := plain_pandas) (numerics := plain_numerics)
              (sklearn := RecommenderFacts.labels_in_turn) (component := unit)
              (CleanData CleanerFacts.two_columns) (fresh_world 0))
  = fst (invoke (pandas := plain_pandas) (numerics := plain_numerics)
                (sklearn := RecommenderFacts.labels_in_turn)
                (CleanData CleanerFacts.two_columns) (fresh_world 7))
  /\ heights_within 1 3
       (fst (invoke (pandas := plain_pandas) (numerics := plain_numerics)
                    (sklearn := RecommenderFacts.labels_in_turn)
                    (CreateCustomLayout [tt; tt] "masonry") (fresh_world 0))).
Proof.
  split.
  - apply (proj1 (invocations_agree_on_what_they_read
                    (pandas := plain_pandas) (numerics := plain_numerics)
                    (sklearn := RecommenderFacts.labels_in_turn)
                    (CleanData CleanerFacts.two_columns)
                    (fresh_world 0) (fresh_world 7))).
    + intros _. reflexivity.
    + intro H. discriminate H.
  - apply (proj1 (proj2 (proj2 (invocations_agree_on_what_they_read
                    (pandas := plain_pandas) (numerics := plain_numerics)
                    (sklearn := RecommenderFacts.labels_in_turn)
                    (CreateCustomLayout [tt; tt] "masonry")
                    (fresh_world 0) (fresh_world 7))))).
    reflexivity.
Defined.

(** A column with a heavy tail. *)
Definition heavy_tail : frame :=
  [("x", Float64 [Some 0%Q; Some 0%Q; Some 0%Q; Some 0%Q; Some 1%Q;
                  Some 10%Q; Some 100%Q])].

(** The same frame cleaned twice by one [DataCleaner]: the instance lists
    the column once at the first call and twice at the second, which
    therefore removes the outliers twice.  The first call blanks 100 (the
    quartiles are 0 and 5.5, the upper bound 13.75) and returns the rows
    0, 1, 10; the second call blanks 100 and then, with the quartiles 0 and
    0.75 of what is left and the upper bound 1.875, also 10, and returns
    the rows 0, 1.  Every number in this computation is a multiple of 1/8
    below 128: the doubles compute it without rounding. *)
Lemma reused_cleaner_cleans_differently {pandas : Pandas} :
  let first := invoke (numerics := plain_numerics)
                      (sklearn := RecommenderFacts.labels_in_turn)
                      (component := unit) (CleanData heavy_tail) (fresh_world 0) in
  let second := invoke (numerics := plain_numerics)
                       (sklearn := RecommenderFacts.labels_in_turn)
                       (component := unit) (CleanData heavy_tail) (snd first) in
  fst first = Cleaned (Some [("x", Float64 [Some 0%Q; Some 1%Q; Some 10%Q])])
  /\ fst second = Cleaned (Some [("x", Float64 [Some 0%Q; Some 1%Q])]).
Proof. split; reflexivity. Qed.

End PipelineFacts.

(** ** Dictionaries, counters and ascending sorts *)

Module DictFacts.
Import Py PyFacts.

(** *** Grouping with [dict_append] *)

Lemma dict_get_dict_append {A : Type} (k k' : string) (v : A) d :
  dict_get k (dict_append k' v d)
  = if String.eqb k k'
    then Some (match dict_get k d with Some vs => vs | None => [] end ++ [v])
    else dict_get k d.
Proof.
  induction d as [|[k0 vs] d IH]; simpl.
  - destruct (String.eqb k k'); reflexivity.
  - destruct (String.eqb k' k0) eqn:E0; simpl.
    + apply String.eqb_eq in E0. subst k0.
      destruct (String.eqb k k'); reflexivity.
    + destruct (String.eqb k k0) eqn:E1.
      * apply String.eqb_eq in E1. subst k0.
        rewrite String.eqb_sym, E0. reflexivity.
      * exact IH.
Qed.

Lemma keys_dict_append {A : Type} (k : string) (v : A) d :
  map fst (dict_append k v d)
  = if str_in k (map fst d) then map fst d else map fst d ++ [k].
Proof.
  unfold str_in. induction d as [|[k0 vs] d IH]; simpl; [reflexivity|].
  destruct (String.eqb k k0); simpl; [reflexivity|].
  rewrite IH. destruct (existsb (String.eqb k) (map fst d)); reflexivity.
Qed.

Lemma str_in_In (x : string) (l : list string) : str_in x l = true <-> In x l.
Proof.
  unfold str_in. rewrite existsb_exists. split.
  - intros [y [Hy E]]. apply String.eqb_eq in E. now subst.
  - intro H. exists x. split; [exact H | apply String.eqb_refl].
Qed.

Lemma NoDup_keys_dict_append {A : Type} (k : string) (v : A) d :
  NoDup (map fst d) -> NoDup (map fst (dict_append k v d)).
Proof.
  intro H. rewrite keys_dict_append.
  destruct (str_in k (map fst d)) eqn:E; [exact H|].
  apply NoDup_app; [exact H | repeat constructor; intros [] | ].
  intros x Hx [<-|[]].
  apply str_in_In in Hx. congruence.
Qed.

Section Grouping.
Context {A : Type} (key : A -> string).

(** [for x in l: d[key(x)].append(x)], starting from the dictionary [d]. *)
Definition grouped_from (d : list (string * list A)) (l : list A)
  : list (string * list A) :=
  fold_left (fun g x => dict_append (key x) x g) l d.

Definition with_key (k : string) (x : A) : bool := String.eqb (key x) k.

Lemma dict_get_grouped_from (k : string) (l : list A) :
  forall d,
    dict_get k (grouped_from d l)
    = match dict_get k d, filter (with_key k) l with
      | None, [] => None
      | None, vs => Some vs
      | Some vs0, vs => Some (vs0 ++ vs)
      end.
Proof.
  unfold grouped_from, with_key.
  induction l as [|x l IH]; intro d; simpl.
  - destruct (dict_get k d); [now rewrite app_nil_r | reflexivity].
  - rewrite IH, dict_get_dict_append.
    rewrite (String.eqb_sym (key x) k).
    destruct (String.eqb k (key x)).
    + destruct (dict_get k d) as [vs0|]; simpl.
      * now rewrite <- app_assoc.
      * reflexivity.
    + reflexivity.
Qed.

Lemma NoDup_keys_grouped_from (l : list A) :
  forall d, NoDup (map fst d) -> NoDup (map fst (grouped_from d l)).
Proof.
  unfold grouped_from.
  induction l as [|x l IH]; intros d H; simpl; [exact H|].
  apply IH. now apply NoDup_keys_dict_append.
Qed.

Lemma dict_get_In {B : Type} (k : string) (v : B) (d : list (string * B)) :
  NoDup (map fst d) -> In (k, v) d -> dict_get k d = Some v.
Proof.
  induction d as [|[k0 v0] d IH]; simpl; intros Hn Hin; [contradiction|].
  inversion Hn as [|? ? Hk Hn']; subst.
  destruct Hin as [E|Hin].
  - inversion E; subst. now rewrite String.eqb_refl.
  - destruct (String.eqb k k0) eqn:E.
    + apply String.eqb_eq in E. subst k0.
      exfalso. apply Hk. apply in_map_iff. now exists (k, v).
    + now apply IH.
Qed.

(** Every group holds the elements of its key, in the order of the list. *)
Lemma grouped_from_nil_In (l : list A) (k : string) (vs : list A) :
  In (k, vs) (grouped_from [] l) ->
  vs = filter (with_key k) l /\ vs <> [].
Proof.
  intro Hin.
  pose proof (dict_get_In k vs _ (NoDup_keys_grouped_from l [] (NoDup_nil _)) Hin) as H.
  rewrite dict_get_grouped_from in H. simpl in H.
  destruct (filter (with_key k) l) as [|y ys]; [discriminate|].
  inversion H; subst. split; [reflexivity | discriminate].
Qed.

End Grouping.

(** *** Counters *)

Section Counting.
Context {K : Type} (eqb : K -> K -> bool).
Hypothesis eqb_spec : forall x y, eqb x y = true <-> x = y.

Lemma eqb_refl_K (x : K) : eqb x x = true.
Proof. now apply eqb_spec. Qed.

Lemma count_of_dict_count (k k' : K) (d : list (K * nat)) :
  count_of eqb k (dict_count eqb k' d)
  = count_of eqb k d + if eqb k k' then 1 else 0.
Proof.
  induction d as [|[k0 n] d IH]; simpl.
  - destruct (eqb k k'); reflexivity.
  - destruct (eqb k' k0) eqn:E0; simpl.
    + apply eqb_spec in E0. subst k0.
      destruct (eqb k k'); lia.
    + destruct (eqb k k0) eqn:E1.
      * apply eqb_spec in E1. subst k0.
        destruct (eqb k k') eqn:E2; [|lia].
        apply eqb_spec in E2. subst k'. rewrite eqb_refl_K in E0. discriminate.
      * exact IH.
Qed.

(** The sum of all the counters. *)
Definition tally (d : list (K * nat)) : nat := list_sum (map snd d).

Lemma tally_dict_count (k : K) (d : list (K * nat)) :
  tally (dict_count eqb k d) = S (tally d).
Proof.
  unfold tally. induction d as [|[k0 n] d IH]; simpl; [reflexivity|].
  destruct (eqb k k0); simpl; [reflexivity|]. rewrite IH. lia.
Qed.

Lemma positive_dict_count (k : K) (d : list (K * nat)) :
  Forall (fun kn => 0 < snd kn) d ->
  Forall (fun kn => 0 < snd kn) (dict_count eqb k d).
Proof.
  induction d as [|[k0 n] d IH]; simpl; intro H.
  - repeat constructor.
  - inversion H; subst. destruct (eqb k k0); constructor; simpl in *; auto; lia.
Qed.

Section Folded.
Context {A : Type} (f : A -> K).

Definition counted_from (d : list (K * nat)) (l : list A) : list (K * nat) :=
  fold_left (fun d x => dict_count eqb (f x) d) l d.

Lemma count_of_counted_from (k : K) (l : list A) :
  forall d,
    count_of eqb k (counted_from d l)
    = count_of eqb k d + List.length (filter (fun x => eqb k (f x)) l).
Proof.
  unfold counted_from.
  induction l as [|x l IH]; intro d; simpl; [lia|].
  rewrite IH, count_of_dict_count.
  destruct (eqb k (f x)); simpl; lia.
Qed.

Lemma tally_counted_from (l : list A) :
  forall d, tally (counted_from d l) = tally d + List.length l.
Proof.
  unfold counted_from.
  induction l as [|x l IH]; intro d; simpl; [lia|].
  rewrite IH, tally_dict_count. lia.
Qed.

Lemma positive_counted_from (l : list A) :
  forall d, Forall (fun kn => 0 < snd kn) d ->
            Forall (fun kn => 0 < snd kn) (counted_from d l).
Proof.
  unfold counted_from.
  induction l as [|x l IH]; intros d H; simpl; [exact H|].
  apply IH. now apply positive_dict_count.
Qed.

End Folded.
End Counting.

(** A loop that keeps two dictionaries is two loops. *)
Lemma fold_left_pair {A X Y : Type} (F : X -> A -> X) (G : Y -> A -> Y) (l : list A) :
  forall x y,
    fold_left (fun s a => (F (fst s) a, G (snd s) a)) l (x, y)
    = (fold_left F l x, fold_left G l y).
Proof. induction l as [|a l IH]; intros x y; simpl; [reflexivity | apply IH]. Qed.

Lemma fold_left_flat_map {A B Y : Type} (G : Y -> B -> Y) (h : A -> list B)
      (l : list A) :
  forall y,
    fold_left (fun y a => fold_left G (h a) y) l y
    = fold_left G (flat_map h l) y.
Proof.
  induction l as [|a l IH]; intro y; simpl; [reflexivity|].
  now rewrite fold_left_app, IH.
Qed.

(** *** The ascending sort *)

Section Ascending.
Context {A : Type} (key : A -> nat).

Definition asc (a b : A) : Prop := key a <= key b.

Lemma insert_asc_perm (x : A) (l : list A) :
  Permutation (insert_asc key x l) (x :: l).
Proof.
  induction l as [|y l IH]; simpl; [reflexivity|].
  destruct (key y <? key x); [|reflexivity].
  rewrite IH. apply perm_swap.
Qed.

Lemma sorted_asc_perm (l : list A) : Permutation (sorted_asc key l) l.
Proof.
  induction l as [|x l IH]; simpl; [reflexivity|].
  rewrite insert_asc_perm. now constructor.
Qed.

Lemma insert_asc_sorted (x : A) (l : list A) :
  StronglySorted asc l -> StronglySorted asc (insert_asc key x l).
Proof.
  induction l as [|y l IH]; simpl; intro Hs.
  - repeat constructor.
  - inversion Hs as [|? ? Hl Hy]; subst.
    destruct (key y <? key x) eqn:E.
    + apply Nat.ltb_lt in E. constructor; [now apply IH|].
      rewrite Forall_forall in *. intros z Hz.
      apply (Permutation_in _ (insert_asc_perm x l)) in Hz.
      destruct Hz as [<-|Hz]; [unfold asc; lia | now apply Hy].
    + apply Nat.ltb_ge in E. constructor; [exact Hs|].
      constructor; [exact E|].
      rewrite Forall_forall in *. intros z Hz. specialize (Hy z Hz).
      unfold asc in *. lia.
Qed.

Lemma sorted_asc_sorted (l : list A) : StronglySorted asc (sorted_asc key l).
Proof.
  induction l as [|x l IH]; simpl; [constructor | now apply insert_asc_sorted].
Qed.

Lemma filter_insert_asc (s : nat) (x : A) (l : list A) :
  filter (fun a => key a =? s) (insert_asc key x l)
  = filter (fun a => key a =? s) (x :: l).
Proof.
  induction l as [|y l IH]; [reflexivity|].
  simpl insert_asc. destruct (key y <? key x) eqn:E; [|reflexivity].
  apply Nat.ltb_lt in E. simpl. simpl in IH. rewrite IH.
  destruct (key x =? s) eqn:Ex, (key y =? s) eqn:Ey; try reflexivity.
  apply Nat.eqb_eq in Ex, Ey. lia.
Qed.

(** Stability: the elements of one key keep their order. *)
Lemma filter_sorted_asc (s : nat) (l : list A) :
  filter (fun a => key a =? s) (sorted_asc key l)
  = filter (fun a => key a =? s) l.
Proof.
  induction l as [|x l IH]; [reflexivity|].
  simpl sorted_asc. rewrite filter_insert_asc. simpl. now rewrite IH.
Qed.

(** A list in ascending order of its keys is left as it is. *)
Lemma sorted_asc_id (l : list A) :
  StronglySorted asc l -> sorted_asc key l = l.
Proof.
  induction l as [|x l IH]; intro Hs; [reflexivity|].
  inversion Hs as [|? ? Hl Hx]; subst. simpl. rewrite (IH Hl).
  destruct l as [|y l]; [reflexivity|]. simpl.
  inversion Hx as [|? ? Hxy _]; subst. unfold asc in Hxy.
  destruct (key y <? key x) eqn:E; [|reflexivity].
  apply Nat.ltb_lt in E. lia.
Qed.

End Ascending.

Lemma enumerate_from_combine {A : Type} (l : list A) :
  forall i, enumerate_from i l = combine (seq i (List.length l)) l.
Proof.
  induction l as [|x l IH]; intro i; simpl; [reflexivity | now rewrite IH].
Qed.

Lemma map_fst_enumerate {A : Type} (l : list A) :
  map fst (enumerate l) = seq 0 (List.length l).
Proof.
  unfold enumerate. generalize 0 as i.
  induction l as [|x l IH]; intro i; simpl; [reflexivity | now rewrite IH].
Qed.

End DictFacts.

(** ** Sections, grids and summaries of a layout *)

Module SectionFacts.
Import Py PyFacts DictFacts LayoutManager LayoutFacts.

#[local] Arguments Nat.modulo : simpl never.
#[local] Arguments Nat.div : simpl never.

(** *** Placement on the grid *)

(** The grid cell of a component. *)
Definition cell_of (c : component) : nat * nat :=
  (row (comp_position c), col (comp_position c)).

(** Every component lies inside the grid that the section declares, and no
    two components share a cell. *)
Definition well_placed (s : section) : Prop :=
  Forall (fun c => row (comp_position c) < rows (sec_layout s)
                   /\ col (comp_position c) < columns (sec_layout s))
         (components s)
  /\ NoDup (map cell_of (components s)).

Lemma In_enumerate {A : Type} (l : list A) (i : nat) (a : A) :
  In (i, a) (enumerate l) -> i < List.length l.
Proof.
  intro H. assert (Hi : In i (map fst (enumerate l))).
  { apply in_map_iff. now exists (i, a). }
  rewrite map_fst_enumerate in Hi. apply in_seq in Hi. lia.
Qed.

Lemma divmod_injective (k : nat) :
  Finite.Injective (fun i => (i / k, i mod k)).
Proof.
  intros i j H. inversion H as [[Hd Hm]].
  rewrite (Nat.div_mod_eq i k), (Nat.div_mod_eq j k). now rewrite Hd, Hm.
Qed.

Lemma ceil_div_above (k n i : nat) :
  0 < k -> i < n -> i / k < Nat.max 1 (ceil_div n k).
Proof.
  intros Hk Hi. unfold ceil_div.
  assert (Hle : i / k <= n / k) by (apply Nat.Div0.div_le_mono; lia).
  destruct (0 <? n mod k) eqn:E.
  - lia.
  - apply Nat.ltb_ge in E.
    assert (Hn : n = k * (n / k)).
    { pose proof (Nat.div_mod_eq n k). lia. }
    assert (i / k < n / k).
    { apply Nat.Div0.div_lt_upper_bound. lia. }
    lia.
Qed.

Lemma grid_is_well_placed {A : Type} (k n_rows : nat) (l : list A)
      (g : nat * A -> component) :
  0 < k ->
  (forall i a, cell_of (g (i, a)) = (i / k, i mod k)) ->
  (forall i, i < List.length l -> i / k < n_rows) ->
  Forall (fun c => row (comp_position c) < n_rows
                   /\ col (comp_position c) < k)
         (map g (enumerate l))
  /\ NoDup (map cell_of (map g (enumerate l))).
Proof.
  intros Hk Hg Hrows. split.
  - apply Forall_forall. intros c Hc.
    apply in_map_iff in Hc as [[i a] [<- Hin]].
    apply In_enumerate in Hin.
    pose proof (Hg i a) as E. unfold cell_of in E. inversion E as [[Er Ec]].
    rewrite Er, Ec. split; [now apply Hrows | apply Nat.mod_upper_bound; lia].
  - rewrite map_map.
    rewrite (map_ext (fun x => cell_of (g x))
                     (fun x => (fun i => (i / k, i mod k)) (fst x))).
    + rewrite <- (map_map fst (fun i => (i / k, i mod k))), map_fst_enumerate.
      apply Finite.Injective_map_NoDup; [apply divmod_injective | apply seq_NoDup].
    + intros [i a]. apply Hg.
Qed.

Lemma kpi_section_well_placed (kpis : list kpi) :
  well_placed (_create_kpi_section kpis).
Proof.
  unfold well_placed, _create_kpi_section. cbn [components sec_layout rows columns].
  apply (grid_is_well_placed 4); [lia | reflexivity |].
  intros i Hi. apply ceil_div_above; lia.
Qed.

Lemma chart_section_well_placed (t : string) (cs : list chart) :
  well_placed (chart_section t cs).
Proof.
  unfold well_placed, chart_section. cbn [components sec_layout rows columns].
  apply (grid_is_well_placed 2); [lia | reflexivity |].
  intros i Hi. apply ceil_div_above; lia.
Qed.

Lemma recommendation_section_well_placed (recs : list recommendation) :
  well_placed (_create_recommendation_section recs).
Proof.
  unfold well_placed, _create_recommendation_section.
  cbn [components sec_layout rows columns].
  apply (grid_is_well_placed 1); [lia | | ].
  - intros i a. unfold cell_of. cbn [comp_position row col].
    now rewrite Nat.div_1_r, Nat.mod_1_r.
  - intros i Hi. rewrite Nat.div_1_r.
    now rewrite length_sorted_desc in Hi.
Qed.

(** X1. Every section that [organize_layout] builds places its components
    inside the grid it declares ([rows] by [columns]), each in a cell of
    its own. *)
Theorem sections_place_components_in_their_grid
        (charts : list chart) (kpis : list kpi)
        (recommendations : list recommendation) :
  Forall well_placed (sections (organize_layout charts kpis recommendations)).
Proof.
  rewrite sections_organize_layout.
  apply Forall_app. split; [|apply Forall_app; split].
  - destruct kpis; [constructor|].
    unfold kpi_part. constructor; [apply kpi_section_well_placed | constructor].
  - destruct charts as [|c charts]; [constructor|].
    unfold chart_part, _create_chart_sections.
    apply Forall_forall. intros s Hs.
    apply in_map_iff in Hs as [[t cs] [<- _]].
    apply chart_section_well_placed.
  - destruct recommendations; [constructor|].
    unfold recommendation_part.
    constructor; [apply recommendation_section_well_placed | constructor].
Qed.

(** *** Chart sections *)

(** [chart.get("type", "unknown")] *)
Definition type_of_chart (c : chart) : string :=
  match chart_type c with Some t => t | None => "unknown" end.

Definition charts_of_type (t : string) (charts : list chart) : list chart :=
  filter (fun c => String.eqb (type_of_chart c) t) charts.

Lemma group_charts_grouped (charts : list chart) :
  _group_charts_by_type charts = grouped_from type_of_chart [] charts.
Proof. reflexivity. Qed.

Lemma chart_section_data (t : string) (cs : list chart) :
  map comp_data (components (chart_section t cs)) = map ChartData cs.
Proof.
  unfold chart_section, enumerate. cbn [components]. rewrite map_map.
  now apply map_enumerate_from.
Qed.

Lemma chart_section_id_injective (t1 t2 : string) :
  sec_id (chart_section t1 []) = sec_id (chart_section t2 []) -> t1 = t2.
Proof. simpl. intro H. now inversion H. Qed.

(** X2. [_create_chart_sections] makes one section per chart type that
    occurs, under pairwise distinct ids [chart_section_<type>]; the section
    of a type holds exactly the charts of that type, in their input order
    (a chart without a type counts as [unknown]), and no section is
    empty. *)
Theorem chart_sections_partition_by_type (charts : list chart) :
  NoDup (map sec_id (_create_chart_sections charts))
  /\ (forall s, In s (_create_chart_sections charts) ->
        exists t,
          sec_id s = ("chart_section_" ++ t)%string
          /\ map comp_data (components s)
             = map ChartData (charts_of_type t charts)
          /\ components s <> [])
  /\ (forall c, In c charts ->
        exists s, In s (_create_chart_sections charts)
                  /\ sec_id s = ("chart_section_" ++ type_of_chart c)%string).
Proof.
  unfold _create_chart_sections. rewrite group_charts_grouped.
  pose proof (NoDup_keys_grouped_from type_of_chart charts [] (NoDup_nil _)) as Hn.
  split; [|split].
  - rewrite map_map.
    rewrite (map_ext (fun x : string * list chart =>
                        sec_id (let '(t, cs) := x in chart_section t cs))
                     (fun x => (fun t => ("chart_section_" ++ t)%string) (fst x)))
      by (intros [t cs]; reflexivity).
    rewrite <- (map_map fst (fun t => ("chart_section_" ++ t)%string)).
    apply Finite.Injective_map_NoDup; [|exact Hn].
    intros t1 t2 H. simpl in H. now inversion H.
  - intros s Hs. apply in_map_iff in Hs as [[t cs] [<- Hin]].
    exists t. apply (grouped_from_nil_In type_of_chart) in Hin as [-> Hne].
    split; [reflexivity|]. split; [apply chart_section_data|].
    intro H. apply Hne. unfold chart_section in H. cbn [components] in H.
    apply (f_equal (@List.length _)) in H.
    rewrite length_map, length_enumerate in H.
    now apply length_zero_iff_nil.
  - intros c Hc.
    pose proof (dict_get_grouped_from type_of_chart (type_of_chart c) charts [])
      as Hget.
    simpl in Hget.
    destruct (filter (with_key type_of_chart (type_of_chart c)) charts)
      as [|y ys] eqn:Ef.
    + exfalso.
      assert (Hin : In c (filter (with_key type_of_chart (type_of_chart c)) charts)).
      { apply filter_In. split; [exact Hc | apply String.eqb_refl]. }
      rewrite Ef in Hin. contradiction.
    + exists (chart_section (type_of_chart c) (y :: ys)). split; [|reflexivity].
      apply in_map_iff. exists (type_of_chart c, y :: ys). split; [reflexivity|].
      clear Ef Hc Hn.
      induction (grouped_from type_of_chart [] charts) as [|[k vs] d IH];
        simpl in Hget; [discriminate|].
      destruct (String.eqb (type_of_chart c) k) eqn:E.
      * apply String.eqb_eq in E. inversion Hget; subst. now left.
      * right. now apply IH.
Qed.

(** *** Layouts read back as dictionaries *)

(** The keys of a layout built by [organize_layout]: all of them are
    present. *)
Definition optimized_of (l : layout) : optimized layout section :=
  optimize_layout (fun l => Some (sections l)) (fun s => Some (sec_priority s)) l.

Definition summary_of (l : layout) : layout_summary :=
  get_layout_summary
    (fun l => Some (sections l)) (fun l => Some (total_components l))
    (fun s => Some (sec_type s)) (fun s => Some (components s))
    (fun c => Some (comp_type c)) l.

Lemma StronglySorted_app {A : Type} (R : A -> A -> Prop) (l1 l2 : list A) :
  StronglySorted R l1 -> StronglySorted R l2 ->
  (forall a b, In a l1 -> In b l2 -> R a b) ->
  StronglySorted R (l1 ++ l2).
Proof.
  induction l1 as [|x l1 IH]; simpl; intros H1 H2 H12; [exact H2|].
  inversion H1 as [|? ? Hl Hx]; subst. constructor.
  - apply IH; auto.
  - apply Forall_app. split; [exact Hx|].
    apply Forall_forall. intros b Hb. apply H12; [now left | exact Hb].
Qed.

Lemma same_priority_sorted (p : nat) (l : list section) :
  (forall s, In s l -> sec_priority s = p) ->
  StronglySorted (fun a b => sec_priority a <= sec_priority b) l.
Proof.
  induction l as [|x l IH]; intro H; constructor.
  - apply IH. intros s Hs. apply H. now right.
  - apply Forall_forall. intros y Hy.
    rewrite (H x), (H y); [lia | now right | now left].
Qed.

Lemma kpi_part_priority kpis s : In s (kpi_part kpis) -> sec_priority s = 1.
Proof. destruct kpis; simpl; [contradiction|]. now intros [<-|[]]. Qed.

Lemma chart_part_priority charts s : In s (chart_part charts) -> sec_priority s = 2.
Proof.
  destruct charts as [|c charts]; [contradiction|].
  unfold chart_part, _create_chart_sections. intro H.
  apply in_map_iff in H as [[t cs] [<- _]]. reflexivity.
Qed.

Lemma recommendation_part_priority recs s :
  In s (recommendation_part recs) -> sec_priority s = 3.
Proof. destruct recs; simpl; [contradiction|]. now intros [<-|[]]. Qed.

Lemma organized_sections_sorted charts kpis recs :
  StronglySorted (fun a b => sec_priority a <= sec_priority b)
                 (sections (organize_layout charts kpis recs)).
Proof.
  rewrite sections_organize_layout.
  apply StronglySorted_app; [|apply StronglySorted_app|].
  - apply (same_priority_sorted 1), kpi_part_priority.
  - apply (same_priority_sorted 2), chart_part_priority.
  - apply (same_priority_sorted 3), recommendation_part_priority.
  - intros a b Ha Hb.
    rewrite (chart_part_priority _ _ Ha), (recommendation_part_priority _ _ Hb). lia.
  - intros a b Ha Hb. rewrite (kpi_part_priority _ _ Ha).
    apply in_app_or in Hb as [Hb|Hb].
    + rewrite (chart_part_priority _ _ Hb). lia.
    + rewrite (recommendation_part_priority _ _ Hb). lia.
Qed.

(** X3. [organize_layout] emits its sections in priority order (KPIs,
    then charts, then recommendations), so [optimize_layout] leaves the
    sections of such a layout as they are; it adds the five responsive
    breakpoints. *)
Theorem optimize_keeps_organized_layout
        (charts : list chart) (kpis : list kpi)
        (recommendations : list recommendation) :
  let layout := organize_layout charts kpis recommendations in
  optimized_sections (optimized_of layout) = Some (sections layout)
  /\ copied (optimized_of layout) = layout
  /\ map fst (responsive (optimized_of layout)) = ["xs"; "sm"; "md"; "lg"; "xl"].
Proof.
  intro layout. split; [|split; reflexivity].
  unfold optimized_of, optimize_layout. cbn [optimized_sections].
  f_equal. apply sorted_asc_id.
  apply (organized_sections_sorted charts kpis recommendations).
Qed.

(** X4. In general [optimize_layout] reorders the sections by ascending
    priority, a section without a priority counting as 999; the sort is
    stable (sections of equal priority keep their order) and neither adds
    nor drops a section.  A dictionary without sections gets none. *)
Theorem optimize_sorts_sections_by_priority
        {L S : Type} (get_sections : L -> option (list S))
        (get_priority : S -> option nat) (layout : L) :
  match get_sections layout with
  | Some sections =>
      exists sorted,
        optimized_sections (optimize_layout get_sections get_priority layout)
        = Some sorted
        /\ Permutation sorted sections
        /\ StronglySorted (fun a b => priority_key get_priority a
                                      <= priority_key get_priority b) sorted
        /\ (forall p, filter (fun x => priority_key get_priority x =? p) sorted
                      = filter (fun x => priority_key get_priority x =? p) sections)
        /\ (forall x, get_priority x = None -> priority_key get_priority x = 999)
  | None =>
      optimized_sections (optimize_layout get_sections get_priority layout) = None
  end.
Proof.
  unfold optimize_layout. cbn [optimized_sections].
  destruct (get_sections layout) as [sections|]; [|reflexivity].
  eexists. split; [reflexivity|].
  split; [apply sorted_asc_perm|].
  split; [apply (sorted_asc_sorted (priority_key get_priority))|].
  split; [intro p; apply filter_sorted_asc|].
  intros x Hx. unfold priority_key. now rewrite Hx.
Qed.

End SectionFacts.

Module SummaryFacts.
Import Py PyFacts DictFacts LayoutManager LayoutFacts SectionFacts.

#[local] Arguments Nat.modulo : simpl never.
#[local] Arguments Nat.div : simpl never.

Lemma string_eqb_spec (x y : string) : String.eqb x y = true <-> x = y.
Proof. apply String.eqb_eq. Qed.

Lemma length_flat_map_sum {A B : Type} (f : A -> list B) (l : list A) :
  List.length (flat_map f l) = list_sum (map (fun a => List.length (f a)) l).
Proof.
  induction l as [|a l IH]; simpl; [reflexivity|].
  now rewrite length_app, IH.
Qed.

Section AnyDictionary.
Context {L S C : Type}.
Variable get_sections : L -> option (list S).
Variable get_total_components : L -> option nat.
Variable get_type : S -> option string.
Variable get_components : S -> option (list C).
Variable get_component_type : C -> option string.

(** [x.get("type", "unknown")] *)
Definition type_or_unknown {X : Type} (get : X -> option string) (x : X) : string :=
  match get x with Some t => t | None => "unknown" end.

Definition sections_or_none (layout : L) : list S :=
  match get_sections layout with Some l => l | None => [] end.

Definition components_or_none (section : S) : list C :=
  match get_components section with Some l => l | None => [] end.

Lemma summary_section_types (layout : L) :
  section_types (get_layout_summary get_sections get_total_components get_type
                                    get_components get_component_type layout)
  = counted_from String.eqb (type_or_unknown get_type) [] (sections_or_none layout).
Proof.
  unfold get_layout_summary. cbn [section_types].
  rewrite (fold_left_pair
             (fun d section => count_type (get_type section) d)
             (fun d section =>
                fold_left (fun types component =>
                             count_type (get_component_type component) types)
                          match get_components section with
                          | Some l => l | None => [] end d)).
  reflexivity.
Qed.

Lemma summary_component_types (layout : L) :
  component_types (get_layout_summary get_sections get_total_components get_type
                                      get_components get_component_type layout)
  = counted_from String.eqb (type_or_unknown get_component_type) []
                 (flat_map components_or_none (sections_or_none layout)).
Proof.
  unfold get_layout_summary. cbn [component_types].
  rewrite (fold_left_pair
             (fun d section => count_type (get_type section) d)
             (fun d section =>
                fold_left (fun types component =>
                             count_type (get_component_type component) types)
                          match get_components section with
                          | Some l => l | None => [] end d)).
  cbn [snd].
  rewrite (fold_left_flat_map
             (fun types component =>
                count_type (get_component_type component) types)
             components_or_none).
  reflexivity.
Qed.

End AnyDictionary.

(** X5. For any dictionary, [get_layout_summary] counts every section
    once under its type and every listed component once under its type,
    a missing type counting as [unknown]; a missing list of sections or of
    components counts as empty and a missing [total_components] as 0, which
    is otherwise copied, not recomputed. *)
Theorem layout_summary_counts_each_once
        {L S C : Type}
        (get_sections : L -> option (list S))
        (get_total_components : L -> option nat)
        (get_type : S -> option string)
        (get_components : S -> option (list C))
        (get_component_type : C -> option string) (layout : L) :
  let summary := get_layout_summary get_sections get_total_components get_type
                                    get_components get_component_type layout in
  let sections := sections_or_none get_sections layout in
  let listed := flat_map (components_or_none get_components) sections in
  total_sections summary = List.length sections
  /\ summary_total_components summary
     = match get_total_components layout with Some n => n | None => 0 end
  /\ (forall t, count_of String.eqb t (section_types summary)
                = List.length
                    (filter (fun s => String.eqb t (type_or_unknown get_type s))
                            sections))
  /\ (forall t, count_of String.eqb t (component_types summary)
                = List.length
                    (filter (fun c => String.eqb t
                                        (type_or_unknown get_component_type c))
                            listed))
  /\ tally (section_types summary) = List.length sections
  /\ tally (component_types summary) = List.length listed.
Proof.
  intros summary sections listed. subst summary.
  rewrite summary_section_types, summary_component_types.
  split; [reflexivity|]. split; [reflexivity|].
  split; [|split; [|split]].
  - intro t. now rewrite (count_of_counted_from String.eqb string_eqb_spec).
  - intro t. now rewrite (count_of_counted_from String.eqb string_eqb_spec).
  - now rewrite tally_counted_from.
  - now rewrite tally_counted_from.
Qed.

(** *** The summary of an organized layout *)

Lemma filter_constant {A : Type} (p : A -> bool) (b : bool) (l : list A) :
  (forall x, In x l -> p x = b) ->
  List.length (filter p l) = if b then List.length l else 0.
Proof.
  induction l as [|x l IH]; intro H; simpl.
  - now destruct b.
  - rewrite (H x (or_introl eq_refl)).
    destruct b; simpl; rewrite IH; auto; intros y Hy; apply H; now right.
Qed.

Definition listed_components (ss : list section) : list component :=
  flat_map components ss.

Lemma length_listed_components (ss : list section) :
  List.length (listed_components ss) = count_components ss.
Proof. apply length_flat_map_sum. Qed.

Lemma kpi_part_types kpis c :
  In c (listed_components (kpi_part kpis)) -> comp_type c = "kpi_card".
Proof.
  destruct kpis as [|k kpis]; [contradiction|].
  unfold listed_components, kpi_part.
  generalize (k :: kpis) as l. intros l H.
  cbn [flat_map] in H. rewrite app_nil_r in H.
  unfold _create_kpi_section in H. cbn [components] in H.
  apply in_map_iff in H as [[i x] [<- _]]. reflexivity.
Qed.

Lemma chart_part_types charts c :
  In c (listed_components (chart_part charts)) -> comp_type c = "chart".
Proof.
  destruct charts as [|c0 charts]; [contradiction|].
  unfold listed_components, chart_part, _create_chart_sections.
  generalize (c0 :: charts) as l. intros l H.
  apply in_flat_map in H as [s [Hs Hc]].
  apply in_map_iff in Hs as [[t cs] [<- _]].
  unfold chart_section in Hc. cbn [components] in Hc.
  apply in_map_iff in Hc as [[i x] [<- _]]. reflexivity.
Qed.

Lemma recommendation_part_types recs c :
  In c (listed_components (recommendation_part recs)) ->
  comp_type c = "recommendation_card".
Proof.
  destruct recs as [|r recs]; [contradiction|].
  unfold listed_components, recommendation_part.
  generalize (r :: recs) as l. intros l H.
  cbn [flat_map] in H. rewrite app_nil_r in H.
  unfold _create_recommendation_section in H. cbn [components] in H.
  apply in_map_iff in H as [[i x] [<- _]]. reflexivity.
Qed.

Lemma count_in_parts (t : string) charts kpis recs :
  List.length
    (filter (fun c => String.eqb t (comp_type c))
            (listed_components (sections (organize_layout charts kpis recs))))
  = (if String.eqb t "kpi_card" then List.length kpis else 0)
    + (if String.eqb t "chart" then List.length charts else 0)
    + (if String.eqb t "recommendation_card" then List.length recs else 0).
Proof.
  rewrite sections_organize_layout. unfold listed_components.
  rewrite !flat_map_app, !filter_app, !length_app.
  fold (listed_components (kpi_part kpis)).
  fold (listed_components (chart_part charts)).
  fold (listed_components (recommendation_part recs)).
  rewrite (filter_constant _ (String.eqb t "kpi_card")
                           (listed_components (kpi_part kpis))),
    (filter_constant _ (String.eqb t "chart")
                     (listed_components (chart_part charts))),
    (filter_constant _ (String.eqb t "recommendation_card")
                     (listed_components (recommendation_part recs))).
  - rewrite !length_listed_components,
      kpi_part_size, chart_part_size, recommendation_part_size. lia.
  - intros c Hc. now rewrite (recommendation_part_types _ _ Hc).
  - intros c Hc. now rewrite (chart_part_types _ _ Hc).
  - intros c Hc. now rewrite (kpi_part_types _ _ Hc).
Qed.

(** X6. The summary of a layout built by [organize_layout] agrees with
    the inputs: [kpi_card], [chart] and [recommendation_card] are counted
    as many times as there are KPIs, charts and recommendations, nothing is
    counted under another component type, and the counts add up to
    [total_components]. *)
Theorem summary_of_organized_layout
        (charts : list chart) (kpis : list kpi)
        (recommendations : list recommendation) :
  let layout := organize_layout charts kpis recommendations in
  let summary := summary_of layout in
  total_sections summary = List.length (sections layout)
  /\ summary_total_components summary
     = List.length charts + List.length kpis + List.length recommendations
  /\ count_of String.eqb "kpi_card" (component_types summary) = List.length kpis
  /\ count_of String.eqb "chart" (component_types summary) = List.length charts
  /\ count_of String.eqb "recommendation_card" (component_types summary)
     = List.length recommendations
  /\ (forall t, t <> "kpi_card" -> t <> "chart" -> t <> "recommendation_card" ->
                count_of String.eqb t (component_types summary) = 0)
  /\ tally (component_types summary) = summary_total_components summary.
Proof.
  intros layout summary. subst summary. unfold summary_of.
  assert (Hcount : forall t,
             count_of String.eqb t
               (component_types
                  (get_layout_summary
                     (fun l => Some (sections l))
                     (fun l => Some (total_components l))
                     (fun s => Some (sec_type s)) (fun s => Some (components s))
                     (fun c => Some (comp_type c)) layout))
             = (if String.eqb t "kpi_card" then List.length kpis else 0)
               + (if String.eqb t "chart" then List.length charts else 0)
               + (if String.eqb t "recommendation_card"
                  then List.length recommendations else 0)).
  { intro t. rewrite summary_component_types.
    rewrite (count_of_counted_from String.eqb string_eqb_spec).
    apply (count_in_parts t charts kpis recommendations). }
  split; [reflexivity|]. split; [reflexivity|].
  split; [rewrite Hcount; simpl; lia|].
  split; [rewrite Hcount; simpl; lia|].
  split; [rewrite Hcount; simpl; lia|].
  split.
  - intros t H1 H2 H3. rewrite Hcount.
    apply String.eqb_neq in H1, H2, H3. now rewrite H1, H2, H3.
  - rewrite summary_component_types, tally_counted_from.
    unfold sections_or_none, components_or_none. cbn [tally map list_sum].
    change (flat_map (fun s => components s) (sections layout))
      with (listed_components (sections layout)).
    rewrite length_listed_components.
    subst layout. rewrite sections_organize_layout.
    rewrite !count_components_app,
      kpi_part_size, chart_part_size, recommendation_part_size.
    cbn [summary_total_components get_layout_summary organize_layout
         total_components].
    change (tally (@nil (string * nat))) with 0. lia.
Qed.

End SummaryFacts.

Module CustomLayoutFacts.
Import Py PyFacts DictFacts LayoutManager.

#[local] Arguments Nat.modulo : simpl never.
#[local] Arguments Nat.div : simpl never.

(** [f"component_{i}"] *)
Definition component_id (i : nat) : string :=
  ("component_" ++ str_of_nat i)%string.

Lemma placed_data {A : Type} (pos : nat -> position) (l : list A) :
  map cc_data (placed pos l) = l.
Proof.
  unfold placed, enumerate. rewrite map_map.
  rewrite (map_enumerate_from _ (fun a => a)); [apply map_id|].
  reflexivity.
Qed.

Lemma placed_ids {A : Type} (pos : nat -> position) (l : list A) :
  map cc_id (placed pos l) = map component_id (seq 0 (List.length l)).
Proof.
  unfold placed. rewrite map_map.
  rewrite (map_ext _ (fun x => component_id (fst x))) by (intros [i a]; reflexivity).
  now rewrite <- (map_map fst component_id), map_fst_enumerate.
Qed.

Lemma masonry_data_and_ids {A : Type} (l : list A) :
  forall i g,
    map cc_data (fst (masonry_components i l g)) = l
    /\ map cc_id (fst (masonry_components i l g))
       = map component_id (seq i (List.length l)).
Proof.
  induction l as [|c l IH]; intros i g; simpl; [now split|].
  destruct (IH (S i) (fun k => g (S k))) as [Hd Hi].
  destruct (masonry_components (S i) l (fun k => g (S k))) as [rest g2].
  simpl in *. now rewrite Hd, Hi.
Qed.

(** The type that a custom layout reports for a requested type. *)
Definition reported_type (layout_type : string) : string :=
  if str_in layout_type ["grid"; "list"; "masonry"] then layout_type
  else "default".

(** X7. Whatever the requested layout type and the state of the random
    generator, [create_custom_layout] returns one component per input
    component, in the input order and under the ids [component_0],
    [component_1], ...; a type other than grid, list and masonry gives
    the default layout. *)
Theorem custom_layout_keeps_components
        {A : Type} (l : list A) (layout_type : string) (g : rng) :
  let result := fst (create_custom_layout l layout_type g) in
  map cc_data (cl_components result) = l
  /\ map cc_id (cl_components result) = map component_id (seq 0 (List.length l))
  /\ cl_type result = reported_type layout_type.
Proof.
  unfold create_custom_layout, reported_type, str_in. cbn [existsb].
  destruct (String.eqb layout_type "grid") eqn:E1.
  { apply String.eqb_eq in E1. subst. cbn [fst orb].
    split; [apply placed_data | split; [apply placed_ids | reflexivity]]. }
  destruct (String.eqb layout_type "list") eqn:E2.
  { apply String.eqb_eq in E2. subst. cbn [fst orb].
    split; [apply placed_data | split; [apply placed_ids | reflexivity]]. }
  destruct (String.eqb layout_type "masonry") eqn:E3.
  { apply String.eqb_eq in E3. subst. cbn [orb].
    unfold _create_masonry_layout.
    destruct (masonry_data_and_ids l 0 g) as [Hd Hi].
    destruct (masonry_components 0 l g) as [cs g']. cbn [fst cl_components cl_type] in *.
    now split; [|split]. }
  cbn [fst orb].
  split; [apply placed_data | split; [apply placed_ids | reflexivity]].
Qed.

End CustomLayoutFacts.

(** ** The cleaner, column by column *)

Module ColumnFacts.
Import Frame FrameFacts DataCleaner CleanerFacts.

(** *** Updating columns *)

Lemma names_update_column (c : string) (f : series -> series) (d : frame) :
  map fst (update_column c f d) = map fst d.
Proof.
  induction d as [|[c' s] d IH]; simpl; [reflexivity|].
  destruct (String.eqb c c'); simpl; [reflexivity | now rewrite IH].
Qed.

Lemma update_column_absent (c : string) (f : series -> series) (d : frame) :
  has_column d c = false -> update_column c f d = d.
Proof.
  unfold has_column, column.
  induction d as [|[c' s] d IH]; simpl; [reflexivity|].
  destruct (String.eqb c c'); [discriminate|].
  intro H. now rewrite IH.
Qed.

Lemma update_column_map (c : string) (f : series -> series) (d : frame) :
  NoDup (map fst d) ->
  update_column c f d
  = map (fun cs => (fst cs, if String.eqb c (fst cs) then f (snd cs) else snd cs)) d.
Proof.
  induction d as [|[c' s] d IH]; simpl; intro Hn; [reflexivity|].
  inversion Hn as [|? ? Hc Hn']; subst.
  destruct (String.eqb c c') eqn:E.
  - apply String.eqb_eq in E. subst c'. f_equal.
    rewrite <- (map_id d) at 1. apply map_ext_in.
    intros [c2 s2] Hin. simpl.
    destruct (String.eqb c c2) eqn:E2; [|reflexivity].
    apply String.eqb_eq in E2. subst c2. exfalso. apply Hc.
    apply in_map_iff. now exists (c, s2).
  - f_equal. now apply IH.
Qed.

Lemma names_clean_columns (f : series -> series) (names : list string) :
  forall d, map fst (clean_columns f names d) = map fst d.
Proof.
  unfold clean_columns.
  induction names as [|c names IH]; intro d; simpl; [reflexivity|].
  rewrite IH. destruct (has_column d c); [apply names_update_column | reflexivity].
Qed.

(** With distinct names on both sides, the loop over the names is one
    pass over the columns. *)
Lemma clean_columns_map (f : series -> series) (names : list string) :
  NoDup names ->
  forall d,
    NoDup (map fst d) ->
    clean_columns f names d
    = map (fun cs => (fst cs, if Py.str_in (fst cs) names
                              then f (snd cs) else snd cs)) d.
Proof.
  unfold clean_columns.
  induction names as [|c names IH]; intros Hn d Hd; simpl.
  - rewrite <- (map_id d) at 1. apply map_ext. now intros [c s].
  - inversion Hn as [|? ? Hc Hn']; subst.
    assert (E : (if has_column d c then update_column c f d else d)
                = update_column c f d).
    { destruct (has_column d c) eqn:Eh; [reflexivity|].
      symmetry. now apply update_column_absent. }
    rewrite E. rewrite IH; [|exact Hn' | now rewrite names_update_column].
    rewrite update_column_map by exact Hd. rewrite map_map.
    apply map_ext. intros [c' s]. cbn [fst snd]. f_equal.
    unfold Py.str_in. cbn [existsb]. rewrite (String.eqb_sym c' c).
    destruct (String.eqb c c') eqn:E1; cbn [orb]; [|reflexivity].
    apply String.eqb_eq in E1. subst c'.
    destruct (existsb (String.eqb c) names) eqn:E2; [|reflexivity].
    exfalso. apply Hc. apply existsb_exists in E2 as [y [Hy Ey]].
    apply String.eqb_eq in Ey. now subst.
Qed.

Lemma NoDup_names_filter {B : Type} (p : string * B -> bool) (d : list (string * B)) :
  NoDup (map fst d) -> NoDup (map fst (filter p d)).
Proof.
  induction d as [|x d IH]; simpl; intro Hn; [constructor|].
  inversion Hn as [|? ? Hx Hn']; subst.
  destruct (p x); simpl; [|now apply IH].
  constructor; [|now apply IH].
  intro H. apply Hx. apply in_map_iff in H as [y [Ey Hy]].
  apply filter_In in Hy as [Hy _]. apply in_map_iff. now exists y.
Qed.

Section WithPandas.
Context {pandas : Pandas} {numerics : Numerics}.

(** *** The kind lists of a fresh instance *)

Lemma kind_list_only (k k' : kind) (c : string) :
  kind_list k (only k' c) = if kind_eqb k k' then [c] else [].
Proof. destruct k, k'; reflexivity. Qed.

Lemma kind_list_detect (k : kind) (df : frame) :
  kind_list k (_detect_column_types __init__ df)
  = map fst (filter (fun cs => kind_eqb k (kind_of (fst cs) (snd cs))) df).
Proof.
  induction df as [|[c s] df IH]; [now destruct k|].
  unfold _detect_column_types in *. cbn [fold_left].
  fold (_detect_column_types (detect_column __init__ c s) df).
  rewrite detect_extend, kind_list_extend.
  unfold _detect_column_types. rewrite IH.
  rewrite detect_column_extend, extend_init_l, kind_list_only.
  cbn [filter fst snd]. now destruct (kind_eqb k (kind_of c s)).
Qed.

Lemma NoDup_kind_list (k : kind) (df : frame) :
  NoDup (map fst df) -> NoDup (kind_list k (_detect_column_types __init__ df)).
Proof. intro H. rewrite kind_list_detect. now apply NoDup_names_filter. Qed.

(** One cleaning loop, run on a frame whose columns were computed from
    those of [df] one by one. *)
Lemma cleaning_pass (df : frame) (k : kind) (f : series -> series)
      (h : string -> series -> series) :
  NoDup (map fst df) ->
  clean_columns f (kind_list k (_detect_column_types __init__ df))
                (map (fun cs => (fst cs, h (fst cs) (snd cs))) df)
  = map (fun cs => (fst cs, if kind_eqb k (kind_of (fst cs) (snd cs))
                            then f (h (fst cs) (snd cs))
                            else h (fst cs) (snd cs))) df.
Proof.
  intro Hn.
  rewrite clean_columns_map;
    [| now apply NoDup_kind_list | now rewrite map_map; cbn [fst]].
  rewrite map_map. apply map_ext_in. intros [c s] Hin. cbn [fst snd].
  now rewrite (kind_membership df c s k Hn Hin).
Qed.

(** *** What becomes of one column *)

(** The values that [_clean_numeric_columns] leaves in a column. *)
Definition blanked (s : series) : list (option Q) :=
  let v := to_numeric s in
  map (fun x => if is_outlier (fst (iqr_bounds v)) (snd (iqr_bounds v)) x
                then None else x) v.

Lemma clean_numeric_series_blanked (s : series) :
  clean_numeric_series s = Float64 (blanked s).
Proof.
  unfold clean_numeric_series, blanked.
  now destruct (iqr_bounds (to_numeric s)).
Qed.

Definition cleaned_series (k : kind) (s : series) : series :=
  match k with
  | Numeric => clean_numeric_series s
  | Categorical => clean_categorical_series s
  | Date => clean_date_series s
  | Text => clean_text_series s
  end.

(** [fillna(method='ffill').fillna(method='bfill')] on a column. *)
Definition filled_both_ways (s : series) : series :=
  match s with
  | Float64 l => Float64 (bfill (ffill l))
  | Datetime64 l => Datetime64 (bfill (ffill l))
  | Object l => Object (bfill (ffill l))
  end.

(** The column that [clean_data] computes from a column of kind [k],
    before the duplicate rows are dropped. *)
Definition finished_series (k : kind) (s : series) : series :=
  match k with
  | Numeric =>
      let l := blanked s in Float64 (fillna (median l) l)
  | Categorical =>
      let l := replace_empty (map Py.title (map Py.strip (astype_str s))) in
      Object (fillna (Some (match mode l with Some m => m | None => "Unknown" end)) l)
  | Date => filled_both_ways (clean_date_series s)
  | Text =>
      let l := replace_empty (map Py.strip (astype_str s)) in
      Object (fillna (Some "Unknown") l)
  end.

Definition finished (df : frame) : frame :=
  map (fun cs => (fst cs, finished_series (kind_of (fst cs) (snd cs)) (snd cs))) df.

Lemma all_passes (df : frame) :
  NoDup (map fst df) ->
  let st := _detect_column_types __init__ df in
  _clean_text_columns st
    (_clean_date_columns st
       (_clean_categorical_columns st (_clean_numeric_columns st df)))
  = map (fun cs => (fst cs, cleaned_series (kind_of (fst cs) (snd cs)) (snd cs))) df.
Proof.
  intros Hn st. subst st.
  unfold _clean_text_columns, _clean_date_columns, _clean_categorical_columns,
    _clean_numeric_columns.
  change (numeric_columns ?x) with (kind_list Numeric x).
  change (categorical_columns ?x) with (kind_list Categorical x).
  change (date_columns ?x) with (kind_list Date x).
  change (text_columns ?x) with (kind_list Text x).
  set (st := _detect_column_types __init__ df).
  set (h1 := fun (c : string) (s : series) =>
               if kind_eqb Numeric (kind_of c s) then clean_numeric_series s else s).
  set (h2 := fun (c : string) (s : series) =>
               if kind_eqb Categorical (kind_of c s)
               then clean_categorical_series (h1 c s) else h1 c s).
  set (h3 := fun (c : string) (s : series) =>
               if kind_eqb Date (kind_of c s)
               then clean_date_series (h2 c s) else h2 c s).
  assert (P1 : clean_columns clean_numeric_series (kind_list Numeric st) df
               = map (fun cs => (fst cs, h1 (fst cs) (snd cs))) df).
  { pose proof (cleaning_pass df Numeric clean_numeric_series (fun _ s => s) Hn) as H.
    cbn beta in H.
    replace (map (fun cs : string * series => (fst cs, snd cs)) df) with df in H;
      [exact H|].
    rewrite <- (map_id df) at 1. apply map_ext. now intros [c s]. }
  rewrite P1.
  unfold st at 1. rewrite (cleaning_pass df Categorical clean_categorical_series h1 Hn).
  change (map (fun cs : string * series =>
                 (fst cs, if kind_eqb Categorical (kind_of (fst cs) (snd cs))
                          then clean_categorical_series (h1 (fst cs) (snd cs))
                          else h1 (fst cs) (snd cs))) df)
    with (map (fun cs : string * series => (fst cs, h2 (fst cs) (snd cs))) df).
  unfold st at 1. rewrite (cleaning_pass df Date clean_date_series h2 Hn).
  change (map (fun cs : string * series =>
                 (fst cs, if kind_eqb Date (kind_of (fst cs) (snd cs))
                          then clean_date_series (h2 (fst cs) (snd cs))
                          else h2 (fst cs) (snd cs))) df)
    with (map (fun cs : string * series => (fst cs, h3 (fst cs) (snd cs))) df).
  unfold st. rewrite (cleaning_pass df Text clean_text_series h3 Hn).
  subst h1 h2 h3.
  apply map_ext. intros [c s]. cbn [fst snd].
  now destruct (kind_of c s).
Qed.

Lemma fill_missing_cleaned (df : frame) (c : string) (s : series) :
  NoDup (map fst df) -> In (c, s) df ->
  fill_missing (_detect_column_types __init__ df) c
               (cleaned_series (kind_of c s) s)
  = Some (finished_series (kind_of c s) s).
Proof.
  intros Hn Hin. unfold fill_missing.
  change (numeric_columns ?x) with (kind_list Numeric x).
  change (categorical_columns ?x) with (kind_list Categorical x).
  change (date_columns ?x) with (kind_list Date x).
  rewrite !(kind_membership df c s _ Hn Hin).
  destruct (kind_of c s); cbn [kind_eqb cleaned_series finished_series].
  - now rewrite clean_numeric_series_blanked.
  - unfold clean_categorical_series.
    now destruct (mode (replace_empty (map Py.title (map Py.strip (astype_str s))))).
  - unfold filled_both_ways. now destruct (clean_date_series s).
  - reflexivity.
Qed.

Lemma handle_missing_map (st : cleaner) (g : string -> series -> series) :
  forall d,
    (forall c s, In (c, s) d -> fill_missing st c s = Some (g c s)) ->
    _handle_missing_values st d
    = Some (map (fun cs => (fst cs, g (fst cs) (snd cs))) d).
Proof.
  induction d as [|[c s] d IH]; intro H; simpl; [reflexivity|].
  rewrite (H c s (or_introl eq_refl)), IH; [reflexivity|].
  intros c' s' Hin. apply H. now right.
Qed.

(** On a frame with distinct column names a fresh cleaner handles every
    column by the rules of its own kind: the frame before the duplicate
    rows are dropped is [finished df]. *)
Lemma clean_by_columns (df : frame) :
  NoDup (map fst df) -> clean df = Some (drop_duplicates (finished df)).
Proof.
  intro Hn. unfold clean, clean_data. cbn [snd].
  rewrite (all_passes df Hn).
  set (st := _detect_column_types __init__ df).
  assert (E : _handle_missing_values st
                (map (fun cs => (fst cs,
                                 cleaned_series (kind_of (fst cs) (snd cs)) (snd cs)))
                     df)
              = Some (finished df)).
  { unfold finished. clear - Hn.
    assert (G : forall d',
               incl d' df ->
               _handle_missing_values (_detect_column_types __init__ df)
                 (map (fun cs => (fst cs,
                                  cleaned_series (kind_of (fst cs) (snd cs)) (snd cs)))
                      d')
               = Some (map (fun cs => (fst cs,
                                       finished_series (kind_of (fst cs) (snd cs))
                                                       (snd cs))) d')).
    { induction d' as [|[c s] d' IH]; intro Hincl; [reflexivity|].
      cbn [map fst snd _handle_missing_values].
      rewrite (fill_missing_cleaned df c s Hn (Hincl _ (or_introl eq_refl))).
      rewrite IH; [reflexivity|].
      intros x Hx. apply Hincl. now right. }
    apply G. apply incl_refl. }
  subst st. rewrite E. reflexivity.
Qed.

End WithPandas.

End ColumnFacts.

(** ** Present values and their sort *)

Module SortFacts.
Import Frame FrameFacts FilterFacts DataCleaner CleanerFacts ColumnFacts.

Lemma In_dropna {A : Type} (x : A) (l : list (option A)) :
  In x (dropna l) <-> In (Some x) l.
Proof.
  induction l as [|[y|] l IH]; simpl.
  - tauto.
  - rewrite IH. split; intros [E|H]; auto; left; congruence.
  - rewrite IH. split; [now right | intros [E|H]; [discriminate | exact H]].
Qed.

(** *** The sort *)

Lemma In_Qinsert (z x : Q) (l : list Q) :
  In z (Qinsert x l) <-> z = x \/ In z l.
Proof.
  induction l as [|y l IH]; simpl.
  - split; intros [E|H]; auto.
  - destruct (Qle_bool x y); simpl; [split; intros [E|H]; auto|].
    rewrite IH. tauto.
Qed.

Lemma In_Qsort (z : Q) (l : list Q) : In z (Qsort l) <-> In z l.
Proof.
  unfold Qsort. induction l as [|x l IH]; simpl; [tauto|].
  rewrite In_Qinsert, IH. split; intros [E|H]; auto.
Qed.

Lemma length_Qinsert (x : Q) (l : list Q) :
  List.length (Qinsert x l) = S (List.length l).
Proof.
  induction l as [|y l IH]; simpl; [reflexivity|].
  destruct (Qle_bool x y); simpl; [reflexivity | now rewrite IH].
Qed.

Lemma length_Qsort (l : list Q) : List.length (Qsort l) = List.length l.
Proof.
  unfold Qsort. induction l as [|x l IH]; simpl; [reflexivity|].
  now rewrite length_Qinsert, IH.
Qed.

Lemma Qinsert_sorted (x : Q) (l : list Q) :
  StronglySorted Qle l -> StronglySorted Qle (Qinsert x l).
Proof.
  induction l as [|y l IH]; simpl; intro Hs.
  - repeat constructor.
  - inversion Hs as [|? ? Hl Hy]; subst.
    destruct (Qle_bool x y) eqn:E.
    + apply Qle_bool_iff in E. constructor; [exact Hs|].
      constructor; [exact E|].
      rewrite Forall_forall in *. intros z Hz.
      eapply Qle_trans; [exact E | now apply Hy].
    + assert (Hyx : (y <= x)%Q).
      { apply Qlt_le_weak, Qnot_le_lt. intro H.
        apply Qle_bool_iff in H. congruence. }
      constructor; [now apply IH|].
      rewrite Forall_forall in *. intros z Hz.
      apply In_Qinsert in Hz as [->|Hz]; [exact Hyx | now apply Hy].
Qed.

Lemma Qsort_sorted (l : list Q) : StronglySorted Qle (Qsort l).
Proof.
  unfold Qsort. induction l as [|x l IH]; simpl;
    [constructor | now apply Qinsert_sorted].
Qed.

End SortFacts.

(** ** What a cleaned frame looks like *)

Module CleanedFacts.
Import Frame FrameFacts FilterFacts DataCleaner CleanerFacts ColumnFacts SortFacts.

(** *** Selections of rows *)

Lemma length_select {A : Type} (mask : list bool) :
  forall l : list A, List.length (select mask l) <= List.length l.
Proof.
  induction mask as [|b mask IH]; intros [|x l]; simpl; try lia.
  specialize (IH l). destruct b; simpl; lia.
Qed.

Lemma In_select {A : Type} (mask : list bool) :
  forall (l : list A) (x : A), In x (select mask l) -> In x l.
Proof.
  induction mask as [|b mask IH]; intros [|y l] x; simpl; try tauto.
  destruct b; simpl; intros H.
  - destruct H as [E|H]; [now left | right; now apply IH].
  - right. now apply IH.
Qed.

Lemma select_map {A B : Type} (f : A -> B) (mask : list bool) :
  forall l : list A, select mask (map f l) = map f (select mask l).
Proof.
  induction mask as [|b mask IH]; intros [|x l]; simpl; try reflexivity.
  destruct b; simpl; now rewrite IH.
Qed.

Lemma cells_select_series (mask : list bool) (s : series) :
  cells (select_series mask s) = select mask (cells s).
Proof. destruct s; simpl; now rewrite select_map. Qed.

Lemma names_select_rows (mask : list bool) (d : frame) :
  map fst (select_rows mask d) = map fst d.
Proof.
  unfold select_rows. rewrite map_map. apply map_ext. now intros [c s].
Qed.

Lemma column_select_rows (mask : list bool) (d : frame) (c : string) :
  column (select_rows mask d) c = option_map (select_series mask) (column d c).
Proof.
  unfold column, select_rows.
  induction d as [|[c' s] d IH]; simpl; [reflexivity|].
  destruct (String.eqb c c'); [reflexivity | exact IH].
Qed.

Lemma nrows_select_rows (mask : list bool) (d : frame) :
  nrows (select_rows mask d) <= nrows d.
Proof.
  destruct d as [|[c s] d]; simpl; [lia|].
  unfold series_len. rewrite cells_select_series. apply length_select.
Qed.

Lemma forallb_of_map {A B : Type} (f : A -> B) (p : B -> bool) (l : list A) :
  forallb p (map f l) = forallb (fun x => p (f x)) l.
Proof. induction l as [|x l IH]; simpl; [reflexivity | now rewrite IH]. Qed.

Lemma forallb_same {A : Type} (p q : A -> bool) (l : list A) :
  (forall x, p x = q x) -> forallb p l = forallb q l.
Proof.
  intro H. induction l as [|x l IH]; simpl; [reflexivity | now rewrite H, IH].
Qed.

(** A column without missing values. *)
Definition complete (s : series) : bool :=
  forallb (fun x => negb (isna x)) (cells s).

Lemma complete_select_series (mask : list bool) (s : series) :
  complete s = true -> complete (select_series mask s) = true.
Proof.
  unfold complete. rewrite cells_select_series, !forallb_forall.
  intros H x Hx. apply H. now apply In_select in Hx.
Qed.

Lemma complete_Float64 (l : list (option Q)) :
  complete (Float64 l) = all_present l.
Proof.
  unfold complete, all_present. cbn [cells]. rewrite forallb_of_map.
  apply forallb_same. now intros [x|].
Qed.

Lemma complete_Object (l : list (option string)) :
  complete (Object l) = all_present l.
Proof.
  unfold complete, all_present. cbn [cells]. rewrite forallb_of_map.
  apply forallb_same. now intros [x|].
Qed.

Lemma complete_Datetime64 (l : list (option Z)) :
  complete (Datetime64 l) = all_present l.
Proof.
  unfold complete, all_present. cbn [cells]. rewrite forallb_of_map.
  apply forallb_same. now intros [x|].
Qed.

(** *** Filling *)

Lemma all_present_fillna_Some {A : Type} (v : A) (l : list (option A)) :
  all_present (fillna (Some v) l) = true.
Proof.
  unfold all_present, fillna. rewrite forallb_of_map.
  apply forallb_forall. now intros [x|].
Qed.

Lemma length_fillna {A : Type} (v : option A) (l : list (option A)) :
  List.length (fillna v l) = List.length l.
Proof. unfold fillna. apply length_map. Qed.

Lemma all_present_ffill_from {A : Type} (l : list (option A)) :
  forall x, all_present (ffill_from (Some x) l) = true.
Proof.
  induction l as [|[y|] l IH]; intro x; simpl; [reflexivity| |]; apply IH.
Qed.

Lemma length_ffill_from {A : Type} (l : list (option A)) :
  forall o, List.length (ffill_from o l) = List.length l.
Proof.
  induction l as [|[y|] l IH]; intro o; simpl; [reflexivity| |]; now rewrite IH.
Qed.

Lemma length_bfill_ffill {A : Type} (l : list (option A)) :
  List.length (bfill (ffill l)) = List.length l.
Proof.
  unfold bfill, ffill.
  now rewrite length_rev, length_ffill_from, length_rev, length_ffill_from.
Qed.

Lemma all_present_rev {A : Type} (l : list (option A)) :
  all_present (rev l) = all_present l.
Proof.
  unfold all_present.
  destruct (forallb _ l) eqn:E.
  - rewrite forallb_forall in *. intros x Hx. apply E. now apply in_rev.
  - destruct (forallb _ (rev l)) eqn:E'; [|reflexivity].
    rewrite forallb_forall in E'. rewrite <- E. symmetry.
    apply forallb_forall. intros x Hx. apply E'. now apply in_rev in Hx.
Qed.

(** After a forward fill, the last value is present as soon as some value
    is. *)
Lemma ffill_ends_present {A : Type} (l : list (option A)) :
  dropna l <> [] ->
  forall o, exists y t, rev (ffill_from o l) = Some y :: t.
Proof.
  induction l as [|a l IH]; intros Hne o; [now contradiction Hne|].
  destruct (dropna l) as [|z zs] eqn:El.
  - destruct a as [x|]; [|simpl in Hne; now rewrite El in Hne].
    simpl. pose proof (all_present_ffill_from l x) as Hp.
    assert (Hall : all_present (rev (Some x :: ffill_from (Some x) l)) = true).
    { rewrite all_present_rev. simpl. exact Hp. }
    simpl rev in Hall.
    destruct (rev (ffill_from (Some x) l) ++ [Some x]) as [|[y|] t] eqn:Er.
    + destruct (rev (ffill_from (Some x) l)); discriminate.
    + now exists y, t.
    + discriminate.
  - assert (Hl : z :: zs <> []) by discriminate.
    destruct a as [x|]; simpl.
    + destruct (IH Hl (Some x)) as [y [t E]]. rewrite E. now exists y, (t ++ [Some x]).
    + destruct (IH Hl o) as [y [t E]]. rewrite E. now exists y, (t ++ [o]).
Qed.

Lemma all_present_bfill_ffill {A : Type} (l : list (option A)) :
  dropna l <> [] -> all_present (bfill (ffill l)) = true.
Proof.
  intro Hne. unfold bfill, ffill.
  destruct (ffill_ends_present l Hne None) as [y [t E]].
  rewrite all_present_rev. rewrite E. simpl.
  apply all_present_ffill_from.
Qed.

Lemma ffill_all_missing {A : Type} (l : list (option A)) :
  dropna l = [] -> ffill_from None l = l.
Proof.
  induction l as [|[x|] l IH]; simpl; intro H; [reflexivity|discriminate|].
  now rewrite IH.
Qed.

Lemma dropna_rev_nil {A : Type} (l : list (option A)) :
  dropna l = [] -> dropna (rev l) = [].
Proof.
  intro H. destruct (dropna (rev l)) as [|x xs] eqn:E; [reflexivity|].
  assert (Hin : In x (dropna (rev l))) by (rewrite E; now left).
  apply In_dropna in Hin. apply in_rev in Hin. apply In_dropna in Hin.
  now rewrite H in Hin.
Qed.

Lemma bfill_ffill_all_missing {A : Type} (l : list (option A)) :
  dropna l = [] -> bfill (ffill l) = l.
Proof.
  intro H. unfold bfill, ffill. rewrite (ffill_all_missing l H).
  rewrite (ffill_all_missing (rev l)) by now apply dropna_rev_nil.
  apply rev_involutive.
Qed.

Section WithPandas.
Context {pandas : Pandas} {numerics : Numerics}.

Lemma median_present (l : list (option Q)) :
  dropna l <> [] -> exists m, median l = Some m.
Proof.
  intro Hne. unfold median.
  destruct (Qsort (dropna l)) as [|x v] eqn:E.
  - exfalso. apply Hne. apply length_zero_iff_nil.
    rewrite <- length_Qsort. now rewrite E.
  - destruct (Nat.odd (List.length (x :: v))); eexists; reflexivity.
Qed.

(** *** Lengths *)

Lemma length_to_numeric (s : series) :
  List.length (to_numeric s) = series_len s.
Proof. unfold series_len. destruct s; simpl; now rewrite ?length_map. Qed.

Lemma length_astype_str (s : series) :
  List.length (astype_str s) = series_len s.
Proof. unfold series_len. destruct s; simpl; now rewrite ?length_map. Qed.

Lemma series_len_clean_date (s : series) :
  series_len (clean_date_series s) = series_len s.
Proof.
  unfold series_len. destruct s as [l|l|l]; simpl; [|reflexivity|].
  - destruct (to_datetime_float l); simpl; now rewrite ?length_map, ?length_seq.
  - destruct (to_datetime_object l); simpl; now rewrite ?length_map, ?length_seq.
Qed.

Lemma series_len_filled_both_ways (s : series) :
  series_len (filled_both_ways s) = series_len s.
Proof.
  unfold series_len. destruct s; simpl; now rewrite !length_map, length_bfill_ffill.
Qed.

Lemma series_len_finished (k : kind) (s : series) :
  series_len (finished_series k s) = series_len s.
Proof.
  destruct k; cbn [finished_series].
  - unfold series_len at 1. cbn [cells].
    rewrite length_map, length_fillna. unfold blanked.
    now rewrite length_map, length_to_numeric.
  - unfold series_len at 1. cbn [cells].
    unfold replace_empty.
    now rewrite length_map, length_fillna, !length_map, length_astype_str.
  - now rewrite series_len_filled_both_ways, series_len_clean_date.
  - unfold series_len at 1. cbn [cells].
    unfold replace_empty.
    now rewrite length_map, length_fillna, !length_map, length_astype_str.
Qed.

Lemma names_finished (df : frame) : map fst (finished df) = map fst df.
Proof. unfold finished. rewrite map_map. apply map_ext. now intros [c s]. Qed.

Lemma nrows_finished (df : frame) : nrows (finished df) = nrows df.
Proof. destruct df as [|[c s] df]; [reflexivity|]. apply series_len_finished. Qed.

Lemma rectangular_finished (df : frame) :
  rectangular df = true -> rectangular (finished df) = true.
Proof.
  unfold rectangular. rewrite nrows_finished. unfold finished.
  rewrite forallb_of_map. intro H. rewrite forallb_forall in *.
  intros [c s] Hin. cbn [fst snd]. rewrite series_len_finished.
  now apply (H (c, s)).
Qed.

Lemma rectangular_select_rows (mask : list bool) (d : frame) :
  rectangular d = true -> List.length mask = nrows d ->
  rectangular (select_rows mask d) = true.
Proof.
  intros Hr Hm. unfold rectangular in *.
  assert (G : forall s, series_len s = nrows d ->
                        series_len (select_series mask s)
                        = List.length (filter (fun b : bool => b) mask)).
  { intros s Hs. unfold series_len in *. rewrite cells_select_series.
    rewrite <- Hm in Hs. clear - Hs. revert Hs. generalize (cells s) as l.
    induction mask as [|b mask IH]; intros [|x l] H; simpl in *; try lia.
    destruct b; simpl; rewrite IH; lia. }
  destruct d as [|[c0 s0] d]; [reflexivity|].
  rewrite forallb_forall in Hr.
  assert (H0 : series_len s0 = nrows ((c0, s0) :: d)) by reflexivity.
  unfold select_rows. rewrite forallb_of_map. apply forallb_forall.
  intros [c s] Hin. cbn [fst snd map nrows].
  rewrite (G s0 H0). apply Nat.eqb_eq. apply G.
  specialize (Hr (c, s) Hin). now apply Nat.eqb_eq in Hr.
Qed.

Lemma length_rows (d : frame) : List.length (rows d) = nrows d.
Proof. unfold rows. now rewrite length_map, length_seq. Qed.

(** X8. On a frame with distinct column names [clean_data] (on a fresh
    cleaner) does not raise; it returns the same columns, under the same
    names and in the same order, with at most as many rows as before, and
    columns of equal length stay of equal length. *)
Theorem cleaning_keeps_columns_and_adds_no_rows (df : frame) :
  NoDup (map fst df) ->
  exists d,
    clean df = Some d
    /\ map fst d = map fst df
    /\ nrows d <= nrows df
    /\ (rectangular df = true -> rectangular d = true).
Proof.
  intro Hn. exists (drop_duplicates (finished df)).
  split; [now apply clean_by_columns|].
  unfold drop_duplicates. split; [|split].
  - now rewrite names_select_rows, names_finished.
  - rewrite <- (nrows_finished df). apply nrows_select_rows.
  - intro Hr. apply rectangular_select_rows.
    + now apply rectangular_finished.
    + now rewrite length_first_occurrences, length_rows.
Qed.

(** *** Missing values *)

Lemma all_missing_dropna {A : Type} (f : option A -> cell) (l : list (option A)) :
  (forall x, isna (f x) = match x with Some _ => false | None => true end) ->
  dropna l = [] -> forallb isna (map f l) = true.
Proof.
  intros Hf E. rewrite forallb_of_map. apply forallb_forall.
  intros [y|] Hy; [|now rewrite Hf].
  apply In_dropna in Hy. now rewrite E in Hy.
Qed.

Lemma fillna_None {A : Type} (l : list (option A)) : fillna None l = l.
Proof.
  unfold fillna. induction l as [|[x|] l IH]; simpl; [reflexivity| |];
    now rewrite IH.
Qed.

(** A column is left either without a missing value or without a value:
    the latter when the outlier test blanks every number of a numeric
    column (its median is then NaN and fills nothing), or when no value of
    a date column parses. *)
Lemma finished_complete (c : string) (s : series) :
  complete (finished_series (kind_of c s) s) = true
  \/ ((kind_of c s = Numeric \/ kind_of c s = Date)
      /\ forallb isna (cells (finished_series (kind_of c s) s)) = true).
Proof.
  destruct (kind_of c s) eqn:Ek; cbn [finished_series].
  - destruct (dropna (blanked s)) as [|x xs] eqn:E.
    + right. split; [now left|].
      assert (Hm : median (blanked s) = None)
        by (unfold median; rewrite E; reflexivity).
      rewrite Hm, fillna_None.
      cbn [cells]. now apply all_missing_dropna.
    + left. rewrite complete_Float64.
      destruct (median_present (blanked s)) as [m Hm]; [now rewrite E|].
      rewrite Hm. apply all_present_fillna_Some.
  - left. rewrite complete_Object. apply all_present_fillna_Some.
  - destruct (clean_date_series s) as [l|l|l]; cbn [filled_both_ways cells].
    + destruct (dropna l) as [|x xs] eqn:E.
      * right. split; [now right|]. rewrite (bfill_ffill_all_missing l E).
        now apply all_missing_dropna.
      * left. rewrite complete_Float64. apply all_present_bfill_ffill.
        rewrite E. discriminate.
    + destruct (dropna l) as [|x xs] eqn:E.
      * right. split; [now right|]. rewrite (bfill_ffill_all_missing l E).
        now apply all_missing_dropna.
      * left. rewrite complete_Datetime64. apply all_present_bfill_ffill.
        rewrite E. discriminate.
    + destruct (dropna l) as [|x xs] eqn:E.
      * right. split; [now right|]. rewrite (bfill_ffill_all_missing l E).
        now apply all_missing_dropna.
      * left. rewrite complete_Object. apply all_present_bfill_ffill.
        rewrite E. discriminate.
  - left. rewrite complete_Object. apply all_present_fillna_Some.
Qed.

Lemma column_finished (df : frame) (c : string) (s : series) :
  NoDup (map fst df) -> In (c, s) df ->
  column (finished df) c = Some (finished_series (kind_of c s) s).
Proof.
  intros Hn Hin. apply column_of_In; [now rewrite names_finished|].
  unfold finished. apply in_map_iff. now exists (c, s).
Qed.

Lemma column_cleaned (df : frame) (c : string) (s : series) :
  NoDup (map fst df) -> In (c, s) df ->
  exists mask,
    clean df = Some (select_rows mask (finished df))
    /\ column (select_rows mask (finished df)) c
       = Some (select_series mask (finished_series (kind_of c s) s)).
Proof.
  intros Hn Hin.
  exists (first_occurrences (list_eqb (option_eqb cell_eqb)) [] (rows (finished df))).
  split; [now apply clean_by_columns|].
  now rewrite column_select_rows, (column_finished df c s Hn Hin).
Qed.

(** X9. After [clean_data] (fresh cleaner, distinct column names) every
    column either holds no missing value or holds nothing but missing
    values.  The second case arises only for a column filed under numeric
    (the outlier test blanked every number, so the median that should fill
    the holes is itself NaN) or under dates (no value parsed as a date): a
    column filed under categorical or text never keeps a missing value. *)
Theorem cleaned_columns_are_complete_or_empty
        (df : frame) (c : string) (s : series) :
  NoDup (map fst df) -> In (c, s) df ->
  exists d s',
    clean df = Some d
    /\ column d c = Some s'
    /\ (complete s' = true
        \/ ((kind_of c s = Numeric \/ kind_of c s = Date)
            /\ forallb isna (cells s') = true)).
Proof.
  intros Hn Hin.
  destruct (column_cleaned df c s Hn Hin) as [mask [Hclean Hcol]].
  eexists. eexists. split; [exact Hclean|]. split; [exact Hcol|].
  destruct (finished_complete c s) as [Hc|[Hk Hall]].
  - left. now apply complete_select_series.
  - right. split; [exact Hk|]. rewrite cells_select_series.
    rewrite forallb_forall in *. intros x Hx. apply Hall.
    now apply In_select in Hx.
Qed.

End WithPandas.

(** Five returned parcels, with a row that holds no value and a row that
    repeats the first. *)
Definition returns : frame :=
  [ ("amount", Float64 [Some 3%Q; None; Some 3%Q; Some 5%Q; Some 4%Q]);
    ("status", Object [Some "late"; None; Some "late"; Some "late";
                       Some "on time"]);
    ("note", Object [Some "box damaged"; None; Some "box damaged";
                     Some "wrong size"; Some "changed mind"]) ].

Lemma cleaning_keeps_columns_and_adds_no_rows_witness :
  exists d,
    clean (pandas := plain_pandas) (numerics := plain_numerics) returns = Some d
    /\ map fst d = map fst returns
    /\ nrows d <= nrows returns
    /\ (rectangular returns = true -> rectangular d = true).
Proof.
  apply (cleaning_keeps_columns_and_adds_no_rows
           (pandas := plain_pandas) (numerics := plain_numerics) returns).
  repeat constructor; simpl; intuition discriminate.
Defined.

Lemma cleaned_columns_are_complete_or_empty_witness :
  exists d s',
    clean (pandas := plain_pandas) (numerics := plain_numerics) returns = Some d
    /\ column d "amount" = Some s'
    /\ (complete s' = true
        \/ ((kind_of (pandas := plain_pandas) "amount"
                     (Float64 [Some 3%Q; None; Some 3%Q; Some 5%Q; Some 4%Q])
             = Numeric
             \/ kind_of (pandas := plain_pandas) "amount"
                        (Float64 [Some 3%Q; None; Some 3%Q; Some 5%Q; Some 4%Q])
                = Date)
            /\ forallb isna (cells s') = true)).
Proof.
  apply (cleaned_columns_are_complete_or_empty
           (pandas := plain_pandas) (numerics := plain_numerics) returns).
  - repeat constructor; simpl; intuition discriminate.
  - simpl. tauto.
Defined.

End CleanedFacts.

Module DuplicateFacts.
Import Frame FrameFacts FilterFacts DataCleaner CleanerFacts ColumnFacts SortFacts.
Import CleanedFacts.

(** *** Rows of a selection *)

(** The rows of a frame, from the cells of its columns. *)
Definition rows_of (cols : list (list cell)) : list (list (option cell)) :=
  map (fun i => map (fun col => nth_error col i) cols)
      (seq 0 (match cols with [] => 0 | col :: _ => List.length col end)).

Lemma rows_rows_of (d : frame) :
  rows d = rows_of (map (fun cs => cells (snd cs)) d).
Proof.
  unfold rows, rows_of.
  replace (match map (fun cs => cells (snd cs)) d with
           | [] => 0 | col :: _ => List.length col end) with (nrows d)
    by (destruct d as [|[c s] d]; reflexivity).
  apply map_ext. intro i. unfold row_at. rewrite map_map.
  apply map_ext. now intros [c s].
Qed.

Lemma select_nil {A : Type} (mask : list bool) : select mask (@nil A) = [].
Proof. now destruct mask. Qed.

Lemma rows_of_cons (x : cell) (rest : list cell) (others : list (list cell)) :
  rows_of ((x :: rest) :: others)
  = map (fun col => nth_error col 0) ((x :: rest) :: others)
    :: rows_of (map (@tl cell) ((x :: rest) :: others)).
Proof.
  unfold rows_of. cbn [List.length seq map tl]. f_equal.
  rewrite <- seq_shift, map_map. apply map_ext. intro i.
  cbn [nth_error]. f_equal. rewrite map_map. apply map_ext.
  intros [|y col]; [now destruct i | reflexivity].
Qed.

Lemma rows_of_select (mask : list bool) :
  forall cols,
    Forall (fun col => List.length col = List.length mask) cols ->
    rows_of (map (select mask) cols) = select mask (rows_of cols).
Proof.
  induction mask as [|b mask IH]; intros cols Hlen.
  - destruct cols as [|col cols]; [reflexivity|].
    inversion Hlen as [|? ? Hc _]; subst.
    apply length_zero_iff_nil in Hc. subst col. reflexivity.
  - destruct cols as [|col cols]; [reflexivity|].
    inversion Hlen as [|? ? Hc Hcs]; subst.
    destruct col as [|x rest]; [discriminate|].
    rewrite rows_of_cons.
    assert (Htl : Forall (fun col => List.length col = List.length mask)
                         (map (@tl cell) ((x :: rest) :: cols))).
    { apply Forall_forall. intros col Hin.
      apply in_map_iff in Hin as [col' [<- Hin']].
      rewrite Forall_forall in Hlen. specialize (Hlen col' Hin').
      destruct col'; simpl in *; lia. }
    specialize (IH _ Htl). rewrite map_map in IH.
    destruct b.
    + assert (E : map (select (true :: mask)) ((x :: rest) :: cols)
                  = (x :: select mask rest)
                    :: map (select (true :: mask)) cols) by reflexivity.
      rewrite E, rows_of_cons.
      change (select (true :: mask)
                (map (fun col => nth_error col 0) ((x :: rest) :: cols)
                 :: rows_of (map (@tl cell) ((x :: rest) :: cols))))
        with (map (fun col => nth_error col 0) ((x :: rest) :: cols)
              :: select mask (rows_of (map (@tl cell) ((x :: rest) :: cols)))).
      rewrite <- IH. f_equal.
      * cbn [map nth_error]. f_equal. rewrite map_map. apply map_ext_in.
        intros col Hin. rewrite Forall_forall in Hcs. specialize (Hcs col Hin).
        destruct col; [discriminate | reflexivity].
      * f_equal. cbn [map tl]. f_equal. rewrite !map_map. apply map_ext_in.
        intros col Hin. rewrite Forall_forall in Hcs. specialize (Hcs col Hin).
        destruct col; [discriminate | reflexivity].
    + change (select (false :: mask)
                (map (fun col => nth_error col 0) ((x :: rest) :: cols)
                 :: rows_of (map (@tl cell) ((x :: rest) :: cols))))
        with (select mask (rows_of (map (@tl cell) ((x :: rest) :: cols)))).
      rewrite <- IH. f_equal.
      cbn [map tl select]. f_equal. apply map_ext_in.
      intros col Hin. rewrite Forall_forall in Hcs. specialize (Hcs col Hin).
      destruct col; [discriminate | reflexivity].
Qed.

Lemma rows_select_rows (mask : list bool) (d : frame) :
  rectangular d = true -> List.length mask = nrows d ->
  rows (select_rows mask d) = select mask (rows d).
Proof.
  intros Hr Hm. rewrite !rows_rows_of.
  rewrite <- rows_of_select.
  - f_equal. unfold select_rows. rewrite !map_map. apply map_ext.
    intros [c s]. cbn [snd]. apply cells_select_series.
  - apply Forall_forall. intros col Hin.
    apply in_map_iff in Hin as [[c s] [<- Hin]].
    unfold rectangular in Hr. rewrite forallb_forall in Hr.
    specialize (Hr _ Hin). apply Nat.eqb_eq in Hr. cbn [snd] in *.
    change (series_len s = List.length mask). now rewrite Hm.
Qed.

Lemma first_occurrences_select {A : Type} (eqb : A -> A -> bool) (l : list A) :
  forall seen,
    forallb (fun b : bool => b)
            (first_occurrences eqb seen (select (first_occurrences eqb seen l) l))
    = true.
Proof.
  induction l as [|x l IH]; intro seen; [reflexivity|].
  cbn [first_occurrences]. destruct (mem eqb x seen) eqn:E.
  - cbn [select]. apply IH.
  - cbn [select first_occurrences]. rewrite E. cbn [forallb andb]. apply IH.
Qed.

(** [df.drop_duplicates()] leaves no row that equals an earlier row. *)
Lemma no_duplicates_after_drop (d : frame) :
  rectangular d = true ->
  forallb (fun b : bool => b)
          (first_occurrences (list_eqb (option_eqb cell_eqb)) []
                             (rows (drop_duplicates d))) = true.
Proof.
  intro Hr. unfold drop_duplicates.
  rewrite rows_select_rows;
    [| exact Hr | now rewrite length_first_occurrences, length_rows].
  apply first_occurrences_select.
Qed.

Section WithPandas.
Context {pandas : Pandas} {numerics : Numerics}.

(** X10. A cleaned frame has no duplicate rows: on a frame with distinct
    column names and columns of equal length, [duplicated()] is false on
    every row of the result of [clean_data], and dropping duplicates again
    changes nothing. *)
Theorem cleaned_frame_has_no_duplicate_rows (df : frame) :
  NoDup (map fst df) -> rectangular df = true ->
  exists d,
    clean df = Some d
    /\ forallb (fun b : bool => b)
               (first_occurrences (list_eqb (option_eqb cell_eqb)) [] (rows d))
       = true
    /\ drop_duplicates d = d.
Proof.
  intros Hn Hr. exists (drop_duplicates (finished df)).
  split; [now apply clean_by_columns|].
  assert (Hrf : rectangular (finished df) = true) by now apply rectangular_finished.
  assert (Hnd : forallb (fun b : bool => b)
                  (first_occurrences (list_eqb (option_eqb cell_eqb)) []
                                     (rows (drop_duplicates (finished df)))) = true)
    by now apply no_duplicates_after_drop.
  split; [exact Hnd|].
  apply drop_duplicates_id; [|exact Hnd].
  unfold drop_duplicates.
  apply (rectangular_select_rows _ _ Hrf).
  now rewrite length_first_occurrences, length_rows.
Qed.

(** X11. The cleaned values of a column depend on that column alone, up
    to the rows dropped as duplicates: two frames (each with distinct
    column names) that hold the same column are cleaned to frames that hold
    the same column before [drop_duplicates] runs. *)
Theorem columns_are_cleaned_independently
        (df1 df2 : frame) (c : string) (s : series) :
  NoDup (map fst df1) -> NoDup (map fst df2) ->
  In (c, s) df1 -> In (c, s) df2 ->
  exists d1 d2 s',
    clean df1 = Some (drop_duplicates d1)
    /\ clean df2 = Some (drop_duplicates d2)
    /\ column d1 c = Some s'
    /\ column d2 c = Some s'.
Proof.
  intros Hn1 Hn2 Hin1 Hin2.
  exists (finished df1), (finished df2), (finished_series (kind_of c s) s).
  split; [now apply clean_by_columns|].
  split; [now apply clean_by_columns|].
  split; now apply column_finished.
Qed.

(** *** Missing text *)

Lemma nth_error_map_Some {A B : Type} (f : A -> B) (l : list A) (i : nat) (x : A) :
  nth_error l i = Some x -> nth_error (map f l) i = Some (f x).
Proof. intro H. now rewrite nth_error_map, H. Qed.

Lemma astype_str_missing (l : list (option string)) (i : nat) :
  nth_error l i = Some None -> nth_error (astype_str (Object l)) i = Some "nan".
Proof. intro H. cbn [astype_str]. now rewrite (nth_error_map_Some _ l i None H). Qed.

Lemma finished_missing_text (k : kind) (l : list (option string)) (i : nat) :
  nth_error l i = Some None ->
  match finished_series k (Object l) with
  | Object l' =>
      match k with
      | Categorical => nth_error l' i = Some (Some "Nan")
      | Text => nth_error l' i = Some (Some "Unknown")
      | _ => True
      end
  | _ => k = Numeric \/ k = Date
  end.
Proof.
  intro H. destruct k; cbn [finished_series].
  - now left.
  - unfold fillna, replace_empty.
    rewrite (nth_error_map_Some _ _ i (Some "Nan")); [reflexivity|].
    rewrite (nth_error_map_Some _ _ i "Nan"); [reflexivity|].
    rewrite (nth_error_map_Some _ _ i "nan"); [reflexivity|].
    rewrite (nth_error_map_Some _ _ i "nan"); [reflexivity|].
    now apply astype_str_missing.
  - destruct (filled_both_ways (clean_date_series (Object l))); auto.
  - unfold fillna, replace_empty.
    rewrite (nth_error_map_Some _ _ i None); [reflexivity|].
    rewrite (nth_error_map_Some _ _ i "nan"); [reflexivity|].
    rewrite (nth_error_map_Some _ _ i "nan"); [reflexivity|].
    now apply astype_str_missing.
Qed.

(** X12. A missing value of a categorical column is not imputed with the
    mode: [astype(str)] turns it into ['nan'] and [title()] into ['Nan'],
    which [replace] does not list, so it comes out as the category
    ['Nan']. *)
Theorem missing_category_becomes_Nan
        (df : frame) (c : string) (l : list (option string)) (i : nat) :
  NoDup (map fst df) -> In (c, Object l) df ->
  kind_of c (Object l) = Categorical ->
  nth_error l i = Some None ->
  exists d l',
    clean df = Some (drop_duplicates d)
    /\ column d c = Some (Object l')
    /\ nth_error l' i = Some (Some "Nan").
Proof.
  intros Hn Hin Hk Hi.
  pose proof (column_finished df c _ Hn Hin) as Hcol.
  pose proof (finished_missing_text Categorical l i Hi) as Hf.
  rewrite Hk in Hcol. cbn [finished_series] in Hcol, Hf.
  eexists. eexists. split; [now apply clean_by_columns|].
  split; [exact Hcol | exact Hf].
Qed.

(** X13. A missing value of a text column is filled with ['Unknown']; in
    particular a numeric or text column that holds no value at all is filed
    under text and comes out of [clean_data] as a column of ['Unknown']. *)
Theorem missing_text_becomes_Unknown
        (df : frame) (c : string) (s : series) :
  NoDup (map fst df) -> In (c, s) df ->
  (forall l i,
      s = Object l -> kind_of c s = Text -> nth_error l i = Some None ->
      exists d l',
        clean df = Some (drop_duplicates d)
        /\ column d c = Some (Object l')
        /\ nth_error l' i = Some (Some "Unknown"))
  /\ (is_datetime64_any_dtype s = false -> forallb isna (cells s) = true ->
      kind_of c s = Text
      /\ exists d l',
           clean df = Some d
           /\ column d c = Some (Object l')
           /\ Forall (fun v => v = Some "Unknown") l').
Proof.
  intros Hn Hin. split.
  - intros l i -> Hk Hi.
    pose proof (column_finished df c _ Hn Hin) as Hcol.
    pose proof (finished_missing_text Text l i Hi) as Hf.
    rewrite Hk in Hcol. cbn [finished_series] in Hcol, Hf.
    eexists. eexists. split; [now apply clean_by_columns|].
    split; [exact Hcol | exact Hf].
  - intros Hdt Hall.
    assert (Hk : kind_of c s = Text) by (unfold kind_of; now rewrite Hall).
    split; [exact Hk|].
    destruct (column_cleaned df c s Hn Hin) as [mask [Hclean Hcol]].
    rewrite Hk in Hcol. cbn [finished_series select_series] in Hcol.
    eexists. eexists. split; [exact Hclean|]. split; [exact Hcol|].
    apply Forall_forall. intros v Hv. apply In_select in Hv.
    unfold fillna, replace_empty in Hv.
    apply in_map_iff in Hv as [x [<- Hx]].
    apply in_map_iff in Hx as [t [<- Ht]].
    apply in_map_iff in Ht as [t0 [<- Ht0]].
    assert (E : t0 = "nan").
    { destruct s as [l|l|l]; [| discriminate |].
      - cbn [astype_str] in Ht0. apply in_map_iff in Ht0 as [[q|] [E Hq]];
          [|now symmetry].
        exfalso. cbn [cells] in Hall. rewrite forallb_forall in Hall.
        specialize (Hall (FloatCell (Some q))).
        assert (Hc : In (FloatCell (Some q)) (map FloatCell l))
          by (apply in_map_iff; now exists (Some q)).
        now apply Hall in Hc.
      - cbn [astype_str] in Ht0. apply in_map_iff in Ht0 as [[q|] [E Hq]];
          [|now symmetry].
        exfalso. cbn [cells] in Hall. rewrite forallb_forall in Hall.
        specialize (Hall (ObjectCell (Some q))).
        assert (Hc : In (ObjectCell (Some q)) (map ObjectCell l))
          by (apply in_map_iff; now exists (Some q)).
        now apply Hall in Hc. }
    subst t0. reflexivity.
Qed.

End WithPandas.

Lemma cleaned_frame_has_no_duplicate_rows_witness :
  exists d,
    clean (pandas := plain_pandas) (numerics := plain_numerics) returns = Some d
    /\ forallb (fun b : bool => b)
               (first_occurrences (list_eqb (option_eqb cell_eqb)) [] (rows d))
       = true
    /\ drop_duplicates d = d.
Proof.
  apply (cleaned_frame_has_no_duplicate_rows (pandas := plain_pandas) (numerics := plain_numerics) returns).
  - repeat constructor; simpl; intuition discriminate.
  - reflexivity.
Defined.

Lemma columns_are_cleaned_independently_witness :
  exists d1 d2 s',
    clean (pandas := plain_pandas) (numerics := plain_numerics) returns = Some (drop_duplicates d1)
    /\ clean (pandas := plain_pandas) (numerics := plain_numerics) (firstn 1 returns)
       = Some (drop_duplicates d2)
    /\ column d1 "amount" = Some s'
    /\ column d2 "amount" = Some s'.
Proof.
  apply (columns_are_cleaned_independently
           (pandas := plain_pandas) (numerics := plain_numerics) returns (firstn 1 returns) "amount"
           (Float64 [Some 3%Q; None; Some 3%Q; Some 5%Q; Some 4%Q])).
  - repeat constructor; simpl; intuition discriminate.
  - repeat constructor; simpl; intuition discriminate.
  - simpl. tauto.
  - simpl. tauto.
Defined.

Lemma missing_category_becomes_Nan_witness :
  exists d l',
    clean (pandas := plain_pandas) (numerics := plain_numerics) returns = Some (drop_duplicates d)
    /\ column d "status" = Some (Object l')
    /\ nth_error l' 1 = Some (Some "Nan").
Proof.
  apply (missing_category_becomes_Nan
           (pandas := plain_pandas) (numerics := plain_numerics) returns "status"
           [Some "late"; None; Some "late"; Some "late"; Some "on time"] 1).
  - repeat constructor; simpl; intuition discriminate.
  - simpl. tauto.
  - vm_compute. reflexivity.
  - reflexivity.
Defined.

Lemma missing_text_becomes_Unknown_witness :
  exists d l',
    clean (pandas := plain_pandas) (numerics := plain_numerics) returns = Some (drop_duplicates d)
    /\ column d "note" = Some (Object l')
    /\ nth_error l' 1 = Some (Some "Unknown").
Proof.
  apply (proj1 (missing_text_becomes_Unknown
                  (pandas := plain_pandas) (numerics := plain_numerics) returns "note"
                  (Object [Some "box damaged"; None; Some "box damaged";
                           Some "wrong size"; Some "changed mind"])
                  ltac:(repeat constructor; simpl; intuition discriminate)
                  ltac:(simpl; tauto))
               [Some "box damaged"; None; Some "box damaged";
                Some "wrong size"; Some "changed mind"] 1).
  - reflexivity.
  - vm_compute. reflexivity.
  - reflexivity.
Defined.

End DuplicateFacts.

(** ** Filters: synthesis and application *)

Module SelectionFacts.
Import Py PyFacts DictFacts Frame FrameFacts FilterBuilder FilterFacts.
Import CleanerFacts ColumnFacts SortFacts CleanedFacts DuplicateFacts.

(** *** Applying filters selects rows *)

(** [d] holds some of the rows of [df], in their order. *)
Definition rows_kept (d df : frame) : Prop :=
  exists mask, d = select_rows mask df.

(** The mask that selects with [m1] and then, among the rows kept, with
    [m2]. *)
Fixpoint and_then (m1 m2 : list bool) : list bool :=
  match m1 with
  | [] => []
  | false :: m1' => false :: and_then m1' m2
  | true :: m1' =>
      match m2 with
      | b :: m2' => b :: and_then m1' m2'
      | [] => false :: and_then m1' []
      end
  end.

Lemma select_and_then {A : Type} (m1 : list bool) :
  forall (m2 : list bool) (l : list A),
    select (and_then m1 m2) l = select m2 (select m1 l).
Proof.
  induction m1 as [|b m1 IH]; intros m2 l.
  - now destruct m2.
  - destruct l as [|x l].
    + destruct b, m2 as [|b2 m2]; cbn [and_then select];
        rewrite ?select_nil; now try destruct b2.
    + destruct b.
      * destruct m2 as [|b2 m2]; cbn [and_then select].
        -- rewrite IH. now destruct (select m1 l).
        -- rewrite IH. reflexivity.
      * cbn [and_then select]. apply IH.
Qed.

Lemma select_series_and_then (m1 m2 : list bool) (s : series) :
  select_series (and_then m1 m2) s = select_series m2 (select_series m1 s).
Proof. destruct s; simpl; now rewrite select_and_then. Qed.

Lemma select_rows_and_then (m1 m2 : list bool) (df : frame) :
  select_rows (and_then m1 m2) df = select_rows m2 (select_rows m1 df).
Proof.
  unfold select_rows. rewrite map_map. apply map_ext.
  intros [c s]. now rewrite select_series_and_then.
Qed.

Lemma select_repeat_true {A : Type} (n : nat) :
  forall l : list A, List.length l <= n -> select (repeat true n) l = l.
Proof.
  induction n as [|n IH]; intros [|x l] H; simpl in *; try reflexivity; try lia.
  rewrite IH; [reflexivity | lia].
Qed.

Lemma rows_kept_refl (df : frame) : rows_kept df df.
Proof.
  exists (repeat true (list_sum (map (fun cs => series_len (snd cs)) df))).
  unfold select_rows.
  rewrite <- (map_id df) at 1. apply map_ext_in. intros [c s] Hin. f_equal.
  assert (Hle : series_len s
                <= list_sum (map (fun cs => series_len (snd cs)) df)).
  { clear - Hin. induction df as [|[c' s'] df IH]; [contradiction|].
    simpl. destruct Hin as [E|Hin]; [inversion E; subst; lia|].
    specialize (IH Hin). lia. }
  unfold series_len in Hle at 1.
  destruct s as [l|l|l]; cbn [select_series cells] in *;
    rewrite length_map in Hle; now rewrite select_repeat_true.
Qed.

Lemma rows_kept_select (mask : list bool) (d df : frame) :
  rows_kept d df -> rows_kept (select_rows mask d) df.
Proof.
  intros [m ->]. exists (and_then m mask). now rewrite select_rows_and_then.
Qed.

Lemma rows_kept_trans (d1 d2 df : frame) :
  rows_kept d1 d2 -> rows_kept d2 df -> rows_kept d1 df.
Proof. intros [m ->] H. now apply rows_kept_select. Qed.

Section WithPandas.
Context {pandas : Pandas} {numerics : Numerics}.

Lemma filter_ge_kept df column bound d :
  filter_ge df column bound = Some d -> rows_kept d df.
Proof.
  unfold filter_ge. destruct (Frame.column df column) as [[l|l|l]|];
    try discriminate.
  intro H. inversion H. eexists. reflexivity.
Qed.

Lemma filter_le_kept df column bound d :
  filter_le df column bound = Some d -> rows_kept d df.
Proof.
  unfold filter_le. destruct (Frame.column df column) as [[l|l|l]|];
    try discriminate.
  intro H. inversion H. eexists. reflexivity.
Qed.

Lemma apply_range_kept df column current_min current_max d :
  _apply_range_filter df column current_min current_max = Some d ->
  rows_kept d df.
Proof.
  unfold _apply_range_filter.
  destruct current_min as [lo|].
  - destruct (filter_ge df column lo) as [d1|] eqn:E1; [|discriminate].
    apply filter_ge_kept in E1.
    destruct current_max as [hi|].
    + intro E2. apply filter_le_kept in E2. eapply rows_kept_trans; eassumption.
    + intro H. inversion H; subst. exact E1.
  - destruct current_max as [hi|].
    + apply filter_le_kept.
    + intro H. inversion H. apply rows_kept_refl.
Qed.

Lemma filter_date_kept after df column bound d :
  filter_date after df column bound = Some d -> rows_kept d df.
Proof.
  unfold filter_date. destruct (to_datetime_scalar bound); [|discriminate].
  destruct (Frame.column df column) as [[l|l|l]|]; try discriminate.
  intro H. inversion H. eexists. reflexivity.
Qed.

Lemma apply_date_kept df column current_start current_end d :
  _apply_date_filter df column current_start current_end = Some d ->
  rows_kept d df.
Proof.
  unfold _apply_date_filter.
  destruct (truthy current_start) as [lo|].
  - destruct (filter_date true df column lo) as [d1|] eqn:E1; [|discriminate].
    apply filter_date_kept in E1.
    destruct (truthy current_end) as [hi|].
    + intro E2. apply filter_date_kept in E2. eapply rows_kept_trans; eassumption.
    + intro H. inversion H; subst. exact E1.
  - destruct (truthy current_end) as [hi|].
    + apply filter_date_kept.
    + intro H. inversion H. apply rows_kept_refl.
Qed.

Lemma apply_categorical_kept df column selected d :
  _apply_categorical_filter df column selected = Some d -> rows_kept d df.
Proof.
  unfold _apply_categorical_filter. destruct selected as [|v vs].
  - intro H. inversion H. apply rows_kept_refl.
  - destruct (Frame.column df column); [|discriminate].
    intro H. inversion H. eexists. reflexivity.
Qed.

Lemma apply_text_kept df column search_value d :
  _apply_text_filter df column search_value = Some d -> rows_kept d df.
Proof.
  unfold _apply_text_filter. destruct search_value as [|a v].
  - intro H. inversion H. apply rows_kept_refl.
  - destruct (Frame.column df column); [|discriminate].
    destruct (all_some _) as [mask|]; [|discriminate].
    intro H. inversion H. eexists. reflexivity.
Qed.

(** The body of the loop of [apply_filters]. *)
Definition apply_one (filtered : option frame) (cf : string * filter_config)
  : option frame :=
  let '(column, filter_config) := cf in
  match filtered with
  | None => None
  | Some filtered_df =>
      if negb (has_column filtered_df column) then Some filtered_df
      else
        match filter_config with
        | RangeFilter _ _ current_min current_max _ _ _ =>
            _apply_range_filter filtered_df column current_min current_max
        | DateFilter _ _ current_start current_end _ _ =>
            _apply_date_filter filtered_df column current_start current_end
        | CategoricalFilter _ selected _ _ _ =>
            _apply_categorical_filter filtered_df column selected
        | TextFilter _ _ _ current_value =>
            _apply_text_filter filtered_df column current_value
        | OtherFilter => Some filtered_df
        end
  end.

Lemma apply_filters_fold (df : frame) (filters : list (string * filter_config)) :
  apply_filters df filters = fold_left apply_one filters (Some df).
Proof.
  reflexivity.
Qed.

Lemma apply_one_kept (cur : frame) (cf : string * filter_config) (d : frame) :
  apply_one (Some cur) cf = Some d -> rows_kept d cur.
Proof.
  destruct cf as [c f]. unfold apply_one.
  destruct (negb (has_column cur c)).
  - intro H. inversion H. apply rows_kept_refl.
  - destruct f.
    + apply apply_range_kept.
    + apply apply_date_kept.
    + apply apply_categorical_kept.
    + apply apply_text_kept.
    + intro H. inversion H. apply rows_kept_refl.
Qed.

Lemma fold_apply_one_None (filters : list (string * filter_config)) :
  fold_left apply_one filters None = None.
Proof. induction filters as [|[c f] fs IH]; [reflexivity | exact IH]. Qed.

Lemma fold_apply_one_kept (filters : list (string * filter_config)) :
  forall cur d,
    fold_left apply_one filters (Some cur) = Some d -> rows_kept d cur.
Proof.
  induction filters as [|cf fs IH]; intros cur d H.
  - inversion H. apply rows_kept_refl.
  - cbn [fold_left] in H.
    destruct (apply_one (Some cur) cf) as [d1|] eqn:E.
    + apply apply_one_kept in E. apply IH in H.
      eapply rows_kept_trans; eassumption.
    + now rewrite fold_apply_one_None in H.
Qed.

(** X14. Whatever the filters, [apply_filters] only selects rows: when
    it returns, the result is the input frame restricted to some of its
    rows, in their order; it has the same columns and no more rows. *)
Theorem apply_filters_only_selects_rows
        (df : frame) (filters : list (string * filter_config)) (d : frame) :
  apply_filters df filters = Some d ->
  (exists mask, d = select_rows mask df)
  /\ map fst d = map fst df
  /\ nrows d <= nrows df.
Proof.
  intro H. rewrite apply_filters_fold in H.
  destruct (fold_apply_one_kept filters df d H) as [mask ->].
  split; [now exists mask|].
  split; [apply names_select_rows | apply nrows_select_rows].
Qed.

End WithPandas.

(** A price range from 3 to 9 keeps the tea and the rice. *)
Lemma apply_filters_only_selects_rows_witness :
  (exists mask,
      [ ("price", Float64 [Some 4%Q; Some 9%Q]);
        ("item", Object [Some "tea"; Some "rice"]) ]
      = select_rows mask prices)
  /\ map fst [ ("price", Float64 [Some 4%Q; Some 9%Q]);
               ("item", Object [Some "tea"; Some "rice"]) ]
     = map fst prices
  /\ nrows [ ("price", Float64 [Some 4%Q; Some 9%Q]);
             ("item", Object [Some "tea"; Some "rice"]) ]
     <= nrows prices.
Proof.
  apply (apply_filters_only_selects_rows
           (pandas := plain_pandas) prices
           [("price", RangeFilter (Some (5 # 2)%Q) (Some 9%Q)
                                  (Some (Some 3%Q)) (Some (Some 9%Q))
                                  (Some 1%Q) "Price" [])]).
  reflexivity.
Defined.

End SelectionFacts.

Module SynthesisFacts.
Import Py PyFacts DictFacts Frame FrameFacts FilterBuilder FilterFacts.
Import CleanerFacts ColumnFacts SortFacts CleanedFacts DuplicateFacts.
Import SelectionFacts.

Section WithPandas.
Context {pandas : Pandas} {numerics : Numerics}.

(** *** The dictionary of filters *)

(** What the loop of [build_filters] adds for one column. *)
Definition filter_entry (df : frame) (column : string)
  : list (string * filter_config) :=
  match _detect_filter_type df column with
  | Some filter_config => [(column, filter_config)]
  | None => []
  end.

Lemma build_filters_flat_map (df : frame) :
  build_filters df = flat_map (filter_entry df) (map fst df).
Proof.
  unfold build_filters.
  assert (G : forall names acc,
             fold_left
               (fun filters column =>
                  match _detect_filter_type df column with
                  | Some filter_config => filters ++ [(column, filter_config)]
                  | None => filters
                  end) names acc
             = acc ++ flat_map (filter_entry df) names).
  { induction names as [|c names IH]; intro acc; simpl.
    - now rewrite app_nil_r.
    - rewrite IH. unfold filter_entry at 2.
      destruct (_detect_filter_type df c); simpl;
        [now rewrite <- app_assoc | reflexivity]. }
  apply (G (map fst df) []).
Qed.

Lemma In_build_filters (df : frame) (c : string) (f : filter_config) :
  In (c, f) (build_filters df) <->
  In c (map fst df) /\ _detect_filter_type df c = Some f.
Proof.
  rewrite build_filters_flat_map, in_flat_map. unfold filter_entry. split.
  - intros [c' [Hc' Hin]].
    destruct (_detect_filter_type df c') as [f'|] eqn:E; [|contradiction].
    destruct Hin as [Heq|[]]. inversion Heq; subst. now split.
  - intros [Hc E]. exists c. split; [exact Hc|]. rewrite E. now left.
Qed.

Lemma has_column_In (df : frame) (c : string) :
  In c (map fst df) -> exists s, column df c = Some s.
Proof.
  unfold column. induction df as [|[c' s'] df IH]; simpl; [contradiction|].
  intros [E|H].
  - subst. rewrite String.eqb_refl. now exists s'.
  - destruct (String.eqb c c'); [now exists s' | now apply IH].
Qed.

(** *** The default filters keep every row *)

(** A frame as [pd.read_csv] gives it after cleaning: numeric columns
    without missing values and text columns. *)
Definition complete_numbers_and_text (df : frame) : bool :=
  forallb (fun cs => match snd cs with
                     | Float64 l => all_present l
                     | Object _ => true
                     | Datetime64 _ => false
                     end) df.

Lemma default_range_keeps (df : frame) (c : string) (l : list (option Q)) :
  rectangular df = true ->
  column df c = Some (Float64 l) ->
  all_present l = true ->
  _apply_range_filter df c (Some (min l)) (Some (max l)) = Some df.
Proof.
  intros Hrect Hcol Hp.
  assert (Hlen : List.length l = nrows df).
  { pose proof (rectangular_column df c _ Hrect Hcol) as H.
    unfold series_len in H. simpl in H. now rewrite length_map in H. }
  assert (Hge : select_rows (ge_mask l (min l)) df = df).
  { apply (select_rows_all _ (nrows df)); [now apply ge_mask_min | | exact Hrect].
    unfold ge_mask. now rewrite length_map. }
  assert (Hle : select_rows (le_mask l (max l)) df = df).
  { apply (select_rows_all _ (nrows df)); [now apply le_mask_max | | exact Hrect].
    unfold le_mask. now rewrite length_map. }
  unfold _apply_range_filter, filter_ge. rewrite Hcol, Hge.
  unfold filter_le. now rewrite Hcol, Hle.
Qed.

Lemma column_kind (df : frame) (c : string) (s : series) :
  complete_numbers_and_text df = true -> column df c = Some s ->
  match s with
  | Float64 l => all_present l = true
  | Object _ => True
  | Datetime64 _ => False
  end.
Proof.
  intros Hc Hcol. apply In_of_column in Hcol.
  unfold complete_numbers_and_text in Hc. rewrite forallb_forall in Hc.
  specialize (Hc _ Hcol). cbn [snd] in Hc.
  destruct s; [exact Hc | discriminate | exact I].
Qed.

Lemma default_filter_keeps (df : frame) (c : string) (f : filter_config) :
  rectangular df = true -> complete_numbers_and_text df = true ->
  _detect_filter_type df c = Some f ->
  apply_one (Some df) (c, f) = Some df.
Proof.
  intros Hr Hc Hf. unfold apply_one, _detect_filter_type in *.
  destruct (column df c) as [s|] eqn:Ecol; [|discriminate].
  unfold has_column. rewrite Ecol. cbn [negb].
  pose proof (column_kind df c s Hc Ecol) as Hk.
  destruct s as [l|l|l]; [| contradiction |].
  - cbn [is_numeric_dtype] in Hf.
    rewrite (build_range_filter_default df c l Ecol) in Hf.
    inversion Hf; subst. unfold default_range_filter.
    now apply default_range_keeps.
  - cbn [is_numeric_dtype is_datetime64_any_dtype is_object_dtype] in Hf.
    destruct (nunique (Object l) <=? 50).
    + unfold _build_categorical_filter in Hf. rewrite Ecol in Hf.
      inversion Hf; subst. reflexivity.
    + unfold _build_text_filter in Hf. inversion Hf; subst. reflexivity.
Qed.

Lemma fold_apply_one_fixed (df : frame) (filters : list (string * filter_config)) :
  (forall cf, In cf filters -> apply_one (Some df) cf = Some df) ->
  fold_left apply_one filters (Some df) = Some df.
Proof.
  induction filters as [|cf fs IH]; intro H; [reflexivity|].
  cbn [fold_left]. rewrite (H cf (or_introl eq_refl)).
  apply IH. intros x Hx. apply H. now right.
Qed.

(** X15. The filters that [build_filters] synthesizes for a frame keep
    every row of it when they are applied unchanged, provided the frame
    holds text columns and numeric columns without missing values (columns
    of equal length): [apply_filters(df, build_filters(df))] is [df]. *)
Theorem default_filters_keep_every_row (df : frame) :
  rectangular df = true -> complete_numbers_and_text df = true ->
  apply_filters df (build_filters df) = Some df.
Proof.
  intros Hr Hc. rewrite apply_filters_fold.
  apply fold_apply_one_fixed. intros [c f] Hin.
  apply In_build_filters in Hin as [_ Hf].
  now apply default_filter_keeps.
Qed.

(** *** One filter per column *)

(** The filter type that [_detect_filter_type] chooses for a column. *)
Definition chosen_type (s : series) : string :=
  match s with
  | Float64 _ => "range"
  | Datetime64 _ => "date"
  | Object _ => if nunique s <=? 50 then "categorical" else "text"
  end.

(** A [datetime64] column without a single date gets no filter
    ([NaT.strftime] raises inside [_build_date_filter]). *)
Definition gets_a_filter (s : series) : bool :=
  match s with
  | Datetime64 l => negb (forallb isna (cells s))
  | _ => true
  end.

Lemma Zmin_list_present (l : list Z) :
  l <> [] -> exists m, Zmin_list l = Some m.
Proof. destruct l; [congruence | intros _; eexists; reflexivity]. Qed.

Lemma Zmax_list_present (l : list Z) :
  l <> [] -> exists m, Zmax_list l = Some m.
Proof. destruct l; [congruence | intros _; eexists; reflexivity]. Qed.

Lemma dropna_nil_iff {A : Type} (l : list (option A)) :
  dropna l = [] <-> all_present (map (fun x => match x with
                                               | Some _ => None
                                               | None => Some tt
                                               end) l) = true.
Proof.
  induction l as [|[x|] l IH]; simpl; [tauto| |exact IH].
  split; discriminate.
Qed.

Lemma detect_filter_type_of_column (df : frame) (c : string) (s : series) :
  column df c = Some s ->
  match _detect_filter_type df c with
  | Some f => gets_a_filter s = true /\ filter_type f = Some (chosen_type s)
  | None => gets_a_filter s = false
  end.
Proof.
  intro Hcol. unfold _detect_filter_type. rewrite Hcol.
  destruct s as [l|l|l];
    cbn [is_numeric_dtype is_datetime64_any_dtype is_object_dtype].
  - rewrite (build_range_filter_default df c l Hcol). now split.
  - unfold _build_date_filter. rewrite Hcol.
    unfold gets_a_filter. cbn [cells].
    destruct (dropna l) as [|t ts] eqn:E.
    + cbn [Zmin_list]. apply negb_false_iff.
      apply forallb_forall. intros x Hx.
      apply in_map_iff in Hx as [[y|] [<- Hy]]; [|reflexivity].
      apply In_dropna in Hy. now rewrite E in Hy.
    + cbn [Zmin_list Zmax_list]. split; [|reflexivity].
      apply negb_true_iff. destruct (forallb isna (map DatetimeCell l)) eqn:Ea;
        [|reflexivity].
      rewrite forallb_forall in Ea.
      assert (Ht : In (Some t) l) by (apply In_dropna; rewrite E; now left).
      specialize (Ea (DatetimeCell (Some t))).
      assert (Hc : In (DatetimeCell (Some t)) (map DatetimeCell l))
        by (apply in_map_iff; now exists (Some t)).
      now apply Ea in Hc.
  - cbn [chosen_type gets_a_filter].
    destruct (nunique (Object l) <=? 50).
    + unfold _build_categorical_filter. rewrite Hcol. now split.
    + unfold _build_text_filter. now split.
Qed.

(** X16. With distinct column names [build_filters] gives every column
    exactly one filter, in column order: a range filter for a numeric
    column, a categorical filter for a text column of at most 50 distinct
    values and a text filter above 50, a date filter for a datetime
    column; only a datetime column without a single date gets none.
    [get_filter_summary] reports these columns and counts each filter
    once. *)
Theorem one_filter_per_column (df : frame) :
  NoDup (map fst df) ->
  let filters := build_filters df in
  let summary := get_filter_summary df in
  map fst filters = map fst (filter (fun cs => gets_a_filter (snd cs)) df)
  /\ (forall c s, In (c, s) df -> gets_a_filter s = true ->
        exists f, In (c, f) filters /\ filter_type f = Some (chosen_type s))
  /\ columns_with_filters summary = map fst filters
  /\ total_filters summary = List.length filters
  /\ tally (filter_types summary) = total_filters summary
  /\ (forall t, count_of (option_eqb String.eqb) (Some t) (filter_types summary)
                = List.length
                    (filter (fun cs => gets_a_filter (snd cs)
                                       && String.eqb t (chosen_type (snd cs))) df)).
Proof.
  intros Hn filters summary.
  assert (Hentry : forall c s, In (c, s) df ->
             match _detect_filter_type df c with
             | Some f => gets_a_filter s = true
                         /\ filter_type f = Some (chosen_type s)
             | None => gets_a_filter s = false
             end).
  { intros c s Hin. apply detect_filter_type_of_column.
    now apply column_of_In. }
  assert (Hshape : forall d, incl d df ->
             map (fun cf => (fst cf, filter_type (snd cf)))
                 (flat_map (filter_entry df) (map fst d))
             = map (fun cs => (fst cs, Some (chosen_type (snd cs))))
                   (filter (fun cs => gets_a_filter (snd cs)) d)).
  { induction d as [|[c s] d IH]; intro Hincl; [reflexivity|].
    cbn [map fst flat_map filter snd].
    rewrite map_app, IH by (intros x Hx; apply Hincl; now right).
    specialize (Hentry c s (Hincl _ (or_introl eq_refl))).
    unfold filter_entry.
    destruct (_detect_filter_type df c) as [f|].
    - destruct Hentry as [Hg Ht]. rewrite Hg. cbn [map fst snd app].
      now rewrite Ht.
    - rewrite Hentry. reflexivity. }
  specialize (Hshape df (incl_refl df)).
  rewrite <- build_filters_flat_map in Hshape. fold filters in Hshape.
  assert (Hnames : map fst filters
                   = map fst (filter (fun cs => gets_a_filter (snd cs)) df)).
  { apply (f_equal (map fst)) in Hshape. rewrite !map_map in Hshape.
    exact Hshape. }
  assert (Htypes : map (fun cf => filter_type (snd cf)) filters
                   = map (fun cs => Some (chosen_type (snd cs)))
                         (filter (fun cs => gets_a_filter (snd cs)) df)).
  { apply (f_equal (map snd)) in Hshape. rewrite !map_map in Hshape.
    exact Hshape. }
  assert (Hsum : filter_types summary
                 = counted_from (option_eqb String.eqb)
                                (fun cf : string * filter_config => filter_type (snd cf))
                                [] filters).
  { unfold summary, get_filter_summary, counted_from, filters.
    cbn [filter_types].
    generalize (@nil (option string * nat)) as acc.
    generalize (build_filters df) as fs.
    induction fs as [|[c f] fs IH]; intro acc; [reflexivity|].
    cbn [fold_left]. apply IH. }
  split; [exact Hnames|].
  split.
  { intros c s Hin Hg. specialize (Hentry c s Hin).
    destruct (_detect_filter_type df c) as [f|] eqn:E; [|congruence].
    exists f. split; [|apply Hentry].
    apply In_build_filters. split; [|exact E].
    apply in_map_iff. now exists (c, s). }
  split; [reflexivity|]. split; [reflexivity|].
  split.
  { rewrite Hsum, tally_counted_from. reflexivity. }
  intro t. rewrite Hsum.
  rewrite count_of_counted_from.
  2:{ intros [x|] [y|]; simpl; split; try discriminate; try reflexivity.
      - intro H. apply String.eqb_eq in H. now subst.
      - intro H. inversion H. apply String.eqb_refl. }
  cbn [count_of Nat.add].
  assert (G : forall (l : list (string * filter_config)),
             List.length
               (filter (fun x => option_eqb String.eqb (Some t) (filter_type (snd x))) l)
             = List.length
                 (filter (option_eqb String.eqb (Some t))
                         (map (fun cf => filter_type (snd cf)) l))).
  { induction l as [|x l IH]; [reflexivity|]. cbn [filter map].
    destruct (option_eqb String.eqb (Some t) (filter_type (snd x)));
      cbn [List.length]; now rewrite IH. }
  rewrite G, Htypes. clear.
  induction df as [|[c s] df IH]; [reflexivity|].
  cbn [filter snd]. destruct (gets_a_filter s); cbn [andb]; [|exact IH].
  cbn [map filter snd option_eqb].
  destruct (String.eqb t (chosen_type s)); cbn [List.length]; now rewrite IH.
Qed.

End WithPandas.

Lemma default_filters_keep_every_row_witness :
  apply_filters (pandas := plain_pandas) prices
                (build_filters (pandas := plain_pandas) (numerics := plain_numerics) prices)
  = Some prices.
Proof.
  apply (default_filters_keep_every_row (pandas := plain_pandas) (numerics := plain_numerics) prices);
    reflexivity.
Defined.

Lemma one_filter_per_column_witness :
  map fst (build_filters (pandas := plain_pandas) (numerics := plain_numerics) prices) = ["price"; "item"]
  /\ total_filters (get_filter_summary (pandas := plain_pandas) (numerics := plain_numerics) prices) = 2
  /\ count_of (option_eqb String.eqb) (Some "range")
              (filter_types (get_filter_summary (pandas := plain_pandas) (numerics := plain_numerics) prices))
     = 1.
Proof.
  assert (Hnd : NoDup (map fst prices)).
  { repeat constructor; simpl; intuition discriminate. }
  destruct (one_filter_per_column (pandas := plain_pandas) (numerics := plain_numerics) prices Hnd)
    as [H1 [_ [_ [H4 [_ H6]]]]].
  split; [exact H1|]. split; [exact H4 | exact (H6 "range")].
Defined.

End SynthesisFacts.

Module DescriptorFacts.
Import Py PyFacts DictFacts Frame FrameFacts FilterBuilder FilterFacts.
Import CleanerFacts ColumnFacts SortFacts CleanedFacts DuplicateFacts.
Import SelectionFacts SynthesisFacts.

(** *** Range filters *)


(** *** Categorical filters *)

Lemma mem_string_In (x : string) (l : list string) :
  mem String.eqb x l = true <-> In x l.
Proof.
  induction l as [|y l IH]; simpl; [split; [discriminate | contradiction]|].
  rewrite orb_true_iff, IH, String.eqb_eq. split; intros [H|H]; auto.
Qed.

Lemma seen_invariant (l : list string) :
  forall seen,
    NoDup seen ->
    let r := fold_left (fun seen x => if mem String.eqb x seen then seen
                                      else x :: seen) l seen in
    NoDup r /\ forall y, In y r <-> In y seen \/ In y l.
Proof.
  induction l as [|x l IH]; intros seen Hn; simpl.
  - split; [exact Hn | intro y; tauto].
  - destruct (mem String.eqb x seen) eqn:E.
    + destruct (IH seen Hn) as [H1 H2]. split; [exact H1|].
      intro y. rewrite H2. apply mem_string_In in E.
      split; [tauto|]. intros [H|[<-|H]]; auto.
    + assert (Hx : ~ In x seen).
      { intro H. apply mem_string_In in H. congruence. }
      destruct (IH (x :: seen) (NoDup_cons x Hx Hn)) as [H1 H2].
      split; [exact H1|]. intro y. rewrite H2. simpl. tauto.
Qed.

Lemma NoDup_unique (l : list string) : NoDup (unique String.eqb l).
Proof.
  unfold unique. apply NoDup_rev.
  apply (seen_invariant l [] (NoDup_nil _)).
Qed.

Lemma In_unique (y : string) (l : list string) :
  In y (unique String.eqb l) <-> In y l.
Proof.
  unfold unique. rewrite <- in_rev.
  destruct (seen_invariant l [] (NoDup_nil _)) as [_ H].
  rewrite H. simpl. tauto.
Qed.

Lemma count_str_positive (v : string) (l : list string) :
  In v l -> 1 <= count_str v l.
Proof.
  unfold count_str. induction l as [|x l IH]; simpl; [contradiction|].
  intros [->|H].
  - rewrite String.eqb_refl. simpl. lia.
  - specialize (IH H). destruct (String.eqb v x); simpl; lia.
Qed.

Lemma NoDup_firstn {A : Type} (n : nat) (l : list A) :
  NoDup l -> NoDup (firstn n l).
Proof.
  intro H. rewrite <- (firstn_skipn n l) in H.
  now apply NoDup_app_remove_r in H.
Qed.

Lemma In_firstn {A : Type} (n : nat) (l : list A) (x : A) :
  In x (firstn n l) -> In x l.
Proof.
  intro H. rewrite <- (firstn_skipn n l). apply in_or_app. now left.
Qed.

Lemma StronglySorted_firstn {A : Type} (R : A -> A -> Prop) (n : nat) :
  forall l, StronglySorted R l -> StronglySorted R (firstn n l).
Proof.
  induction n as [|n IH]; intros l Hs; [constructor|].
  destruct l as [|x l]; [constructor|].
  inversion Hs as [|? ? Hl Hx]; subst. simpl. constructor; [now apply IH|].
  rewrite Forall_forall in *. intros y Hy. apply Hx. now apply In_firstn in Hy.
Qed.

(** The values of a text column with their numbers of occurrences. *)
Definition counted_values (l : list (option string)) : list (string * nat) :=
  map (fun v => (v, count_str v (dropna l))) (unique String.eqb (dropna l)).

Lemma value_counts_perm (l : list (option string)) :
  Permutation (value_counts l) (counted_values l).
Proof. unfold value_counts, counted_values. apply sorted_desc_perm. Qed.

Lemma value_counts_sorted (l : list (option string)) :
  StronglySorted (fun a b => snd b <= snd a) (value_counts l).
Proof. unfold value_counts. apply (sorted_desc_sorted snd). Qed.

Lemma NoDup_value_counts (l : list (option string)) :
  NoDup (map fst (value_counts l)).
Proof.
  apply (Permutation_NoDup (l := map fst (counted_values l))).
  - apply Permutation_map. symmetry. apply value_counts_perm.
  - unfold counted_values. rewrite map_map. cbn [fst]. rewrite map_id.
    apply NoDup_unique.
Qed.

Lemma In_value_counts (l : list (option string)) (v : string) (n : nat) :
  In (v, n) (value_counts l) ->
  In (Some v) l /\ n = count_str v (dropna l) /\ 1 <= n.
Proof.
  intro H. apply (Permutation_in _ (value_counts_perm l)) in H.
  unfold counted_values in H. apply in_map_iff in H as [v' [E Hv]].
  inversion E; subst. apply (proj1 (In_unique _ _)) in Hv.
  split; [apply In_dropna; exact Hv|]. split; [reflexivity|].
  now apply count_str_positive.
Qed.

(** X18. The categorical filter of a text column lists at most 20
    options, one per distinct value, most frequent first; an option
    carries a value of the column as its value and label and the number of
    its occurrences (at least one) as its count, and nothing is selected
    at first. *)
Theorem categorical_options_are_value_counts
        (df : frame) (c : string) (l : list (option string)) :
  column df c = Some (Object l) ->
  match _build_categorical_filter df c with
  | Some (CategoricalFilter options selected _ _ multi_select) =>
      selected = [] /\ multi_select = true
      /\ List.length options <= 20
      /\ NoDup (map option_value options)
      /\ Forall (fun o => option_label o = option_value o
                          /\ In (Some (option_value o)) l
                          /\ option_count o = count_str (option_value o) (dropna l)
                          /\ 1 <= option_count o) options
      /\ StronglySorted (fun a b => option_count b <= option_count a) options
      /\ (List.length (unique String.eqb (dropna l)) <= 20 ->
          List.length options = List.length (unique String.eqb (dropna l)))
  | _ => False
  end.
Proof.
  intro Hcol. unfold _build_categorical_filter. rewrite Hcol.
  split; [reflexivity|]. split; [reflexivity|].
  set (top := firstn 20 (value_counts l)).
  set (mk := fun (p : string * nat) =>
               let '(val, count) := p in
               {| option_value := val; option_label := val;
                  option_count := count |}).
  assert (Hv : forall p, option_value (mk p) = fst p) by (now intros [v n]).
  assert (Hc : forall p, option_count (mk p) = snd p) by (now intros [v n]).
  split; [|split; [|split; [|split]]].
  - rewrite length_map. apply firstn_le_length.
  - rewrite map_map. rewrite (map_ext _ fst Hv).
    subst top. rewrite <- firstn_map. apply NoDup_firstn, NoDup_value_counts.
  - apply Forall_forall. intros o Ho.
    apply in_map_iff in Ho as [[v n] [<- Hin]].
    apply In_firstn in Hin. apply In_value_counts in Hin as [H1 [H2 H3]].
    cbn. repeat split; assumption.
  - assert (Hs : StronglySorted (fun a b => snd b <= snd a) top)
      by (apply StronglySorted_firstn, value_counts_sorted).
    clear - Hs Hc. induction Hs as [|p ps Hs IH Hp]; [constructor|].
    cbn [map]. constructor; [exact IH|].
    apply Forall_forall. intros o Ho. apply in_map_iff in Ho as [q [<- Hq]].
    rewrite !Hc. rewrite Forall_forall in Hp. now apply Hp.
  - intro Hle. rewrite length_map. subst top.
    rewrite firstn_all2; [|].
    + rewrite (Permutation_length (value_counts_perm l)).
      unfold counted_values. apply length_map.
    + rewrite (Permutation_length (value_counts_perm l)).
      unfold counted_values. now rewrite length_map.
Qed.


Lemma categorical_options_are_value_counts_witness :
  match _build_categorical_filter returns "status" with
  | Some (CategoricalFilter options selected _ _ multi_select) =>
      selected = [] /\ multi_select = true
      /\ List.length options <= 20
      /\ NoDup (map option_value options)
      /\ Forall (fun o =>
                   option_label o = option_value o
                   /\ In (Some (option_value o))
                         [Some "late"; None; Some "late"; Some "late";
                          Some "on time"]
                   /\ option_count o
                      = count_str (option_value o)
                                  (dropna [Some "late"; None; Some "late";
                                           Some "late"; Some "on time"])
                   /\ 1 <= option_count o) options
      /\ StronglySorted (fun a b => option_count b <= option_count a) options
      /\ (List.length
            (unique String.eqb
                    (dropna [Some "late"; None; Some "late"; Some "late";
                             Some "on time"])) <= 20 ->
          List.length options
          = List.length
              (unique String.eqb
                      (dropna [Some "late"; None; Some "late"; Some "late";
                               Some "on time"])))
  | _ => False
  end.
Proof.
  apply (categorical_options_are_value_counts
           returns "status"
           [Some "late"; None; Some "late"; Some "late"; Some "on time"]).
  reflexivity.
Defined.

End DescriptorFacts.

(** ** KPIs: what the cards say *)

Module CardFacts.
Import Py PyFacts DictFacts Frame FrameFacts KPIBuilder.
Import CleanerFacts ColumnFacts SortFacts CleanedFacts.
Import DescriptorFacts.

Section Cards.
Context {numerics : Numerics}.

(** *** The basic cards *)

Lemma float_column_of_In (df : frame) (c : string) (l : list (option Q)) :
  NoDup (map fst df) -> In (c, Float64 l) df -> float_column df c = Some l.
Proof.
  intros Hn Hin. unfold float_column. now rewrite (column_of_In df c _ Hn Hin).
Qed.

Lemma three_cards (df : frame) (c : string) (l : list (option Q)) :
  float_column df c = Some l ->
  exists k1 k2 k3,
    opt_list (_build_sum_kpi df c) ++ opt_list (_build_average_kpi df c)
      ++ opt_list (_build_count_kpi df c) = [k1; k2; k3]
    /\ (kpi_id k1, kpi_val k1) = (("sum_" ++ c)%string, VFloat (Some (sum l)))
    /\ (kpi_id k2, kpi_val k2) = (("avg_" ++ c)%string, VFloat (mean l))
    /\ (kpi_id k3, kpi_val k3) = (("count_" ++ c)%string, VInt (nrows df))
    /\ kpi_title k3 = "Total Records"
    /\ kpi_val k1 <> VInt (nrows df) /\ kpi_val k2 <> VInt (nrows df).
Proof.
  intro H. unfold _build_sum_kpi, _build_average_kpi, _build_count_kpi.
  rewrite H. cbn [opt_list app].
  eexists. eexists. eexists. split; [reflexivity|].
  cbn [kpi_id kpi_val kpi_title]. repeat split; discriminate.
Qed.

(** The ids and values of the three cards of a numeric column. *)
Definition basic_cards (df : frame) (cs : string * series)
  : list (string * kpi_value) :=
  match snd cs with
  | Float64 l =>
      [ (("sum_" ++ fst cs)%string, VFloat (Some (sum l)));
        (("avg_" ++ fst cs)%string, VFloat (mean l));
        (("count_" ++ fst cs)%string, VInt (nrows df)) ]
  | _ => []
  end.

(** X22. With distinct column names, [build_kpis] starts with three
    cards per numeric column, in column order: the sum of the values
    present, their mean (NaN when there is none) and the number of rows of
    the frame, which every numeric column repeats under the title
    "Total Records". *)
Theorem basic_kpis_are_three_per_numeric_column (df : frame) :
  NoDup (map fst df) ->
  exists others,
    build_kpis df
    = _build_basic_kpis df (select_dtypes is_numeric_dtype df) ++ others
    /\ map (fun k => (kpi_id k, kpi_val k))
           (_build_basic_kpis df (select_dtypes is_numeric_dtype df))
       = flat_map (basic_cards df) df
    /\ List.length (_build_basic_kpis df (select_dtypes is_numeric_dtype df))
       = 3 * List.length (select_dtypes is_numeric_dtype df)
    /\ (forall k, In k (_build_basic_kpis df (select_dtypes is_numeric_dtype df)) ->
                  kpi_val k = VInt (nrows df) -> kpi_title k = "Total Records").
Proof.
  intro Hn. eexists. split; [reflexivity|].
  assert (G : forall d, incl d df ->
             map (fun k => (kpi_id k, kpi_val k))
                 (_build_basic_kpis df (select_dtypes is_numeric_dtype d))
             = flat_map (basic_cards df) d
             /\ List.length (_build_basic_kpis df (select_dtypes is_numeric_dtype d))
                = 3 * List.length (select_dtypes is_numeric_dtype d)
             /\ (forall k,
                    In k (_build_basic_kpis df (select_dtypes is_numeric_dtype d)) ->
                    kpi_val k = VInt (nrows df) -> kpi_title k = "Total Records")).
  { unfold _build_basic_kpis, select_dtypes.
    induction d as [|[c s] d IH]; intro Hincl.
    - split; [reflexivity|]. split; [reflexivity|]. intros k [].
    - destruct IH as [IH1 [IH2 IH3]]; [intros x Hx; apply Hincl; now right|].
      cbn [filter snd]. destruct s as [l|l|l]; cbn [is_numeric_dtype].
      + cbn [map fst flat_map].
        destruct (three_cards df c l
                    (float_column_of_In df c l Hn (Hincl _ (or_introl eq_refl))))
          as [k1 [k2 [k3 [E [E1 [E2 [E3 [Ht [N1 N2]]]]]]]]].
        rewrite !app_assoc in E |- *. rewrite E.
        split; [|split].
        * rewrite map_app. cbn [map]. rewrite E1, E2, E3, IH1.
          unfold basic_cards at 1. cbn [fst snd]. reflexivity.
        * rewrite length_app. cbn [List.length]. rewrite IH2. lia.
        * intros k Hk Hv. apply in_app_or in Hk as [[<-|[<-|[<-|[]]]]|Hk].
          -- contradiction.
          -- contradiction.
          -- exact Ht.
          -- now apply IH3.
      + split; [exact IH1 | split; [exact IH2 | exact IH3]].
      + split; [exact IH1 | split; [exact IH2 | exact IH3]]. }
  apply G, incl_refl.
Qed.

(** *** The top category *)

Lemma In_counted_values (l : list (option string)) (w : string) :
  In w (dropna l) -> In (w, count_str w (dropna l)) (value_counts l).
Proof.
  intro H. apply (Permutation_in _ (Permutation_sym (value_counts_perm l))).
  unfold counted_values. apply in_map_iff. exists w. split; [reflexivity|].
  now apply In_unique.
Qed.

Lemma count_str_absent (w : string) (l : list string) :
  ~ In w l -> count_str w l = 0.
Proof.
  unfold count_str. induction l as [|x l IH]; intro H; [reflexivity|].
  simpl. destruct (String.eqb w x) eqn:E.
  - apply String.eqb_eq in E. subst. exfalso. apply H. now left.
  - apply IH. intro Hin. apply H. now right.
Qed.

(** X23. The "Top ..." card of a text column names a value of the column
    that occurs at least as often as every other value; a text column
    without a value gets no such card. *)
Theorem top_category_is_a_most_frequent_value
        (df : frame) (c : string) (l : list (option string)) :
  column df c = Some (Object l) ->
  match _build_top_category_kpi df c with
  | Some k =>
      exists v,
        kpi_val k = VStr v
        /\ In (Some v) l
        /\ forall w, count_str w (dropna l) <= count_str v (dropna l)
  | None => dropna l = []
  end.
Proof.
  intro Hcol. unfold _build_top_category_kpi. rewrite Hcol.
  destruct (value_counts l) as [|[v n] rest] eqn:E.
  - destruct (dropna l) as [|w ws] eqn:Ed; [reflexivity|].
    exfalso. assert (Hw : In w (dropna l)) by (rewrite Ed; now left).
    apply In_counted_values in Hw. now rewrite E in Hw.
  - exists v. split; [reflexivity|].
    assert (Hin : In (v, n) (value_counts l)) by (rewrite E; now left).
    apply In_value_counts in Hin as [Hv [Hn _]].
    split; [exact Hv|]. intro w. rewrite <- Hn.
    destruct (in_dec string_dec w (dropna l)) as [Hw|Hw].
    + apply In_counted_values in Hw. rewrite E in Hw.
      destruct Hw as [Hw|Hw]; [inversion Hw; lia|].
      pose proof (value_counts_sorted l) as Hs. rewrite E in Hs.
      inversion Hs as [|? ? _ Hall]; subst.
      rewrite Forall_forall in Hall. apply (Hall _ Hw).
    + rewrite (count_str_absent w _ Hw). lia.
Qed.

End Cards.

Lemma basic_kpis_are_three_per_numeric_column_witness :
  List.length (_build_basic_kpis (numerics := plain_numerics) FilterFacts.prices
                 (select_dtypes is_numeric_dtype FilterFacts.prices))
  = 3.
Proof.
  assert (Hnd : NoDup (map fst FilterFacts.prices)).
  { repeat constructor; simpl; intuition discriminate. }
  destruct (basic_kpis_are_three_per_numeric_column
              (numerics := plain_numerics) FilterFacts.prices Hnd)
    as [others [_ [_ [H _]]]].
  exact H.
Defined.

Lemma top_category_is_a_most_frequent_value_witness :
  match _build_top_category_kpi returns "status" with
  | Some k =>
      exists v,
        kpi_val k = VStr v
        /\ In (Some v) [Some "late"; None; Some "late"; Some "late";
                        Some "on time"]
        /\ forall w,
            count_str w (dropna [Some "late"; None; Some "late"; Some "late";
                                 Some "on time"])
            <= count_str v (dropna [Some "late"; None; Some "late"; Some "late";
                                    Some "on time"])
  | None =>
      dropna [Some "late"; None; Some "late"; Some "late"; Some "on time"] = []
  end.
Proof.
  apply (top_category_is_a_most_frequent_value
           returns "status"
           [Some "late"; None; Some "late"; Some "late"; Some "on time"]).
  reflexivity.
Defined.

End CardFacts.

(** ** Insights: grading, segments and correlations *)

Module InsightFacts.
Import Py PyFacts DictFacts Frame FrameFacts Recommender RecommenderFacts.
Import LayoutManager LayoutFacts.

(** *** Severities *)

(** The insight carries one of the three severities that the layout
    ranks. *)
Definition graded (r : recommendation) : Prop :=
  match rec_severity r with
  | Some s => recognised s = true
  | None => False
  end.

Lemma severity_of_change_recognised (x : Q) :
  recognised (severity_of_change x) = true.
Proof.
  unfold severity_of_change.
  destruct (Qlt_bool 20 (Qabs x)); [reflexivity|].
  destruct (Qlt_bool 10 (Qabs x)); reflexivity.
Qed.

Ltac built_graded :=
  let H := fresh "H" in
  intro H;
  repeat match type of H with
         | match ?x with _ => _ end = Some _ => destruct x; try discriminate H
         | (if ?b then _ else _) = Some _ => destruct b; try discriminate H
         | (let '(_, _) := ?p in _) = Some _ => destruct p
         end;
  apply (f_equal (option_map rec_severity)) in H;
  cbn [option_map rec_severity] in H;
  injection H as H; unfold graded; rewrite <- H;
  first [ reflexivity
        | apply severity_of_change_recognised
        | repeat match goal with
                 | |- context [if ?b then _ else _] => destruct b
                 end; reflexivity ].

Lemma trend_insight_graded {numerics : Numerics} df d n r :
  _analyze_trend df d n = Some r -> graded r.
Proof. unfold _analyze_trend. built_graded. Qed.

Lemma forecast_insight_graded {numerics : Numerics} df d n r :
  _generate_forecast df d n = Some r -> graded r.
Proof. unfold _generate_forecast. built_graded. Qed.

Lemma anomaly_insight_graded {numerics : Numerics} df c r :
  _detect_anomalies df c = Some r -> graded r.
Proof. unfold _detect_anomalies. built_graded. Qed.

Lemma correlation_insight_medium {numerics : Numerics} df cols r :
  _analyze_correlations df cols = Some r -> rec_severity r = Some "medium".
Proof.
  unfold _analyze_correlations. intro H.
  repeat match type of H with
         | match ?x with _ => _ end = Some _ => destruct x; try discriminate H
         end.
  apply (f_equal (option_map rec_severity)) in H.
  cbn [option_map rec_severity] in H. now injection H as <-.
Qed.

Lemma segmentation_insight_medium {numerics : Numerics} {sklearn : Sklearn} df cats nums r :
  _perform_segmentation df cats nums = Some r -> rec_severity r = Some "medium".
Proof.
  unfold _perform_segmentation. intro H.
  repeat match type of H with
         | match ?x with _ => _ end = Some _ => destruct x; try discriminate H
         | (if ?b then _ else _) = Some _ => destruct b; try discriminate H
         end.
  apply (f_equal (option_map rec_severity)) in H.
  cbn [option_map rec_severity] in H. now injection H as <-.
Qed.

Lemma segmentation_insight_type {numerics : Numerics} {sklearn : Sklearn} df cats nums r :
  _perform_segmentation df cats nums = Some r -> rec_type r = "segmentation".
Proof.
  unfold _perform_segmentation. intro H.
  repeat match type of H with
         | match ?x with _ => _ end = Some _ => destruct x; try discriminate H
         | (if ?b then _ else _) = Some _ => destruct b; try discriminate H
         end.
  apply (f_equal (option_map rec_type)) in H.
  cbn [option_map rec_type] in H. now injection H as <-.
Qed.

Definition insight_kinds : list string :=
  ["trend"; "anomaly"; "correlation"; "segmentation"; "forecast"].

(** What holds of every insight that [generate_recommendations] emits. *)
Definition well_formed (r : recommendation) : Prop :=
  In (rec_type r) insight_kinds
  /\ graded r
  /\ (rec_type r = "correlation" \/ rec_type r = "segmentation" ->
      rec_severity r = Some "medium").

Lemma medium_graded (r : recommendation) :
  rec_severity r = Some "medium" -> graded r.
Proof. unfold graded. now intros ->. Qed.

Lemma generated_well_formed
      {numerics : Numerics} {sklearn : Sklearn} (df : frame) (r : recommendation) :
  In r (generate_recommendations df) -> well_formed r.
Proof.
  unfold generate_recommendations, well_formed, insight_kinds. intro H.
  apply in_app_or in H as [H|H].
  { pose proof (trend_insights_type _ _ _ _ H) as Ht.
    unfold _generate_trend_insights in H.
    apply in_flat_map in H as [d [_ H]]. apply in_flat_map in H as [n [_ H]].
    apply In_opt_list in H. apply trend_insight_graded in H.
    rewrite Ht. split; [simpl; tauto|]. split; [exact H|].
    intros [E|E]; discriminate. }
  apply in_app_or in H as [H|H].
  { pose proof (anomaly_insights_type _ _ _ H) as Ht.
    unfold _generate_anomaly_insights in H.
    apply in_flat_map in H as [c [_ H]].
    apply In_opt_list in H. apply anomaly_insight_graded in H.
    rewrite Ht. split; [simpl; tauto|]. split; [exact H|].
    intros [E|E]; discriminate. }
  apply in_app_or in H as [H|H].
  { pose proof (correlation_insights_type _ _ _ H) as Ht.
    unfold _generate_correlation_insights in H.
    destruct (2 <=? List.length (select_dtypes is_numeric_dtype df));
      [|contradiction].
    apply In_opt_list in H. apply correlation_insight_medium in H.
    rewrite Ht. split; [simpl; tauto|]. split; [now apply medium_graded|].
    intros _. exact H. }
  apply in_app_or in H as [H|H].
  { unfold _generate_segmentation_insights in H.
    destruct (select_dtypes is_object_dtype df); [contradiction|].
    destruct (select_dtypes is_numeric_dtype df) eqn:En; [contradiction|].
    apply In_opt_list in H.
    pose proof (segmentation_insight_type _ _ _ _ H) as Ht.
    apply segmentation_insight_medium in H.
    rewrite Ht. split; [simpl; tauto|]. split; [now apply medium_graded|].
    intros _. exact H. }
  pose proof (forecast_insights_type _ _ _ _ H) as Ht.
  unfold _generate_forecast_insights in H.
  apply in_flat_map in H as [d [_ H]]. apply in_flat_map in H as [n [_ H]].
  apply In_opt_list in H. apply forecast_insight_graded in H.
  rewrite Ht. split; [simpl; tauto|]. split; [exact H|].
  intros [E|E]; discriminate.
Qed.

Lemma graded_score (r : recommendation) :
  graded r ->
  (severity_key r = 3 /\ rec_severity r = Some "high")
  \/ (severity_key r = 2 /\ rec_severity r = Some "medium")
  \/ (severity_key r = 1 /\ rec_severity r = Some "low").
Proof.
  unfold graded, severity_key, recognised, _get_severity_score.
  destruct (rec_severity r) as [s|]; [|contradiction].
  destruct (String.eqb s "high") eqn:E1.
  { apply String.eqb_eq in E1. subst. auto. }
  destruct (String.eqb s "medium") eqn:E2.
  { apply String.eqb_eq in E2. subst. auto. }
  destruct (String.eqb s "low") eqn:E3.
  { apply String.eqb_eq in E3. subst. auto. }
  discriminate.
Qed.

(** X24. Every insight that [generate_recommendations] emits is of one
    of the five kinds and carries the severity high, medium or low
    (correlation and segmentation insights always medium).  The layout
    therefore never falls back to its default score: it ranks an insight 3,
    2 or 1 exactly as it is high, medium or low. *)
Theorem generated_insights_carry_a_ranked_severity
        {numerics : Numerics} {sklearn : Sklearn} (df : frame) (r : recommendation) :
  In r (generate_recommendations df) ->
  In (rec_type r) insight_kinds
  /\ (rec_type r = "correlation" \/ rec_type r = "segmentation" ->
      rec_severity r = Some "medium")
  /\ ~ unranked r
  /\ ((severity_key r = 3 /\ rec_severity r = Some "high")
      \/ (severity_key r = 2 /\ rec_severity r = Some "medium")
      \/ (severity_key r = 1 /\ rec_severity r = Some "low")).
Proof.
  intro H. destruct (generated_well_formed df r H) as [Ht [Hg Hm]].
  split; [exact Ht|]. split; [exact Hm|]. split; [|now apply graded_score].
  unfold unranked, graded in *.
  destruct (rec_severity r) as [s|]; [|contradiction]. congruence.
Qed.

Lemma generated_insights_carry_a_ranked_severity_witness :
  exists r,
    In r (generate_recommendations
            (numerics := plain_numerics) (sklearn := labels_in_turn)
            (customers 11))
    /\ In (rec_type r) insight_kinds
    /\ (rec_type r = "correlation" \/ rec_type r = "segmentation" ->
        rec_severity r = Some "medium")
    /\ ~ unranked r
    /\ ((severity_key r = 3 /\ rec_severity r = Some "high")
        \/ (severity_key r = 2 /\ rec_severity r = Some "medium")
        \/ (severity_key r = 1 /\ rec_severity r = Some "low")).
Proof.
  destruct (generate_recommendations
              (numerics := plain_numerics) (sklearn := labels_in_turn)
              (customers 11)) as [|r rs] eqn:E.
  { vm_compute in E. discriminate E. }
  exists r. split; [now left|].
  apply (generated_insights_carry_a_ranked_severity
           (numerics := plain_numerics) (sklearn := labels_in_turn)
           (customers 11) r).
  rewrite E. now left.
Defined.

(** *** The summary of the insights *)

Lemma summarize_types (insights : list recommendation) :
  insight_types (summarize insights)
  = counted_from String.eqb rec_type [] insights.
Proof.
  unfold summarize. cbn [insight_types].
  rewrite (fold_left_pair
             (fun d insight => dict_count String.eqb (rec_type insight) d)
             (fun d insight =>
                dict_count String.eqb
                  match rec_severity insight with Some s => s | None => "low" end d)).
  reflexivity.
Qed.

(** [insight.get("severity", "low")] *)
Definition severity_or_low (r : recommendation) : string :=
  match rec_severity r with Some s => s | None => "low" end.

Lemma summarize_severities (insights : list recommendation) :
  severity_distribution (summarize insights)
  = counted_from String.eqb severity_or_low [] insights.
Proof.
  unfold summarize. cbn [severity_distribution].
  rewrite (fold_left_pair
             (fun d insight => dict_count String.eqb (rec_type insight) d)
             (fun d insight =>
                dict_count String.eqb
                  match rec_severity insight with Some s => s | None => "low" end d)).
  reflexivity.
Qed.

Lemma filter_none {A : Type} (p : A -> bool) (l : list A) :
  (forall x, In x l -> p x = false) -> filter p l = [].
Proof.
  induction l as [|x l IH]; intro H; [reflexivity|]. simpl.
  rewrite (H x (or_introl eq_refl)). apply IH. intros y Hy. apply H. now right.
Qed.

(** X25. [get_insight_summary] counts every insight once by kind and
    once by severity: each tally adds up to [total_insights], nothing is
    counted outside the five kinds and the three severities, and the
    correlation and segmentation insights are all counted as medium. *)
Theorem insight_summary_counts_add_up
        {numerics : Numerics} {sklearn : Sklearn} (df : frame) :
  let summary := get_insight_summary df in
  total_insights summary = List.length (generate_recommendations df)
  /\ tally (insight_types summary) = total_insights summary
  /\ tally (severity_distribution summary) = total_insights summary
  /\ (forall t, ~ In t insight_kinds ->
                count_of String.eqb t (insight_types summary) = 0)
  /\ (forall s, recognised s = false ->
                count_of String.eqb s (severity_distribution summary) = 0)
  /\ count_of String.eqb "correlation" (insight_types summary)
     + count_of String.eqb "segmentation" (insight_types summary)
     <= count_of String.eqb "medium" (severity_distribution summary).
Proof.
  intro summary. subst summary. unfold get_insight_summary.
  rewrite summarize_types, summarize_severities.
  set (insights := generate_recommendations df).
  assert (Hwf : forall r, In r insights -> well_formed r)
    by (intros r Hr; now apply (generated_well_formed df)).
  split; [reflexivity|].
  split; [now rewrite tally_counted_from|].
  split; [now rewrite tally_counted_from|].
  split; [|split].
  - intros t Ht. rewrite (count_of_counted_from String.eqb String.eqb_eq).
    rewrite filter_none; [reflexivity|].
    intros r Hr. apply String.eqb_neq. intros ->.
    apply Ht. apply (Hwf r Hr).
  - intros s Hs. rewrite (count_of_counted_from String.eqb String.eqb_eq).
    rewrite filter_none; [reflexivity|].
    intros r Hr. apply String.eqb_neq. intros ->.
    destruct (Hwf r Hr) as [_ [Hg _]]. unfold graded, severity_or_low in *.
    destruct (rec_severity r); [congruence | contradiction].
  - rewrite !(count_of_counted_from String.eqb String.eqb_eq).
    cbn [count_of Nat.add].
    clear - Hwf.
    set (p1 := fun x => String.eqb "correlation" (rec_type x)).
    set (p2 := fun x => String.eqb "segmentation" (rec_type x)).
    set (p3 := fun x => String.eqb "medium" (severity_or_low x)).
    induction insights as [|r rs IH]; [cbn [filter List.length]; lia|].
    assert (Hrs : forall x, In x rs -> well_formed x)
      by (intros x Hx; apply Hwf; now right).
    specialize (IH Hrs).
    destruct (Hwf r (or_introl eq_refl)) as [_ [_ Hm]].
    cbn [filter].
    assert (H3 : p1 r || p2 r = true -> p3 r = true).
    { unfold p1, p2, p3, severity_or_low. intro H.
      apply orb_true_iff in H. rewrite !String.eqb_eq in H.
      rewrite Hm; [reflexivity|]. destruct H as [H|H]; auto. }
    assert (H12 : p1 r && p2 r = false).
    { unfold p1, p2. destruct (String.eqb "correlation" (rec_type r)) eqn:E1;
        [|reflexivity].
      apply String.eqb_eq in E1. rewrite <- E1. reflexivity. }
    destruct (p1 r), (p2 r), (p3 r); cbn [List.length];
      try discriminate H12; try (specialize (H3 eq_refl); discriminate H3); lia.
Qed.

End InsightFacts.

Module SegmentFacts.
Import Py PyFacts DictFacts Frame FrameFacts Recommender RecommenderFacts.

(** *** Segments *)

Lemma length_select_labels {A : Type} (i : nat) (clusters : list nat) (data : list A) :
  List.length clusters = List.length data ->
  List.length (select (map (fun c => c =? i) clusters) data)
  = count_occ Nat.eq_dec clusters i.
Proof.
  revert data. induction clusters as [|c cs IH]; intros [|x data] H;
    try discriminate H; [reflexivity|].
  injection H as H. cbn [map select count_occ].
  destruct (Nat.eqb_spec c i) as [E|E]; destruct (Nat.eq_dec c i) as [E'|E'];
    try contradiction; cbn [List.length]; now rewrite IH.
Qed.

Lemma three_labels_count (clusters : list nat) :
  (forall c, In c clusters -> c < 3) ->
  count_occ Nat.eq_dec clusters 0 + count_occ Nat.eq_dec clusters 1
  + count_occ Nat.eq_dec clusters 2 = List.length clusters.
Proof.
  induction clusters as [|c cs IH]; intro H; [reflexivity|].
  assert (Hc : c < 3) by (apply H; now left).
  assert (Hcs : forall x, In x cs -> x < 3) by (intros x Hx; apply H; now right).
  specialize (IH Hcs). cbn [count_occ List.length].
  destruct (Nat.eq_dec c 0), (Nat.eq_dec c 1), (Nat.eq_dec c 2); lia.
Qed.

(** X26. When the scaler and k-means return, k-means giving one label
    below 3 for every row, the three segments of the segmentation insight
    partition the rows that are complete in the first two numeric columns:
    they are numbered 0, 1, 2, their sizes add up to the number of those
    rows (more than ten), and the percentage of each is the double
    [size / rows * 100]. *)
Theorem segments_partition_the_complete_rows
        {numerics : Numerics} {sklearn : Sklearn}
        (df : frame) (cats nums : list string) (r : recommendation) :
  (forall data scaled_data clusters,
      fit_transform data = Some scaled_data ->
      fit_predict scaled_data = Some clusters ->
      List.length clusters = List.length data) ->
  (forall data clusters c,
      fit_predict data = Some clusters -> In c clusters -> c < 3) ->
  _perform_segmentation df cats nums = Some r ->
  exists s0 s1 s2 column1 column2 l1 l2,
    rec_data r = SegmentationData [s0; s1; s2] [column1; column2]
    /\ firstn 2 nums = [column1; column2]
    /\ float_column df column1 = Some l1
    /\ float_column df column2 = Some l2
    /\ map cluster_id [s0; s1; s2] = [0; 1; 2]
    /\ size s0 + size s1 + size s2 = List.length (complete_pairs l1 l2)
    /\ 10 < size s0 + size s1 + size s2
    /\ Forall (fun s =>
                 percentage s
                 = fmul (fdiv (Q_of_nat (size s))
                              (Q_of_nat (List.length (complete_pairs l1 l2)))) 100)
              [s0; s1; s2].
Proof.
  intros Hlen Hlab H. unfold _perform_segmentation in H.
  destruct nums as [|column1 [|column2 others]]; try discriminate H.
  destruct (float_column df column1) as [l1|] eqn:E1; [|discriminate H].
  destruct (float_column df column2) as [l2|] eqn:E2; [|discriminate H].
  destruct (10 <? List.length (complete_pairs l1 l2)) eqn:En; [|discriminate H].
  apply Nat.ltb_lt in En.
  destruct (fit_transform (complete_pairs l1 l2)) as [scaled_data|] eqn:Et;
    [|discriminate H].
  destruct (fit_predict scaled_data) as [clusters|] eqn:Ep; [|discriminate H].
  cbn [seq map _get_segmentation_recommendation] in H.
  apply (f_equal (option_map rec_data)) in H.
  cbn [option_map rec_data] in H. injection H as H.
  set (data := complete_pairs l1 l2) in *.
  assert (Hl : List.length clusters = List.length data)
    by exact (Hlen data scaled_data clusters Et Ep).
  assert (Hc : forall c, In c clusters -> c < 3)
    by (intro c; exact (Hlab scaled_data clusters c Ep)).
  pose proof (three_labels_count clusters Hc) as Hsum.
  rewrite <- !(length_select_labels _ clusters data Hl) in Hsum.
  exists (analyze_cluster column1 column2 data clusters 0),
         (analyze_cluster column1 column2 data clusters 1),
         (analyze_cluster column1 column2 data clusters 2),
         column1, column2, l1, l2.
  split; [now rewrite <- H|]. split; [reflexivity|].
  split; [exact E1|]. split; [exact E2|]. split; [reflexivity|].
  unfold analyze_cluster. cbn [size percentage].
  change (complete_pairs l1 l2) with data. clearbody data.
  split; [lia|]. split; [lia|].
  repeat constructor.
Qed.

Lemma segments_partition_the_complete_rows_witness :
  exists r,
    _perform_segmentation (numerics := plain_numerics) (sklearn := labels_in_turn)
      (customers 11) ["plan"] ["visits"; "spend"] = Some r
    /\ exists s0 s1 s2 column1 column2 l1 l2,
        rec_data r = SegmentationData [s0; s1; s2] [column1; column2]
        /\ firstn 2 ["visits"; "spend"] = [column1; column2]
        /\ float_column (customers 11) column1 = Some l1
        /\ float_column (customers 11) column2 = Some l2
        /\ map cluster_id [s0; s1; s2] = [0; 1; 2]
        /\ size s0 + size s1 + size s2 = List.length (complete_pairs l1 l2)
        /\ 10 < size s0 + size s1 + size s2
        /\ Forall (fun s =>
                     (percentage s
                      = Q_of_nat (size s)
                        / Q_of_nat (List.length (complete_pairs l1 l2)) * 100)%Q)
                  [s0; s1; s2].
Proof.
  eexists. split; [reflexivity|].
  apply (segments_partition_the_complete_rows
           (numerics := plain_numerics) (sklearn := labels_in_turn)
           (customers 11) ["plan"] ["visits"; "spend"]).
  - intros data scaled_data clusters Ht Hp.
    cbn [fit_predict fit_transform labels_in_turn] in Ht, Hp.
    injection Ht as <-. injection Hp as <-.
    now rewrite length_map, length_seq.
  - intros data clusters c Hp Hc. cbn [fit_predict labels_in_turn] in Hp.
    injection Hp as <-.
    apply in_map_iff in Hc as [i [<- _]].
    change (i mod 3 < 3). apply Nat.mod_upper_bound. lia.
  - reflexivity.
Defined.

End SegmentFacts.

Module CorrelationFacts.
Import Py PyFacts DictFacts Frame FrameFacts Recommender RecommenderFacts.

(** *** Correlations *)

Definition strength (t : string * string * Q) : Q := Qabs (snd t).












End CorrelationFacts.

(** ** Charts *)

Module ChartFacts.
Import Py PyFacts DictFacts Frame FrameFacts VizBuilder.
Import LayoutManager LayoutFacts SectionFacts.

Definition chart_kinds : list string :=
  ["histogram"; "box"; "scatter"; "bar"; "pie"; "line"; "heatmap"].

(** A chart as a builder returns it. *)
Definition built_as (t : string) (c : chart) : Prop :=
  chart_type c = Some t /\ chart_config c = no_mode_bar.

Lemma chart_of_built (t title : string) (fig : option json) (c : chart) :
  chart_of t title fig = Some c -> built_as t c.
Proof.
  unfold chart_of. destruct fig; [|discriminate]. intro H.
  injection H as <-. now split.
Qed.

Lemma length_opt_list {A : Type} (o : option A) : List.length (opt_list o) <= 1.
Proof. destruct o; simpl; lia. Qed.

Lemma length_flat_map_le {A B : Type} (f : A -> list B) (n : nat) (l : list A) :
  (forall x, List.length (f x) <= n) ->
  List.length (flat_map f l) <= n * List.length l.
Proof.
  intro H. induction l as [|x l IH]; cbn [flat_map List.length]; [lia|].
  rewrite length_app. specialize (H x). lia.
Qed.

Section WithPlotly.
Context {plotly : Plotly} {numerics : Numerics}.

Lemma numeric_chart_built df cols c :
  In c (_build_numeric_charts df cols) ->
  built_as "histogram" c \/ built_as "box" c
  \/ (built_as "scatter" c /\ 2 <= List.length cols).
Proof.
  unfold _build_numeric_charts. intro H. apply in_app_or in H as [H|H].
  - apply in_flat_map in H as [col [_ H]]. apply in_app_or in H as [H|H];
      apply In_opt_list in H; apply chart_of_built in H; auto.
  - destruct cols as [|x [|y others]]; try contradiction.
    apply In_opt_list in H. apply chart_of_built in H.
    right; right. split; [exact H | cbn [List.length]; lia].
Qed.

Lemma categorical_chart_built df cols c :
  In c (_build_categorical_charts df cols) ->
  built_as "bar" c \/ built_as "pie" c.
Proof.
  unfold _build_categorical_charts. intro H.
  apply in_flat_map in H as [col [_ H]]. apply in_app_or in H as [H|H];
    apply In_opt_list in H.
  - unfold _build_bar_chart in H.
    destruct (column df col) as [[?|?|?]|]; try discriminate H.
    apply chart_of_built in H. auto.
  - unfold _build_pie_chart in H.
    destruct (column df col) as [[?|?|?]|]; try discriminate H.
    apply chart_of_built in H. auto.
Qed.

Lemma time_series_chart_built df dates cols c :
  In c (_build_time_series_charts df dates cols) ->
  built_as "line" c /\ cols <> [].
Proof.
  unfold _build_time_series_charts. intro H.
  apply in_flat_map in H as [d [_ H]].
  destruct cols as [|v others]; [contradiction|].
  apply In_opt_list in H. unfold _build_line_chart in H.
  destruct (column df d) as [[?|?|?]|]; try discriminate H.
  destruct (float_column df v); [|discriminate H].
  apply chart_of_built in H. split; [exact H | discriminate].
Qed.

Lemma heatmap_built df cols c :
  _build_correlation_heatmap df cols = Some c -> built_as "heatmap" c.
Proof.
  unfold _build_correlation_heatmap.
  destruct (all_some (map (float_column df) cols)); [|discriminate].
  apply chart_of_built.
Qed.

(** What a chart of [build_all_charts] is, by the columns it needs. *)
Lemma built_chart_cases df c :
  In c (build_all_charts df) ->
  ((built_as "histogram" c \/ built_as "box" c)
   /\ select_dtypes is_numeric_dtype df <> [])
  \/ ((built_as "scatter" c \/ built_as "heatmap" c)
      /\ 2 <= List.length (select_dtypes is_numeric_dtype df))
  \/ ((built_as "bar" c \/ built_as "pie" c)
      /\ select_dtypes is_object_dtype df <> [])
  \/ (built_as "line" c /\ select_dtypes is_numeric_dtype df <> []
      /\ select_dtypes is_datetime64_any_dtype df <> []).
Proof.
  unfold build_all_charts. intro H.
  set (numeric_cols := select_dtypes is_numeric_dtype df) in *.
  apply in_app_or in H as [H|H].
  { destruct (0 <? List.length numeric_cols) eqn:E; [|contradiction].
    apply Nat.ltb_lt in E.
    assert (Hne : numeric_cols <> []) by (intros Hn; rewrite Hn in E; simpl in E; lia).
    apply numeric_chart_built in H as [H|[H|[H Hl]]];
      [left; auto | left; auto | right; left; auto]. }
  apply in_app_or in H as [H|H].
  { destruct (0 <? List.length (select_dtypes is_object_dtype df)) eqn:E;
      [|contradiction].
    apply Nat.ltb_lt in E.
    assert (Hne : select_dtypes is_object_dtype df <> [])
      by (intros Hn; rewrite Hn in E; simpl in E; lia).
    apply categorical_chart_built in H. right; right; left. auto. }
  apply in_app_or in H as [H|H].
  { destruct (0 <? List.length (select_dtypes is_datetime64_any_dtype df)) eqn:E;
      [|contradiction].
    apply Nat.ltb_lt in E.
    assert (Hne : select_dtypes is_datetime64_any_dtype df <> [])
      by (intros Hn; rewrite Hn in E; simpl in E; lia).
    apply time_series_chart_built in H as [H Hn]. right; right; right. auto. }
  destruct (1 <? List.length numeric_cols) eqn:E; [|contradiction].
  apply Nat.ltb_lt in E. apply In_opt_list in H. apply heatmap_built in H.
  right; left. split; [auto | lia].
Qed.

Lemma built_chart_kind df c :
  In c (build_all_charts df) ->
  exists t, In t chart_kinds /\ built_as t c.
Proof.
  intro H. apply built_chart_cases in H. unfold chart_kinds.
  destruct H as [[[H|H] _]|[[[H|H] _]|[[[H|H] _]|[H _]]]];
    eexists; (split; [|exact H]); simpl; tauto.
Qed.

(** X28. Every chart of [build_all_charts] carries one of the seven
    chart types and the configuration that hides the mode bar.  There are
    at most two charts per numeric column, two per categorical column, one
    per date column, one scatter plot and one heatmap.  Grouped by
    [organize_layout], the charts give at most seven chart sections and
    never the section of charts of unknown type. *)
Theorem built_charts_are_of_seven_types (df : frame) :
  let charts := build_all_charts df in
  (forall c, In c charts ->
             exists t, In t chart_kinds
                       /\ chart_type c = Some t
                       /\ chart_config c = no_mode_bar)
  /\ List.length charts
     <= 2 * List.length (select_dtypes is_numeric_dtype df)
        + 2 * List.length (select_dtypes is_object_dtype df)
        + List.length (select_dtypes is_datetime64_any_dtype df) + 2
  /\ List.length (_create_chart_sections charts) <= 7
  /\ ~ In "chart_section_unknown" (map sec_id (_create_chart_sections charts)).
Proof.
  intro charts.
  assert (Hkind : forall c, In c charts ->
                            exists t, In t chart_kinds /\ built_as t c)
    by (intros c Hc; now apply (built_chart_kind df)).
  assert (Hkeys : forall t cs,
             In (t, cs) (_group_charts_by_type charts) -> In t chart_kinds).
  { intros t cs Hin. rewrite group_charts_grouped in Hin.
    apply (grouped_from_nil_In type_of_chart) in Hin as [-> Hne].
    destruct (filter (with_key type_of_chart t) charts) as [|c cs'] eqn:Ef;
      [contradiction|].
    assert (Hc : In c (filter (with_key type_of_chart t) charts))
      by (rewrite Ef; now left).
    apply filter_In in Hc as [Hc Ht]. unfold with_key in Ht.
    apply String.eqb_eq in Ht.
    destruct (Hkind c Hc) as [t' [Ht' [Hty _]]].
    unfold type_of_chart in Ht. rewrite Hty in Ht. now subst. }
  split; [|split; [|split]].
  - intros c Hc. destruct (Hkind c Hc) as [t [Ht [H1 H2]]]. now exists t.
  - subst charts. unfold build_all_charts.
    set (numeric_cols := select_dtypes is_numeric_dtype df).
    set (categorical_cols := select_dtypes is_object_dtype df).
    set (date_cols := select_dtypes is_datetime64_any_dtype df).
    rewrite !length_app.
    assert (H1 : List.length (if 0 <? List.length numeric_cols
                              then _build_numeric_charts df numeric_cols else [])
                 <= 2 * List.length numeric_cols
                    + (if 1 <? List.length numeric_cols then 1 else 0)).
    { destruct (0 <? List.length numeric_cols); [|simpl; lia].
      unfold _build_numeric_charts. rewrite length_app.
      pose proof (length_flat_map_le
                    (fun col => opt_list (_build_histogram df col)
                                ++ opt_list (_build_box_plot df col))
                    2 numeric_cols) as Hf.
      assert (Hs : List.length
                     match numeric_cols with
                     | x_column :: y_column :: _ =>
                         opt_list (_build_scatter_plot df x_column y_column)
                     | _ => []
                     end
                   <= if 1 <? List.length numeric_cols then 1 else 0).
      { destruct numeric_cols as [|x [|y others]]; cbn [List.length Nat.ltb Nat.leb];
          try lia. apply length_opt_list. }
      assert (Hf' : forall x,
                 List.length (opt_list (_build_histogram df x)
                              ++ opt_list (_build_box_plot df x)) <= 2).
      { intro x. rewrite length_app.
        pose proof (length_opt_list (_build_histogram df x)).
        pose proof (length_opt_list (_build_box_plot df x)). lia. }
      specialize (Hf Hf'). lia. }
    assert (H2 : List.length (if 0 <? List.length categorical_cols
                              then _build_categorical_charts df categorical_cols
                              else [])
                 <= 2 * List.length categorical_cols).
    { destruct (0 <? List.length categorical_cols); [|simpl; lia].
      apply length_flat_map_le. intro x. rewrite length_app.
      pose proof (length_opt_list (_build_bar_chart df x)).
      pose proof (length_opt_list (_build_pie_chart df x)). lia. }
    assert (H3 : List.length (if 0 <? List.length date_cols
                              then _build_time_series_charts df date_cols numeric_cols
                              else [])
                 <= List.length date_cols).
    { destruct (0 <? List.length date_cols); [|simpl; lia].
      unfold _build_time_series_charts.
      pose proof (length_flat_map_le
                    (fun date_col =>
                       match numeric_cols with
                       | value_column :: _ =>
                           opt_list (_build_line_chart df date_col value_column)
                       | [] => []
                       end) 1 date_cols) as Hf.
      assert (Hf' : forall x,
                 List.length
                   match numeric_cols with
                   | value_column :: _ =>
                       opt_list (_build_line_chart df x value_column)
                   | [] => []
                   end <= 1).
      { intro x. destruct numeric_cols; [simpl; lia | apply length_opt_list]. }
      specialize (Hf Hf'). lia. }
    assert (H4 : List.length (if 1 <? List.length numeric_cols
                              then opt_list (_build_correlation_heatmap df numeric_cols)
                              else [])
                 <= if 1 <? List.length numeric_cols then 1 else 0).
    { destruct (1 <? List.length numeric_cols); [apply length_opt_list | simpl; lia]. }
    destruct (1 <? List.length numeric_cols); lia.
  - unfold _create_chart_sections. rewrite length_map.
    rewrite <- (length_map fst).
    change 7 with (List.length chart_kinds).
    apply NoDup_incl_length.
    + rewrite group_charts_grouped.
      apply NoDup_keys_grouped_from. constructor.
    + intros t Ht. apply in_map_iff in Ht as [[t' cs] [<- Hin]].
      now apply (Hkeys t' cs).
  - intro H. apply in_map_iff in H as [s [Hid Hs]].
    unfold _create_chart_sections in Hs.
    apply in_map_iff in Hs as [[t cs] [<- Hin]].
    apply Hkeys in Hin. unfold chart_section in Hid. cbn [sec_id] in Hid.
    assert (Et : t = "unknown").
    { revert Hid. clear. intro H. injection H as H. 
      repeat (injection H as _ H). exact H. }
    subst t. unfold chart_kinds in Hin. simpl in Hin.
    repeat destruct Hin as [Hin|Hin]; try discriminate Hin. contradiction.
Qed.

(** X29. Charts need columns of their own kind: a frame without
    numeric columns gets bar and pie charts only -- no line chart, even
    when it has date columns -- and a frame with one numeric column gets
    neither a scatter plot nor a heatmap. *)
Theorem charts_need_their_columns (df : frame) (c : chart) :
  In c (build_all_charts df) ->
  List.length (select_dtypes is_numeric_dtype df) <= 1 ->
  chart_type c <> Some "scatter" /\ chart_type c <> Some "heatmap"
  /\ (select_dtypes is_numeric_dtype df = [] ->
      chart_type c = Some "bar" \/ chart_type c = Some "pie").
Proof.
  intros H Hn. apply built_chart_cases in H.
  destruct H as [[[[H _]|[H _]] Hne]|[[_ Hl]|[[[[H _]|[H _]] _]|[[H _] [Hne _]]]]];
    try lia; rewrite H;
    (split; [discriminate|]); (split; [discriminate|]);
    intro E; try contradiction; auto.
Qed.

End WithPlotly.

(** A stand-in for Plotly Express, for running examples: every call
    succeeds and yields a figure that holds its title only. *)
Definition titled (title : string) : option json :=
  Some (JObj [("layout", JObj [("title", JStr title)])]).

Definition plain_plotly : Plotly :=
  {| px_histogram := fun _ _ title => titled title;
     px_box := fun _ _ title => titled title;
     px_bar := fun _ title _ => titled title;
     px_pie := fun _ title => titled title;
     px_line := fun _ title _ _ => titled title;
     px_scatter := fun _ _ _ title => titled title;
     px_imshow := fun _ _ title => titled title |}.

(** Visits by day and plan, without a numeric column. *)
Definition visits : frame :=
  [ ("day", Datetime64 [Some 0%Z; Some 86400000000000%Z]);
    ("plan", Object [Some "basic"; Some "plus"]) ].

Lemma charts_need_their_columns_witness :
  exists c,
    In c (build_all_charts (plotly := plain_plotly)
                           (numerics := plain_numerics) visits)
    /\ chart_type c <> Some "scatter" /\ chart_type c <> Some "heatmap"
    /\ (select_dtypes is_numeric_dtype visits = [] ->
        chart_type c = Some "bar" \/ chart_type c = Some "pie").
Proof.
  eexists. split; [left; reflexivity|].
  apply (charts_need_their_columns
           (plotly := plain_plotly) (numerics := plain_numerics) visits).
  - left. reflexivity.
  - vm_compute. lia.
Defined.

End ChartFacts.

(** ** The dashboard route *)

Module RouteFacts.
Import Py PyFacts DictFacts Frame FrameFacts FilterBuilder FilterFacts.
Import CleanerFacts ColumnFacts SortFacts CleanedFacts DuplicateFacts.
Import SelectionFacts SynthesisFacts.

(** The body of the loop of the route's [apply_filters]. *)
Definition route_one (filtered : option frame) (cf : string * filter_config)
  : option frame :=
  match filtered with
  | None => None
  | Some filtered_df =>
      if has_column filtered_df (fst cf)
      then Dashboard.apply_filter filtered_df (fst cf) (snd cf)
      else Some filtered_df
  end.

Lemma route_apply_filters_fold (df : frame) (filters : list (string * filter_config)) :
  Dashboard.apply_filters df filters = fold_left route_one filters (Some df).
Proof.
  unfold Dashboard.apply_filters. generalize (Some df) as acc.
  induction filters as [|[c f] fs IH]; intro acc; [reflexivity|].
  cbn [fold_left]. rewrite IH. reflexivity.
Qed.

Definition is_text (filter_config : filter_config) : bool :=
  match filter_config with
  | TextFilter _ _ _ _ => true
  | _ => false
  end.

(** X19. The [apply_filters] of the dashboard route has no branch for
    text filters: whatever the search text, a text filter changes nothing,
    so the route gives the result it gives without the text filters. *)
Theorem route_ignores_text_filters
        (df : frame) (filters : list (string * filter_config)) :
  Dashboard.apply_filters df filters
  = Dashboard.apply_filters
      df (filter (fun cf => negb (is_text (snd cf))) filters).
Proof.
  rewrite !route_apply_filters_fold. generalize (Some df) as acc.
  induction filters as [|[c f] fs IH]; intro acc; [reflexivity|].
  cbn [fold_left filter snd].
  destruct f; cbn [is_text negb fold_left]; try apply IH.
  assert (E : route_one acc (c, TextFilter placeholder label description current_value)
              = acc).
  { unfold route_one. destruct acc as [d|]; [|reflexivity].
    cbn [fst snd Dashboard.apply_filter]. now destruct (has_column d c). }
  rewrite E. apply IH.
Qed.

Lemma route_default_filter_keeps (df : frame) (c : string) (f : filter_config) :
  rectangular df = true -> complete_numbers_and_text df = true ->
  forall {pandas : Pandas} {numerics : Numerics},
    _detect_filter_type df c = Some f ->
    route_one (Some df) (c, f) = Some df.
Proof.
  intros Hr Hc pandas numerics Hf. unfold route_one, _detect_filter_type in *.
  cbn [fst snd].
  destruct (column df c) as [s|] eqn:Ecol; [|discriminate].
  unfold has_column. rewrite Ecol.
  pose proof (column_kind df c s Hc Ecol) as Hk.
  destruct s as [l|l|l]; [| contradiction |].
  - cbn [is_numeric_dtype] in Hf.
    rewrite (build_range_filter_default df c l Ecol) in Hf.
    inversion Hf; subst. unfold default_range_filter.
    cbn [Dashboard.apply_filter].
    apply (default_range_keeps df c l Hr Ecol Hk).
  - cbn [is_numeric_dtype is_datetime64_any_dtype is_object_dtype] in Hf.
    destruct (nunique (Object l) <=? 50).
    + unfold _build_categorical_filter in Hf. rewrite Ecol in Hf.
      inversion Hf; subst. reflexivity.
    + unfold _build_text_filter in Hf. inversion Hf; subst. reflexivity.
Qed.

Lemma fold_route_one_fixed (df : frame) (filters : list (string * filter_config)) :
  (forall cf, In cf filters -> route_one (Some df) cf = Some df) ->
  fold_left route_one filters (Some df) = Some df.
Proof.
  induction filters as [|cf fs IH]; intro H; [reflexivity|].
  cbn [fold_left]. rewrite (H cf (or_introl eq_refl)).
  apply IH. intros x Hx. apply H. now right.
Qed.

(** X20. A request that sends back the filters of [build_filters]
    unchanged gets the dashboard of a request without filters, provided the
    frame holds text columns and numeric columns without missing values:
    the route's [apply_filters] keeps every row. *)
Theorem default_filters_give_the_unfiltered_dashboard
        {pandas : Pandas} {plotly : VizBuilder.Plotly}
        {numerics : Numerics} {sklearn : Recommender.Sklearn}
        (df : frame) :
  rectangular df = true -> complete_numbers_and_text df = true ->
  Dashboard.apply_filters df (build_filters df) = Some df
  /\ Dashboard.generate_dashboard df (Some (build_filters df))
     = Dashboard.generate_dashboard df None
  /\ Dashboard.generate_dashboard df None = Some (Dashboard.build_dashboard df).
Proof.
  intros Hr Hc.
  assert (E : Dashboard.apply_filters df (build_filters df) = Some df).
  { rewrite route_apply_filters_fold. apply fold_route_one_fixed.
    intros [c f] Hin. apply In_build_filters in Hin as [_ Hf].
    now apply (route_default_filter_keeps df c f Hr Hc). }
  split; [exact E|]. split; [|reflexivity].
  unfold Dashboard.generate_dashboard.
  destruct (build_filters df) as [|x xs]; [reflexivity|].
  now rewrite E.
Qed.

Lemma default_filters_give_the_unfiltered_dashboard_witness :
  Dashboard.apply_filters
    prices (build_filters (pandas := plain_pandas) (numerics := plain_numerics)
                          prices)
  = Some prices
  /\ Dashboard.generate_dashboard
       (plotly := ChartFacts.plain_plotly)
       (numerics := plain_numerics)
       (sklearn := RecommenderFacts.labels_in_turn)
       prices (Some (build_filters (pandas := plain_pandas)
                                   (numerics := plain_numerics) prices))
     = Dashboard.generate_dashboard
         (plotly := ChartFacts.plain_plotly)
         (numerics := plain_numerics)
         (sklearn := RecommenderFacts.labels_in_turn) prices None
  /\ Dashboard.generate_dashboard
       (plotly := ChartFacts.plain_plotly)
       (numerics := plain_numerics)
       (sklearn := RecommenderFacts.labels_in_turn) prices None
     = Some (Dashboard.build_dashboard
               (plotly := ChartFacts.plain_plotly)
               (numerics := plain_numerics)
               (sklearn := RecommenderFacts.labels_in_turn) prices).
Proof.
  apply (default_filters_give_the_unfiltered_dashboard
           (pandas := plain_pandas) (plotly := ChartFacts.plain_plotly)
           (numerics := plain_numerics)
           (sklearn := RecommenderFacts.labels_in_turn) prices);
    reflexivity.
Defined.

End RouteFacts.

Module ConversionFacts.
Import Py PyFacts Dashboard.

(** No array at a position that dictionaries and lists lead to. *)
Fixpoint array_free (obj : value) : bool :=
  match obj with
  | NdArray _ => false
  | Dict d => forallb (fun kv => array_free (snd kv)) d
  | PyList l => forallb array_free l
  | PyTuple _ => true
  | Other _ => true
  end.

Lemma tolist_array_free : forall a, array_free (tolist a) = true.
Proof.
  fix IH 1. intros [x|l]; [reflexivity|]. cbn [tolist array_free].
  induction l as [|a l IHl]; [reflexivity|].
  cbn [map forallb]. now rewrite IH, IHl.
Qed.

Lemma convert_ndarrays_array_free : forall obj, array_free (convert_ndarrays obj) = true.
Proof.
  fix IH 1. intros [a|d|l|l|x]; cbn [convert_ndarrays array_free];
    try reflexivity.
  - apply tolist_array_free.
  - induction d as [|[k v] d IHd]; [reflexivity|].
    cbn [map forallb fst snd]. now rewrite IH, IHd.
  - induction l as [|v l IHl]; [reflexivity|].
    cbn [map forallb]. now rewrite IH, IHl.
Qed.

Lemma convert_ndarrays_fixed :
  forall obj, array_free obj = true -> convert_ndarrays obj = obj.
Proof.
  fix IH 1. intros [a|d|l|l|x]; cbn [convert_ndarrays array_free]; intro H;
    try reflexivity; try discriminate H.
  - f_equal. induction d as [|[k v] d IHd]; [reflexivity|].
    cbn [map forallb fst snd] in *. apply andb_true_iff in H as [H1 H2].
    now rewrite IH, IHd.
  - f_equal. induction l as [|v l IHl]; [reflexivity|].
    cbn [map forallb] in *. apply andb_true_iff in H as [H1 H2].
    now rewrite IH, IHl.
Qed.

(** X30. [convert_ndarrays] leaves no array where dictionaries and lists
    lead, keeps the keys of every dictionary and the length of every list,
    and converting once more changes nothing.  It does not enter other
    containers: a tuple is returned as it is, arrays included. *)
Theorem convert_ndarrays_clears_dicts_and_lists (obj : value) :
  array_free (convert_ndarrays obj) = true
  /\ convert_ndarrays (convert_ndarrays obj) = convert_ndarrays obj
  /\ (forall d, exists d',
        convert_ndarrays (Dict d) = Dict d' /\ map fst d' = map fst d)
  /\ (forall l, exists l',
        convert_ndarrays (PyList l) = PyList l'
        /\ List.length l' = List.length l)
  /\ (forall a, convert_ndarrays (PyTuple [NdArray a]) = PyTuple [NdArray a]).
Proof.
  split; [apply convert_ndarrays_array_free|].
  split; [apply convert_ndarrays_fixed, convert_ndarrays_array_free|].
  split; [|split].
  - intro d. eexists. split; [reflexivity|].
    rewrite map_map. reflexivity.
  - intro l. eexists. split; [reflexivity|]. apply length_map.
  - reflexivity.
Qed.

End ConversionFacts.

(** ** Worked scenarios

    The scenarios that the specification lists for the stages, run on the
    embedding.  The numbers are small integers and halves, on which the
    float operations are exact. *)

Module Scenarios.
Import Frame.

(** A column named [created_at] is filed under dates whatever it holds. *)
Example created_at_is_a_date_column :
  DataCleaner.kind_lists_after
    (DataCleaner.detect_column (pandas := plain_pandas) DataCleaner.__init__
       "created_at" (Object [Some "soon"; Some "later"; Some "never"]))
  = ([], [], ["created_at"], []).
Proof. reflexivity. Qed.

(** Three distinct values over 100 rows make a categorical column. *)
Example three_values_over_100_rows_are_categorical :
  DataCleaner.kind_lists_after
    (DataCleaner.detect_column (pandas := plain_pandas) DataCleaner.__init__
       "colour"
       (Object (List.concat (repeat [Some "red"; Some "green"; Some "blue"; Some "red"]
                                    25))))
  = ([], ["colour"], [], []).
Proof. reflexivity. Qed.

Definition three_days_of_sales : frame :=
  [ ("date", Object [Some "2024-01-01"; Some "2024-01-02"; Some "2024-01-03"]);
    ("sales", Float64 [Some 100%Q; Some 200%Q; Some 50%Q]) ].

(** None of the three sales is outside the bounds (-37.5 and 262.5), so
    the cleaner keeps them. *)
Example three_sales_within_bounds :
  DataCleaner.clean_numeric_series
    (pandas := plain_pandas) (numerics := plain_numerics)
    (Float64 [Some 100%Q; Some 200%Q; Some 50%Q])
  = Float64 [Some 100%Q; Some 200%Q; Some 50%Q].
Proof. reflexivity. Qed.

(** The KPI builder reports their sum, 350, and their count, 3, in its
    first and third card (the second is the average). *)
Example sum_and_count_of_three_sales :
  let kpis := KPIBuilder.build_kpis (numerics := plain_numerics)
                                    three_days_of_sales in
  map (fun k => (Schemas.kpi_id k, Schemas.kpi_val k))
      (firstn 1 kpis ++ firstn 1 (skipn 2 kpis))
  = [ ("sum_sales", Schemas.VFloat (Some 350%Q));
      ("count_sales", Schemas.VInt 3) ].
Proof. reflexivity. Qed.

(** [Red, Red, Blue] gives the options Red (2) and Blue (1), in that order. *)
Example categorical_filter_of_colours :
  FilterBuilder.build_filters (pandas := plain_pandas) (numerics := plain_numerics)
    [("color", Object [Some "Red"; Some "Red"; Some "Blue"])]
  = [("color",
      FilterBuilder.CategoricalFilter
        [ FilterBuilder.mk_filter_option "Red" "Red" 2;
          FilterBuilder.mk_filter_option "Blue" "Blue" 1 ]
        [] "Color" "Filter color by category" true)].
Proof. reflexivity. Qed.

End Scenarios.
